(** * Kernelflinger: boot-target decision, BCB codec, image loaders, handover checks

    A shallow embedding of the parts of [kernelflinger.c] and
    [libkernelflinger/android.c] that decide the boot target, read and rewrite
    the bootloader control block, load and validate boot images and check a
    kernel before the handover jump.

    Conventions.
    - A [CHAR8] is an [ascii]; a [CHAR16] is its code unit as a [Z].  A pointer
      into a character array is the list of the cells from the pointer on; a
      string literal is the list of its characters, the end of the list being
      its terminating NUL.
    - Firmware and library calls whose outcome the code cannot influence are
      read from a [platform] record; what the code mutates (the watchdog
      record, the variable store, the misc partition, the console trace) lives
      in a [state] record that every function threads through.
    - Pool allocations made for short strings ([stra_to_str], [StrDuplicate],
      [get_efi_variable_str]) are taken to succeed; allocations the loaders
      check explicitly are part of their environment. *)

From Stdlib Require Import ZArith Ascii String List Bool Lia.
From stdpp Require Import base list gmap strings.

Local Open Scope Z_scope.

(** ** EFI status codes *)

Inductive EFI_STATUS :=
| EFI_SUCCESS
| EFI_WARN_DELETE_FAILURE
| EFI_LOAD_ERROR
| EFI_INVALID_PARAMETER
| EFI_UNSUPPORTED
| EFI_BAD_BUFFER_SIZE
| EFI_BUFFER_TOO_SMALL
| EFI_NOT_READY
| EFI_DEVICE_ERROR
| EFI_OUT_OF_RESOURCES
| EFI_NOT_FOUND
| EFI_ACCESS_DENIED.

#[global] Instance EFI_STATUS_eq_dec : EqDecision EFI_STATUS.
Proof. solve_decision. Defined.

(** [EFI_ERROR(a)] is [((INTN) a) < 0]: true of the error codes, false of
    [EFI_SUCCESS] and of the warnings. *)
Definition EFI_ERROR (a : EFI_STATUS) : bool :=
  match a with
  | EFI_SUCCESS | EFI_WARN_DELETE_FAILURE => false
  | _ => true
  end.

(** ** Characters and strings *)

Definition CHAR8 := ascii.
Definition CHAR16 := Z.

Definition NUL : CHAR8 := zero.

Definition code8 (c : CHAR8) : Z := Z.of_N (N_of_ascii c).

Definition is_nul (c : CHAR8) : bool := bool_decide (c = NUL).

(** An 8-bit string literal, without its terminator. *)
Definition A (s : string) : list CHAR8 := list_ascii_of_string s.

(** A wide string literal [L"..."], without its terminator. *)
Definition L (s : string) : list CHAR16 := map code8 (list_ascii_of_string s).

(** The NUL-terminated string that starts at a pointer. *)
Fixpoint cstr (mem : list CHAR8) : list CHAR8 :=
  match mem with
  | [] => []
  | c :: rest => if is_nul c then [] else c :: cstr rest
  end.

Definition strlena (mem : list CHAR8) : nat := length (cstr mem).

(** The width of [UINTN] and [INTN]. *)
Definition word_bits (lp64 : bool) : Z := if lp64 then 64 else 32.

Definition UINTN_wrap (lp64 : bool) (z : Z) : Z := z mod 2 ^ word_bits lp64.

Definition INTN_wrap (lp64 : bool) (z : Z) : Z :=
  (z + 2 ^ (word_bits lp64 - 1)) mod 2 ^ word_bits lp64 - 2 ^ (word_bits lp64 - 1).

Definition deref8 (p : list CHAR8) : Z :=
  match p with
  | [] => 0
  | c :: _ => code8 c
  end.

Definition deref16 (p : list CHAR16) : Z :=
  match p with
  | [] => 0
  | c :: _ => c
  end.

(** gnu-efi's [strncmpa]:
    [while ( *s1 && len) { if ( *s1 != *s2) break; s1++; s2++; len--; }
     return len ? *s1 - *s2 : 0;] *)
Fixpoint strncmpa (lp64 : bool) (s1 s2 : list CHAR8) (len : nat) : Z :=
  match len with
  | O => 0
  | S len' =>
      if (deref8 s1 =? 0) then UINTN_wrap lp64 (deref8 s1 - deref8 s2)
      else if negb (deref8 s1 =? deref8 s2) then UINTN_wrap lp64 (deref8 s1 - deref8 s2)
      else strncmpa lp64 (tail s1) (tail s2) len'
  end.

(** gnu-efi's [StrCmp]:
    [while ( *s1) { if ( *s1 != *s2) break; s1++; s2++; } return *s1 - *s2;] *)
Fixpoint StrCmp (s1 s2 : list CHAR16) : Z :=
  match s1 with
  | [] => 0 - deref16 s2
  | c1 :: t1 =>
      if (c1 =? 0) then 0 - deref16 s2
      else if negb (c1 =? deref16 s2) then c1 - deref16 s2
      else StrCmp t1 (tail s2)
  end.

(** Modelled from the spec: [stra_to_str] of lib.c, which is not among the
    sources; it turns the 8-bit string at the pointer into a wide string,
    one code unit per character. *)
Definition stra_to_str (s : list CHAR8) : list CHAR16 := map code8 (cstr s).

(** ** Boot targets ([targets.h]) *)

Inductive boot_target :=
| NORMAL_BOOT
| RECOVERY
| FASTBOOT
| MEMORY
| ESP_EFI_BINARY
| ESP_BOOTIMAGE
| CHARGER
| POWER_OFF
| TDOS
| EXIT_SHELL
| UNKNOWN_TARGET.

#[global] Instance boot_target_eq_dec : EqDecision boot_target.
Proof. solve_decision. Defined.

(** ** The bootloader control block *)

(** [struct bootloader_message { CHAR8 command[32]; CHAR8 status[32]; }] *)
Record bootloader_message := {
  command : list CHAR8;
  status : list CHAR8
}.

Definition bcb_wf (b : bootloader_message) : Prop :=
  length (command b) = 32%nat ∧ length (status b) = 32%nat.

(** A partition as the GPT and disk I/O protocols present it: the status of
    the lookup by label, the status the next [ReadDisk] and [WriteDisk]
    return, and the record stored at the start of the partition. *)
Record partition (T : Type) := {
  gpt_get_partition_by_label_ret : EFI_STATUS;
  ReadDisk_ret : EFI_STATUS;
  WriteDisk_ret : EFI_STATUS;
  stored : T
}.
Arguments gpt_get_partition_by_label_ret {T} _.
Arguments ReadDisk_ret {T} _.
Arguments WriteDisk_ret {T} _.
Arguments stored {T} _.

Definition set_stored {T} (p : partition T) (x : T) : partition T :=
  {| gpt_get_partition_by_label_ret := gpt_get_partition_by_label_ret p;
     ReadDisk_ret := ReadDisk_ret p;
     WriteDisk_ret := WriteDisk_ret p;
     stored := x |}.

(** The outcome of a call with an [OUT] parameter: an error status, or the
    value delivered together with [EFI_SUCCESS]. *)
Inductive result (T : Type) :=
| Err (st : EFI_STATUS)
| Ok (x : T).
Arguments Err {T} _.
Arguments Ok {T} _.

(** [read_bcb] of android.c. *)
Definition read_bcb (misc : partition bootloader_message) : result bootloader_message :=
  if EFI_ERROR (gpt_get_partition_by_label_ret misc) then Err EFI_INVALID_PARAMETER
  else if EFI_ERROR (ReadDisk_ret misc) then Err (ReadDisk_ret misc)
  else
    let bcb := stored misc in
    Ok {| command := <[31%nat := NUL]> (command bcb);
          status := <[31%nat := NUL]> (status bcb) |}.

(** [write_bcb] of android.c: the status and the partition afterwards. *)
Definition write_bcb (misc : partition bootloader_message) (bcb : bootloader_message)
  : EFI_STATUS * partition bootloader_message :=
  if EFI_ERROR (gpt_get_partition_by_label_ret misc) then (EFI_INVALID_PARAMETER, misc)
  else if EFI_ERROR (WriteDisk_ret misc) then (WriteDisk_ret misc, misc)
  else (EFI_SUCCESS, set_stored misc bcb).

(** ** Build configuration and what the sources use but do not define *)

(** The preprocessor switches the modelled functions depend on. *)
Record build := {
  USERFASTBOOT : bool;
  USER : bool;
  LP64 : bool
}.

(** [struct boot_img_hdr] (android.h): the fields the code reads. *)
Record boot_img_hdr := {
  magic : list CHAR8;
  kernel_size : Z;
  ramdisk_size : Z;
  second_size : Z;
  page_size : Z
}.

(** [struct setup_header] of android.c: the fields the code reads. *)
Record setup_header := {
  setup_secs : Z;
  signature : Z;
  header : Z;
  version : Z;
  relocatable_kernel : Z;
  xloadflags : Z;
  ramdisk_max : Z;
  kernel_alignment : Z;
  pref_address : Z;
  init_size : Z;
  handover_offset : Z
}.

(** A boot image buffer: the header at its start, and the setup header of the
    [struct boot_params] found at [bootimage + aosp_header->page_size]. *)
Record bootimage := {
  aosp_header : boot_img_hdr;
  hdr : setup_header
}.

(** Functions and constants of the repository whose definitions are not
    among the sources: the target-name table of targets.c, [strtoul16] of
    lib.c, the key decoding of ui.c with the value of [EV_DOWN], the image
    verifier of security.c, and constants of android.h and efilinux.h. *)
Record externals := {
  name_to_boot_target : list CHAR16 → boot_target;
  strtoul16 : list CHAR16 → Z;
  ui_keycode_to_event : Z → Z;
  EV_DOWN : Z;
  verify_android_boot_image : bootimage → list CHAR8 → EFI_STATUS * list CHAR16;
  BOOT_SIGNATURE_MAX_SIZE : Z;
  SETUP_HDR : Z;
  XLF_EFI_HANDOVER_32 : Z;
  XLF_EFI_HANDOVER_64 : Z
}.

(** Modelled from the spec: [BOOT_MAGIC] and [BOOT_MAGIC_SIZE] of android.h,
    which is not among the sources; the spec speaks of the fixed 8-byte
    magic signature of an Android boot image. *)
Definition BOOT_MAGIC : list CHAR8 := A "ANDROID!".
Definition BOOT_MAGIC_SIZE : nat := 8.

(** ** Constants of kernelflinger.c *)

Definition EFI_RESET_WAIT_MS : Z := 200.
Definition DETECT_KEY_STALL_TIME_MS : Z := 1.
Definition FASTBOOT_HOLD_DELAY : Z := 2 * 1000.
Definition MAGIC_KEY (x : externals) : Z := EV_DOWN x.
Definition FASTBOOT_SENTINEL : list CHAR16 := L "\force_fastboot".
Definition WATCHDOG_COUNTER_MAX : Z := 2.
Definition WATCHDOG_DELAY : Z := 10 * 60.

(** Variable names of vars.h. *)
Definition LOADER_ENTRY_ONESHOT : string := "LoaderEntryOneShot".
Definition MAGIC_KEY_TIMEOUT_VAR : string := "MagicKeyTimeout".

(** ** The platform and the mutable state *)

Inductive reset_sources :=
| RESET_NOT_APPLICABLE
| RESET_OS_INITIATED
| RESET_FORCED
| RESET_FW_UPDATE
| RESET_KERNEL_WATCHDOG
| RESET_SECURITY_WATCHDOG
| RESET_SECURITY_INITIATED
| RESET_PMC_WATCHDOG
| RESET_EC_WATCHDOG
| RESET_PLATFORM_WATCHDOG
| RESET_ERROR.

#[global] Instance reset_sources_eq_dec : EqDecision reset_sources.
Proof. solve_decision. Defined.

Inductive wake_sources :=
| WAKE_NOT_APPLICABLE
| WAKE_BATTERY_INSERTED
| WAKE_USB_CHARGER_INSERTED
| WAKE_ACDC_CHARGER_INSERTED
| WAKE_POWER_BUTTON_PRESSED
| WAKE_RTC_TIMER
| WAKE_BATTERY_REACHED_IA_THRESHOLD
| WAKE_ERROR.

#[global] Instance wake_sources_eq_dec : EqDecision wake_sources.
Proof. solve_decision. Defined.

(** [EFI_TIME]: the fields [efi_time_to_ctime] may read. *)
Record EFI_TIME := {
  Year : Z;
  Month : Z;
  Day : Z;
  Hour : Z;
  Minute : Z;
  Second : Z
}.

Record EFI_INPUT_KEY := {
  ScanCode : Z;
  UnicodeChar : Z
}.

(** What the firmware, the hardware and the user answer during one boot. *)
Record platform := {
  get_current_crash_event_menu : bool;
  get_current_off_mode_charge : bool;
  get_watchdog_status_ret : EFI_STATUS;
  reset_watchdog_status_ret : EFI_STATUS;
  set_watchdog_counter_ret : EFI_STATUS;
  set_watchdog_time_reference_ret : EFI_STATUS;
  rsci_get_reset_source : reset_sources;
  rsci_get_wake_source : wake_sources;
  GetTime_ret : EFI_STATUS;
  GetTime_now : EFI_TIME;
  ux_crash_event_prompt_user_for_boot_target : boot_target;
  get_argv : result (list (list CHAR16));
  file_exists : list CHAR16 → bool;
  ReadKeyStroke : nat → EFI_STATUS * EFI_INPUT_KEY;
  ui_enforce_key_held : Z → Z → bool;
  is_battery_below_boot_OS_threshold : bool;
  is_charger_plugged_in : bool
}.

(** The persisted watchdog record: [UINT8 counter] and its time reference. *)
Record watchdog_status := {
  counter : Z;
  time_reference : EFI_TIME
}.

(** A persisted variable by what the typed accessors make of its data: a
    wide string, an 8-bit string that parses as a number, or other data. *)
Inductive efi_variable :=
| VarStr16 (s : list CHAR16)
| VarLong (n : Z)
| VarData (d : list CHAR8).

(** What the code waits for or shows, and the lines [choose_boot_target]
    itself prints, in order of occurrence.  The messages that the checks and
    the BCB codec print with [debug], [error] and [efi_perror] are not
    recorded. *)
Inductive event :=
| debug (msg : string)
| ConIn_Reset
| Stall (microseconds : Z)
| unittest_main (arg : option (list CHAR16))
| ux_crash_event_prompt
| ux_display_low_battery (seconds : Z)
| debug_selected (ret : boot_target).

Record state := {
  watchdog : watchdog_status;
  efi_vars : gmap string efi_variable;
  misc : partition bootloader_message;
  console : list event
}.

Definition set_watchdog (s : state) (w : watchdog_status) : state :=
  {| watchdog := w; efi_vars := efi_vars s; misc := misc s; console := console s |}.

Definition set_efi_vars (s : state) (v : gmap string efi_variable) : state :=
  {| watchdog := watchdog s; efi_vars := v; misc := misc s; console := console s |}.

Definition set_misc (s : state) (m : partition bootloader_message) : state :=
  {| watchdog := watchdog s; efi_vars := efi_vars s; misc := m; console := console s |}.

Definition emit (e : event) (s : state) : state :=
  {| watchdog := watchdog s; efi_vars := efi_vars s; misc := misc s;
     console := console s ++ [e] |}.

(** ** The variable store and the watchdog record (vars.c, lib.c) *)

(** Modelled from the spec: [get_efi_variable_str] of lib.c, a typed get
    that yields the wide string of a variable, or NULL when the variable is
    absent or is not a string. *)
Definition get_efi_variable_str (s : state) (name : string) : option (list CHAR16) :=
  match efi_vars s !! name with
  | Some (VarStr16 v) => Some v
  | _ => None
  end.

(** Modelled from the spec: [get_efi_variable_long_from_str8] of lib.c, a
    typed get of a parsed integer that fails, leaving its output untouched,
    when the variable is absent or malformed. *)
Definition get_efi_variable_long_from_str8 (s : state) (name : string) : result Z :=
  match efi_vars s !! name with
  | Some (VarLong n) => Ok n
  | Some _ => Err EFI_INVALID_PARAMETER
  | None => Err EFI_NOT_FOUND
  end.

(** Modelled from the spec: [del_efi_variable] of lib.c, delete by name. *)
Definition del_efi_variable (s : state) (name : string) : state :=
  set_efi_vars s (delete name (efi_vars s)).

(** Modelled from the spec: [get_watchdog_status] of vars.c reads the
    persisted counter and time reference. *)
Definition get_watchdog_status (p : platform) (s : state) : result watchdog_status :=
  if EFI_ERROR (get_watchdog_status_ret p) then Err (get_watchdog_status_ret p)
  else Ok (watchdog s).

(** Modelled from the spec: [reset_watchdog_status] of vars.c puts the
    persisted counter back to zero. *)
Definition reset_watchdog_status (p : platform) (s : state) : EFI_STATUS * state :=
  if EFI_ERROR (reset_watchdog_status_ret p) then (reset_watchdog_status_ret p, s)
  else (reset_watchdog_status_ret p,
        set_watchdog s {| counter := 0; time_reference := time_reference (watchdog s) |}).

(** Modelled from the spec: [set_watchdog_counter] of vars.c persists the
    counter. *)
Definition set_watchdog_counter (p : platform) (c : Z) (s : state) : EFI_STATUS * state :=
  if EFI_ERROR (set_watchdog_counter_ret p) then (set_watchdog_counter_ret p, s)
  else (set_watchdog_counter_ret p,
        set_watchdog s {| counter := c; time_reference := time_reference (watchdog s) |}).

(** Modelled from the spec: [set_watchdog_time_reference] of vars.c persists
    the time reference. *)
Definition set_watchdog_time_reference (p : platform) (t : EFI_TIME) (s : state)
  : EFI_STATUS * state :=
  if EFI_ERROR (set_watchdog_time_reference_ret p)
  then (set_watchdog_time_reference_ret p, s)
  else (set_watchdog_time_reference_ret p,
        set_watchdog s {| counter := counter (watchdog s); time_reference := t |}).

(** ** The checks of kernelflinger.c *)

(** [check_fastboot_sentinel] *)
Definition check_fastboot_sentinel (p : platform) (s : state) : boot_target * state :=
  if file_exists p FASTBOOT_SENTINEL then (FASTBOOT, s) else (NORMAL_BOOT, s).

(** The first lines of [check_magic_key]: [wait_ms] once the timeout
    variable has been consulted. *)
Definition magic_key_wait_ms (s : state) : Z :=
  match get_efi_variable_long_from_str8 s MAGIC_KEY_TIMEOUT_VAR with
  | Err _ => EFI_RESET_WAIT_MS
  | Ok wait_ms => if wait_ms >? 1000 then EFI_RESET_WAIT_MS else wait_ms
  end.

(** The polling loop of [check_magic_key],
    [for (i = 0; i <= wait_ms; i += DETECT_KEY_STALL_TIME_MS)], entered at
    index [i] with [remaining = wait_ms - i]: the last status and key, the
    final [i], and the state. *)
Fixpoint poll_magic_key (p : platform) (remaining : nat) (i : nat) (s : state)
  : EFI_STATUS * EFI_INPUT_KEY * nat * state :=
  let '(ret, key) := ReadKeyStroke p i in
  match remaining with
  | O => (ret, key, i, s)
  | S remaining' =>
      if bool_decide (ret = EFI_SUCCESS) then (ret, key, i, s)
      else poll_magic_key p remaining' (S i)
             (emit (Stall (DETECT_KEY_STALL_TIME_MS * 1000)) s)
  end.

(** [check_magic_key] *)
Definition check_magic_key (b : build) (x : externals) (p : platform) (s : state)
  : boot_target * state :=
  let s := emit ConIn_Reset s in
  let wait_ms := magic_key_wait_ms s in
  let '(ret, key, _, s) := poll_magic_key p (Z.to_nat wait_ms) 0 s in
  if EFI_ERROR ret then (NORMAL_BOOT, s)
  else if negb (ui_keycode_to_event x (ScanCode key) =? MAGIC_KEY x) then (NORMAL_BOOT, s)
  else if USERFASTBOOT b then
    if ui_enforce_key_held p FASTBOOT_HOLD_DELAY (MAGIC_KEY x)
    then (FASTBOOT, s) else (RECOVERY, s)
  else
    if ui_enforce_key_held p FASTBOOT_HOLD_DELAY (MAGIC_KEY x)
    then (FASTBOOT, s) else (NORMAL_BOOT, s).

(** [L'\\'], the first character of a path on the system partition. *)
Definition BACKSLASH : CHAR16 := 92.

(** The commands of a control block: which prefix the command carries. *)
Definition is_boot_command (b : build) (cmd : list CHAR8) : bool :=
  strncmpa (LP64 b) cmd (A "boot-") 5 =? 0.

Definition is_bootonce_command (b : build) (cmd : list CHAR8) : bool :=
  strncmpa (LP64 b) cmd (A "bootonce-") 9 =? 0.

(** The tail of [check_bcb], from [if (target[0] == L'\\')] on. *)
Definition resolve_bcb_target (x : externals) (p : platform) (target : list CHAR16)
  : boot_target * option (list CHAR16) :=
  if deref16 target =? BACKSLASH then
    if negb (file_exists p target) then (NORMAL_BOOT, None)
    else
      let len := length target in
      if (4 <? Z.of_nat len) then
        if (StrCmp (drop (len - 4) target) (L ".efi") =? 0)
           || (StrCmp (drop (len - 4) target) (L ".EFI") =? 0)
        then (ESP_EFI_BINARY, Some target)
        else (ESP_BOOTIMAGE, Some target)
      else (NORMAL_BOOT, None)
  else
    let t := name_to_boot_target x target in
    if bool_decide (t ≠ UNKNOWN_TARGET) then (t, None) else (NORMAL_BOOT, None).

(** The record [check_bcb] hands to [write_bcb], the target string it
    extracted, and the one-shot flag. *)
Definition interpret_bcb (b : build) (bcb : bootloader_message)
  : bootloader_message * option (list CHAR16) * bool :=
  let bcb := {| command := command bcb; status := <[0%nat := NUL]> (status bcb) |} in
  if is_boot_command b (command bcb) then
    (bcb, Some (stra_to_str (drop 5 (command bcb))), false)
  else if is_bootonce_command b (command bcb) then
    ({| command := <[0%nat := NUL]> (command bcb); status := status bcb |},
     Some (stra_to_str (drop 9 (command bcb))), true)
  else (bcb, None, false).

(** [check_bcb]: the target, [*target_path], [*oneshot] and the state. *)
Definition check_bcb (b : build) (x : externals) (p : platform) (s : state)
  : boot_target * option (list CHAR16) * bool * state :=
  match read_bcb (misc s) with
  | Err _ => (NORMAL_BOOT, None, false, s)
  | Ok bcb =>
      let '(bcb, target, oneshot) := interpret_bcb b bcb in
      let s := set_misc s (snd (write_bcb (misc s) bcb)) in
      match target with
      | None => (NORMAL_BOOT, None, oneshot, s)
      | Some target =>
          let '(t, target_path) := resolve_bcb_target x p target in
          (t, target_path, oneshot, s)
      end
  end.

(** A target name: not a path on the system partition, and known to
    [name_to_boot_target]. *)
Definition valid_target_name (x : externals) (X : list CHAR8) : Prop :=
  deref16 (map code8 X) ≠ BACKSLASH
  ∧ name_to_boot_target x (map code8 X) ≠ UNKNOWN_TARGET.

(** What the BCB check and the one-shot check make of a target name. *)
Definition named_target (x : externals) (name : list CHAR16) : boot_target :=
  if bool_decide (name_to_boot_target x name = UNKNOWN_TARGET) then NORMAL_BOOT
  else name_to_boot_target x name.

(** [check_loader_entry_one_shot] *)
Definition check_loader_entry_one_shot (x : externals) (p : platform) (s : state)
  : boot_target * state :=
  let target := get_efi_variable_str s LOADER_ENTRY_ONESHOT in
  let s := del_efi_variable s LOADER_ENTRY_ONESHOT in
  match target with
  | None => (NORMAL_BOOT, s)
  | Some target =>
      let ret := name_to_boot_target x target in
      if bool_decide (ret = UNKNOWN_TARGET) then (NORMAL_BOOT, s)
      else if bool_decide (ret = CHARGER) && negb (get_current_off_mode_charge p)
      then (POWER_OFF, s)
      else (ret, s)
  end.

(** [is_a_leap_year]; [%] is C's remainder. *)
Definition is_a_leap_year (year : Z) : bool :=
  ((Z.rem year 4 =? 0) && negb (Z.rem year 100 =? 0)) || (Z.rem year 400 =? 0).

Definition DAY_OF_MONTH : list Z := [31; 28; 31; 30; 31; 30; 31; 31; 30; 31; 30; 31].

(** [for (i = 1970; i < time->Year; i++) days += is_a_leap_year(i) ? 365 : 366;]
    with [n] iterations left. *)
Fixpoint year_days (n : nat) (i : Z) (days : Z) : Z :=
  match n with
  | O => days
  | S n' => year_days n' (i + 1) (days + (if is_a_leap_year i then 365 else 366))
  end.

(** [for (i = 0; i + 1 < time->Month; i++) days += DAY_OF_MONTH[i];] with
    [n] iterations left.  The array has twelve cells; the source reads past
    it when [Month] exceeds 13, which is rendered as adding 0. *)
Fixpoint month_days (table : list Z) (n : nat) (i : nat) (days : Z) : Z :=
  match n with
  | O => days
  | S n' => month_days table n' (S i) (days + nth i table 0)
  end.

(** [efi_time_to_ctime] *)
Definition efi_time_to_ctime (b : build) (time : EFI_TIME) : Z :=
  let days := year_days (Z.to_nat (Year time - 1970)) 1970 0 in
  let table := if is_a_leap_year (Year time) then <[1%nat := 29]> DAY_OF_MONTH
               else DAY_OF_MONTH in
  let days := month_days table (Z.to_nat (Month time - 1)) 0 days in
  INTN_wrap (LP64 b)
    (days * 24 * 3600 + Hour time * 3600 + Minute time * 60 + Second time).

Definition is_watchdog_reset (r : reset_sources) : bool :=
  bool_decide (r = RESET_KERNEL_WATCHDOG) || bool_decide (r = RESET_SECURITY_WATCHDOG).

(** The counter of [check_watchdog] after
    [if (counter > 0) { time_diff = ...; if (...) counter = 0; }]. *)
Definition watchdog_window_counter (b : build) (counter : Z) (now time_ref : EFI_TIME) : Z :=
  if 0 <? counter then
    let time_diff :=
      INTN_wrap (LP64 b) (efi_time_to_ctime b now - efi_time_to_ctime b time_ref) in
    if (time_diff <? 0) || (WATCHDOG_DELAY <? time_diff) then 0 else counter
  else counter.

(** [check_watchdog] *)
Definition check_watchdog (b : build) (p : platform) (s : state) : boot_target * state :=
  if negb (get_current_crash_event_menu p) then (NORMAL_BOOT, s)
  else
    match get_watchdog_status p s with
    | Err _ => (NORMAL_BOOT, s)
    | Ok st =>
        let counter := counter st in
        let time_ref := time_reference st in
        if negb (is_watchdog_reset (rsci_get_reset_source p)) then
          if negb (counter =? 0) then (NORMAL_BOOT, snd (reset_watchdog_status p s))
          else (NORMAL_BOOT, s)
        else if EFI_ERROR (GetTime_ret p) then (NORMAL_BOOT, s)
        else
          let now := GetTime_now p in
          let counter := watchdog_window_counter b counter now time_ref in
          let '(ret, s) :=
            if counter =? 0 then set_watchdog_time_reference p now s
            else (EFI_SUCCESS, s) in
          if EFI_ERROR ret then (NORMAL_BOOT, s)
          else
            let counter := (counter + 1) mod 256 in
            if counter <=? WATCHDOG_COUNTER_MAX then
              (NORMAL_BOOT, snd (set_watchdog_counter p counter s))
            else
              let s := snd (reset_watchdog_status p s) in
              (ux_crash_event_prompt_user_for_boot_target p, emit ux_crash_event_prompt s)
    end.

(** The argument loop of [check_command_line]; [first] tells whether [pos]
    is 0.  It yields the target, [*address] and the state. *)
Fixpoint check_command_line_loop (b : build) (x : externals) (first : bool)
    (argv : list (list CHAR16)) (bt : boot_target) (address : Z) (s : state)
  : boot_target * Z * state :=
  match argv with
  | [] => (bt, address, s)
  | arg :: rest =>
      if negb (USERFASTBOOT b) && (StrCmp arg (L "-f") =? 0) then
        check_command_line_loop b x false rest FASTBOOT address s
      else if negb (USER b) && (StrCmp arg (L "-U") =? 0) then
        (EXIT_SHELL, address, emit (unittest_main (head rest)) s)
      else if StrCmp arg (L "-a") =? 0 then
        match rest with
        | [] => (bt, address, s)
        | addr :: rest' =>
            if USERFASTBOOT b
            then check_command_line_loop b x false rest' MEMORY (strtoul16 x addr) s
            else check_command_line_loop b x false rest' FASTBOOT address s
        end
      else if first then check_command_line_loop b x false rest bt address s
      else (bt, address, s)
  end.

(** [check_command_line]; a NULL [*address] is 0. *)
Definition check_command_line (b : build) (x : externals) (p : platform) (s : state)
  : boot_target * Z * state :=
  match get_argv p with
  | Err _ => (NORMAL_BOOT, 0, s)
  | Ok argv => check_command_line_loop b x true argv NORMAL_BOOT 0 s
  end.

(** [check_battery_inserted] *)
Definition check_battery_inserted (p : platform) (s : state) : boot_target * state :=
  if bool_decide (rsci_get_wake_source p = WAKE_BATTERY_INSERTED) then (POWER_OFF, s)
  else (NORMAL_BOOT, s).

(** [check_charge_mode] *)
Definition check_charge_mode (p : platform) (s : state) : boot_target * state :=
  if negb (get_current_off_mode_charge p) then (NORMAL_BOOT, s)
  else if bool_decide (rsci_get_wake_source p = WAKE_USB_CHARGER_INSERTED)
          || bool_decide (rsci_get_wake_source p = WAKE_ACDC_CHARGER_INSERTED)
  then (CHARGER, s)
  else (NORMAL_BOOT, s).

(** [check_battery] *)
Definition check_battery (p : platform) (s : state) : boot_target * state :=
  if is_battery_below_boot_OS_threshold p then
    if is_charger_plugged_in p then (CHARGER, s) else (POWER_OFF, s)
  else (NORMAL_BOOT, s).

(** ** [choose_boot_target] *)

(** The three [OUT] parameters of [choose_boot_target]. *)
Record outputs := {
  target_address : Z;
  target_path : option (list CHAR16);
  oneshot : bool
}.

(** [choose_boot_target]; its last line, at the label [out], is
    [debug(L"Bootlogic: selected '%s'", boot_target_description(ret))]. *)
Definition choose_boot_target (b : build) (x : externals) (p : platform) (s : state)
  : boot_target * outputs * state :=
  let o := {| target_address := 0; target_path := None; oneshot := true |} in
  let s := emit (debug "Bootlogic: Choosing boot target") s in
  let s := emit (debug "Bootlogic: Check watchdog...") s in
  let '(ret, s) := check_watchdog b p s in
  if bool_decide (ret ≠ NORMAL_BOOT) then (ret, o, emit (debug_selected ret) s) else
  let s := emit (debug "Bootlogic: Check osloader command line...") s in
  let '(ret, address, s) := check_command_line b x p s in
  let o := {| target_address := address; target_path := target_path o;
              oneshot := oneshot o |} in
  if bool_decide (ret ≠ NORMAL_BOOT) then (ret, o, emit (debug_selected ret) s) else
  let s := emit (debug "Bootlogic: Check fastboot sentinel...") s in
  let '(ret, s) := check_fastboot_sentinel p s in
  if bool_decide (ret ≠ NORMAL_BOOT) then (ret, o, emit (debug_selected ret) s) else
  let s := emit (debug "Bootlogic: Check magic key...") s in
  let '(ret, s) := check_magic_key b x p s in
  if bool_decide (ret ≠ NORMAL_BOOT) then (ret, o, emit (debug_selected ret) s) else
  let s := emit (debug "Bootlogic: Check battery insertion...") s in
  let '(ret, s) := check_battery_inserted p s in
  if bool_decide (ret ≠ NORMAL_BOOT) then (ret, o, emit (debug_selected ret) s) else
  let s := emit (debug "Bootlogic: Check BCB...") s in
  let '(ret, path, once, s) := check_bcb b x p s in
  let o := {| target_address := target_address o; target_path := path;
              oneshot := once |} in
  if bool_decide (ret ≠ NORMAL_BOOT) then (ret, o, emit (debug_selected ret) s) else
  let s := emit (debug "Bootlogic: Check reboot target...") s in
  let '(ret, s) := check_loader_entry_one_shot x p s in
  if bool_decide (ret ≠ NORMAL_BOOT) then (ret, o, emit (debug_selected ret) s) else
  let s := emit (debug "Bootlogic: Check battery level...") s in
  let '(ret, s) := check_battery p s in
  let s := if bool_decide (ret = POWER_OFF) then emit (ux_display_low_battery 3) s
           else s in
  if bool_decide (ret ≠ NORMAL_BOOT) then (ret, o, emit (debug_selected ret) s) else
  let s := emit (debug "Bootlogic: Check charger insertion...") s in
  let '(ret, s) := check_charge_mode p s in
  (ret, o, emit (debug_selected ret) s).

(** ** The decision chain as the specification words it *)

(** The names of the nine checks. *)
Inductive check_name :=
| Watchdog
| Command_line
| Fastboot_sentinel
| Magic_key
| Battery_inserted
| BCB
| One_shot_variable
| Low_battery
| Charge_mode.

(** A check answers with a target, [NORMAL_BOOT] meaning that it defers, and
    leaves the outputs and the state as the following check finds them. *)
Definition check := outputs * state → boot_target * (outputs * state).

(** Run the checks top to bottom; the first answer other than [NORMAL_BOOT]
    is the decision and ends the run; [NORMAL_BOOT] if every check defers. *)
Fixpoint first_decision (chain : list (check_name * check)) (os : outputs * state)
  : boot_target * (outputs * state) :=
  match chain with
  | [] => (NORMAL_BOOT, os)
  | (_, c) :: rest =>
      let '(t, os') := c os in
      if bool_decide (t = NORMAL_BOOT) then first_decision rest os' else (t, os')
  end.

(** [all_defer chain os os']: every check of [chain], run in order from
    [os], answered [NORMAL_BOOT], and the run ended in [os']. *)
Inductive all_defer : list (check_name * check) → outputs * state → outputs * state → Prop :=
| all_defer_nil os : all_defer [] os os
| all_defer_cons n (c : check) rest os os1 os' :
    c os = (NORMAL_BOOT, os1) →
    all_defer rest os1 os' →
    all_defer ((n, c) :: rest) os os'.

(** Each check of [choose_boot_target] as a link of the chain: the line
    that announces it, the call, and what the call stores in the outputs. *)
Definition link_watchdog (b : build) (p : platform) : check := fun '(o, s) =>
  let '(ret, s) := check_watchdog b p (emit (debug "Bootlogic: Check watchdog...") s) in
  (ret, (o, s)).

Definition link_command_line (b : build) (x : externals) (p : platform) : check :=
  fun '(o, s) =>
  let '(ret, address, s) :=
    check_command_line b x p (emit (debug "Bootlogic: Check osloader command line...") s) in
  (ret, ({| target_address := address; target_path := target_path o;
            oneshot := oneshot o |}, s)).

Definition link_fastboot_sentinel (p : platform) : check := fun '(o, s) =>
  let '(ret, s) :=
    check_fastboot_sentinel p (emit (debug "Bootlogic: Check fastboot sentinel...") s) in
  (ret, (o, s)).

Definition link_magic_key (b : build) (x : externals) (p : platform) : check :=
  fun '(o, s) =>
  let '(ret, s) := check_magic_key b x p (emit (debug "Bootlogic: Check magic key...") s) in
  (ret, (o, s)).

Definition link_battery_inserted (p : platform) : check := fun '(o, s) =>
  let '(ret, s) :=
    check_battery_inserted p (emit (debug "Bootlogic: Check battery insertion...") s) in
  (ret, (o, s)).

Definition link_bcb (b : build) (x : externals) (p : platform) : check := fun '(o, s) =>
  let '(ret, path, once, s) := check_bcb b x p (emit (debug "Bootlogic: Check BCB...") s) in
  (ret, ({| target_address := target_address o; target_path := path; oneshot := once |}, s)).

Definition link_one_shot (x : externals) (p : platform) : check := fun '(o, s) =>
  let '(ret, s) :=
    check_loader_entry_one_shot x p (emit (debug "Bootlogic: Check reboot target...") s) in
  (ret, (o, s)).

Definition link_low_battery (p : platform) : check := fun '(o, s) =>
  let '(ret, s) := check_battery p (emit (debug "Bootlogic: Check battery level...") s) in
  (ret, (o, if bool_decide (ret = POWER_OFF) then emit (ux_display_low_battery 3) s else s)).

Definition link_charge_mode (p : platform) : check := fun '(o, s) =>
  let '(ret, s) :=
    check_charge_mode p (emit (debug "Bootlogic: Check charger insertion...") s) in
  (ret, (o, s)).

Definition boot_chain (b : build) (x : externals) (p : platform)
  : list (check_name * check) :=
  [ (Watchdog, link_watchdog b p);
    (Command_line, link_command_line b x p);
    (Fastboot_sentinel, link_fastboot_sentinel p);
    (Magic_key, link_magic_key b x p);
    (Battery_inserted, link_battery_inserted p);
    (BCB, link_bcb b x p);
    (One_shot_variable, link_one_shot x p);
    (Low_battery, link_low_battery p);
    (Charge_mode, link_charge_mode p) ].

Definition fixed_order : list check_name :=
  [ Watchdog; Command_line; Fastboot_sentinel; Magic_key; Battery_inserted;
    BCB; One_shot_variable; Low_battery; Charge_mode ].

(** The outputs and the state [choose_boot_target] starts its checks from. *)
Definition chain_start (s : state) : outputs * state :=
  ({| target_address := 0; target_path := None; oneshot := true |},
   emit (debug "Bootlogic: Choosing boot target") s).

(** ** Image validation (kernelflinger.c) *)

(** [!expected || StrCmp(expected, target)] *)
Definition label_differs (expected : option (list CHAR16)) (target : list CHAR16) : bool :=
  match expected with
  | None => true
  | Some e => negb (StrCmp e target =? 0)
  end.

(** [validate_bootimage] *)
Definition validate_bootimage (b : build) (x : externals) (boot_target : boot_target)
    (image : bootimage) (keystore : list CHAR8) : EFI_STATUS :=
  let '(ret, target) := verify_android_boot_image x image keystore in
  if EFI_ERROR ret then EFI_ACCESS_DENIED
  else
    let '(expected, expected2) :=
      match boot_target with
      | NORMAL_BOOT => (Some (L "/boot"), Some (L "/recovery"))
      | CHARGER => (Some (L "/boot"), None)
      | RECOVERY => (Some (L "/recovery"), None)
      | ESP_BOOTIMAGE =>
          (Some (L "/boot"), if USERFASTBOOT b then Some (L "/fastboot") else None)
      | _ => (None, None)
      end in
    if label_differs expected target && label_differs expected2 target
    then EFI_ACCESS_DENIED
    else EFI_SUCCESS.

(** ** Image loaders (android.c) *)

Definition UINT32_wrap (z : Z) : Z := z mod 2 ^ 32.

(** [pagealign]: [(blob_size + page_mask) & ~page_mask] on [UINT32]. *)
Definition pagealign (h : boot_img_hdr) (blob_size : Z) : Z :=
  let page_mask := UINT32_wrap (page_size h - 1) in
  Z.land (UINT32_wrap (blob_size + page_mask)) (UINT32_wrap (Z.lnot page_mask)).

(** [bootimage_size]: the sum is formed in [UINT32] and widened. *)
Definition bootimage_size (h : boot_img_hdr) : Z :=
  UINT32_wrap (pagealign h (kernel_size h) + pagealign h (ramdisk_size h)
               + pagealign h (second_size h) + page_size h).

(** [strncmpa((CHAR8 * )BOOT_MAGIC, hdr->magic, BOOT_MAGIC_SIZE)] is non-zero *)
Definition bad_magic (b : build) (h : boot_img_hdr) : bool :=
  negb (strncmpa (LP64 b) BOOT_MAGIC (magic h) BOOT_MAGIC_SIZE =? 0).

(** What [android_image_load_partition] meets: the partition lookup, the two
    reads, the pool, and the image that lies at the start of the partition. *)
Record image_partition := {
  part_gpt_ret : EFI_STATUS;
  part_read_header_ret : EFI_STATUS;
  part_AllocatePool : Z → bool;
  part_read_image_ret : EFI_STATUS;
  part_image : bootimage
}.

(** [android_image_load_partition]: the status and [*bootimage_p]. *)
Definition android_image_load_partition (b : build) (x : externals)
    (part : image_partition) : EFI_STATUS * option bootimage :=
  if EFI_ERROR (part_gpt_ret part) then (part_gpt_ret part, None)
  else if EFI_ERROR (part_read_header_ret part) then (part_read_header_ret part, None)
  else if bad_magic b (aosp_header (part_image part)) then (EFI_INVALID_PARAMETER, None)
  else
    let img_size :=
      UINT32_wrap (bootimage_size (aosp_header (part_image part))
                   + BOOT_SIGNATURE_MAX_SIZE x) in
    if negb (part_AllocatePool part img_size) then (EFI_OUT_OF_RESOURCES, None)
    else if EFI_ERROR (part_read_image_ret part) then (part_read_image_ret part, None)
    else (EFI_SUCCESS, Some (part_image part)).

(** What [android_image_load_file] meets, call by call, and the image the
    file holds. *)
Record image_file := {
  FileDevicePath_ok : bool;
  HandleProtocol_ret : EFI_STATUS;
  OpenVolume_ret : EFI_STATUS;
  Open_ret : EFI_STATUS;
  AllocatePool_fileinfo : bool;
  GetInfo_ret : EFI_STATUS;
  AllocatePool_fileinfo_again : bool;
  GetInfo_again_ret : EFI_STATUS;
  AllocatePool_image : bool;
  Read_ret : EFI_STATUS;
  AllocatePool_image_again : bool;
  Read_again_ret : EFI_STATUS;
  Delete_ret : EFI_STATUS;
  file_image : bootimage
}.

(** How a run of the file loader ends: with a status, [*bootimage_p] and
    whether the file was deleted, or by reading the magic through a null
    buffer. *)
Inductive load_file_outcome :=
| Loaded (ret : EFI_STATUS) (bootimage_p : option bootimage) (deleted : bool)
| Null_dereference.

(** The labels [out] and [out_free] of [android_image_load_file]. *)
Definition load_file_out (f : image_file) (delete : bool) (ret : EFI_STATUS)
    (image : option bootimage) : load_file_outcome :=
  let deleted := delete && bool_decide (Delete_ret f = EFI_SUCCESS) in
  if bool_decide (ret = EFI_SUCCESS) then Loaded ret image deleted
  else Loaded ret None deleted.

(** From [buffersize = fileinfo->FileSize] to the magic check. *)
Definition load_file_read (b : build) (f : image_file) (delete : bool)
  : load_file_outcome :=
  if negb (AllocatePool_image f) then load_file_out f delete EFI_OUT_OF_RESOURCES None
  else
    let '(ret, image) :=
      if bool_decide (Read_ret f = EFI_BUFFER_TOO_SMALL)
      then (Read_again_ret f,
            if AllocatePool_image_again f then Some (file_image f) else None)
      else (Read_ret f, Some (file_image f)) in
    if EFI_ERROR ret then load_file_out f delete ret image
    else
      match image with
      | None => Null_dereference
      | Some img =>
          if bad_magic b (aosp_header img)
          then load_file_out f delete EFI_INVALID_PARAMETER image
          else load_file_out f delete ret image
      end.

(** [android_image_load_file] *)
Definition android_image_load_file (b : build) (f : image_file) (delete : bool)
  : load_file_outcome :=
  if negb (FileDevicePath_ok f) then Loaded EFI_INVALID_PARAMETER None false
  else if EFI_ERROR (HandleProtocol_ret f) then Loaded (HandleProtocol_ret f) None false
  else if EFI_ERROR (OpenVolume_ret f) then Loaded (OpenVolume_ret f) None false
  else if EFI_ERROR (Open_ret f) then Loaded (Open_ret f) None false
  else if negb (AllocatePool_fileinfo f) then Loaded EFI_OUT_OF_RESOURCES None false
  else if bool_decide (GetInfo_ret f = EFI_BUFFER_TOO_SMALL) then
    if negb (AllocatePool_fileinfo_again f) then Loaded EFI_OUT_OF_RESOURCES None false
    else if EFI_ERROR (GetInfo_again_ret f)
    then load_file_out f delete (GetInfo_again_ret f) None
    else load_file_read b f delete
  else if EFI_ERROR (GetInfo_ret f) then load_file_out f delete (GetInfo_ret f) None
  else load_file_read b f delete.

(** The path by which [android_image_load_file] reaches its magic check:
    the file was opened, sized and read into a buffer. *)
Definition file_is_read (f : image_file) : bool :=
  FileDevicePath_ok f
  && negb (EFI_ERROR (HandleProtocol_ret f))
  && negb (EFI_ERROR (OpenVolume_ret f))
  && negb (EFI_ERROR (Open_ret f))
  && AllocatePool_fileinfo f
  && (if bool_decide (GetInfo_ret f = EFI_BUFFER_TOO_SMALL)
      then AllocatePool_fileinfo_again f && negb (EFI_ERROR (GetInfo_again_ret f))
      else negb (EFI_ERROR (GetInfo_ret f)))
  && AllocatePool_image f
  && (if bool_decide (Read_ret f = EFI_BUFFER_TOO_SMALL)
      then AllocatePool_image_again f && negb (EFI_ERROR (Read_again_ret f))
      else negb (EFI_ERROR (Read_ret f))).

(** The path by which [android_image_load_partition] reaches its magic
    check: the partition was found and its header read. *)
Definition header_is_read (part : image_partition) : bool :=
  negb (EFI_ERROR (part_gpt_ret part)) && negb (EFI_ERROR (part_read_header_ret part)).

(** ** Kernel handover (android.c) *)

(** What the handover stages meet: the outcome of [setup_command_line],
    which is decided by allocations and variables outside this model, and the
    memory allocations of [setup_ramdisk] and [handover_kernel]. *)
Record handover_env := {
  setup_command_line_ret : EFI_STATUS;
  emalloc_ramdisk : result Z;
  allocate_pages_pref_address_ret : EFI_STATUS;
  emalloc_kernel : result Z;
  allocate_pages_boot_params : result Z
}.

(** The irreversible step: [handover_jump] calls the kernel entry point. *)
Inductive handover_event :=
| handover_jump (entry : Z).

(** [setup_ramdisk] *)
Definition setup_ramdisk (e : handover_env) (image : bootimage) : EFI_STATUS :=
  let rsize := ramdisk_size (aosp_header image) in
  if rsize =? 0 then EFI_SUCCESS
  else
    match emalloc_ramdisk e with
    | Err ret => ret
    | Ok ramdisk_addr =>
        if ramdisk_max (hdr image) <? ramdisk_addr then EFI_OUT_OF_RESOURCES
        else EFI_SUCCESS
    end.

(** [handover_kernel]; the status is the one returned should the kernel
    entry point ever return. *)
Definition handover_kernel (b : build) (e : handover_env) (image : bootimage)
  : EFI_STATUS * list handover_event :=
  let kernel_start :=
    if EFI_ERROR (allocate_pages_pref_address_ret e) then emalloc_kernel e
    else Ok (pref_address (hdr image)) in
  match kernel_start with
  | Err ret => (ret, [])
  | Ok kernel_start =>
      match allocate_pages_boot_params e with
      | Err ret => (ret, [])
      | Ok _ =>
          let kernel_start := if LP64 b then kernel_start + 512 else kernel_start in
          (EFI_LOAD_ERROR,
           [handover_jump (UINTN_wrap (LP64 b) (kernel_start + handover_offset (hdr image)))])
      end
  end.

(** The handover capability flag of the build. *)
Definition handover_flag (b : build) (x : externals) : Z :=
  if LP64 b then XLF_EFI_HANDOVER_64 x else XLF_EFI_HANDOVER_32 x.

(** [android_image_start_buffer]; a NULL [bootimage] is [None]. *)
Definition android_image_start_buffer (b : build) (x : externals) (e : handover_env)
    (bootimage : option bootimage) : EFI_STATUS * list handover_event :=
  match bootimage with
  | None => (EFI_INVALID_PARAMETER, [])
  | Some image =>
      if bad_magic b (aosp_header image) then (EFI_INVALID_PARAMETER, [])
      else if negb (signature (hdr image) =? 0xAA55) then (EFI_INVALID_PARAMETER, [])
      else if negb (header (hdr image) =? SETUP_HDR x) then (EFI_INVALID_PARAMETER, [])
      else if version (hdr image) <? 0x20c then (EFI_INVALID_PARAMETER, [])
      else if Z.land (xloadflags (hdr image)) (handover_flag b x) =? 0
      then (EFI_INVALID_PARAMETER, [])
      else if relocatable_kernel (hdr image) =? 0 then (EFI_INVALID_PARAMETER, [])
      else if EFI_ERROR (setup_command_line_ret e) then (setup_command_line_ret e, [])
      else if EFI_ERROR (setup_ramdisk e image) then (setup_ramdisk e image, [])
      else handover_kernel b e image
  end.

(** ** The magic-key timeout as the specification words it *)

(** An implausible persisted value is clamped to the maximum. *)
Definition clamp_to_maximum (maximum : Z) (persisted : Z) : Z :=
  if maximum <? persisted then maximum else persisted.

(** The largest persisted timeout the code accepts. *)
Definition MAGIC_KEY_TIMEOUT_MAX : Z := 1000.

(** The stalls a state has recorded, in microseconds. *)
Definition stalled (s : state) : Z :=
  fold_right (fun e acc => match e with Stall us => us + acc | _ => acc end) 0 (console s).

(** ** Elapsed time within one day *)

Definition same_date (t1 t2 : EFI_TIME) : Prop :=
  Year t1 = Year t2 ∧ Month t1 = Month t2 ∧ Day t1 = Day t2.

Definition seconds_of_day (t : EFI_TIME) : Z :=
  Hour t * 3600 + Minute t * 60 + Second t.

Definition valid_time (t : EFI_TIME) : Prop :=
  1 ≤ Month t ≤ 12 ∧ 0 ≤ Hour t < 24 ∧ 0 ≤ Minute t < 60 ∧ 0 ≤ Second t < 60.

(** ** Sample builds, platforms and states *)

Definition user_build : build :=
  {| USERFASTBOOT := false; USER := true; LP64 := true |}.

(** A sample target-name table: [recovery] names [RECOVERY] as in the
    specification's scenario; the other names stand for whatever the table
    of targets.c associates with these targets. *)
Definition sample_name_to_boot_target (name : list CHAR16) : boot_target :=
  if StrCmp name (L "") =? 0 then NORMAL_BOOT
  else if StrCmp name (L "recovery") =? 0 then RECOVERY
  else if StrCmp name (L "fastboot") =? 0 then FASTBOOT
  else if StrCmp name (L "charging") =? 0 then CHARGER
  else UNKNOWN_TARGET.

Definition sample_image (m : string) (sig : Z) : bootimage :=
  {| aosp_header := {| magic := A m; kernel_size := 4096 * 1024; ramdisk_size := 4096;
                       second_size := 0; page_size := 4096 |};
     hdr := {| setup_secs := 30; signature := sig; header := 0x53726448;
               version := 0x20d; relocatable_kernel := 1; xloadflags := 0xf;
               ramdisk_max := 0x7fffffff; kernel_alignment := 0x200000;
               pref_address := 0x1000000; init_size := 0x1000000;
               handover_offset := 0x190 |} |}.

Definition sample_externals : externals :=
  {| name_to_boot_target := sample_name_to_boot_target;
     strtoul16 := λ _, 0;
     ui_keycode_to_event := λ code, code;
     EV_DOWN := 2;
     verify_android_boot_image := λ _ _, (EFI_SUCCESS, L "/recovery");
     BOOT_SIGNATURE_MAX_SIZE := 4096;
     SETUP_HDR := 0x53726448;
     XLF_EFI_HANDOVER_32 := 4;
     XLF_EFI_HANDOVER_64 := 8 |}.

(** A 32-byte field that holds [text] followed by [fill] bytes. *)
Definition field (text : string) (fill : CHAR8) : list CHAR8 :=
  take 32 (A text ++ [NUL] ++ repeat fill 32).

Definition sample_misc (cmd : list CHAR8) : partition bootloader_message :=
  {| gpt_get_partition_by_label_ret := EFI_SUCCESS;
     ReadDisk_ret := EFI_SUCCESS;
     WriteDisk_ret := EFI_SUCCESS;
     stored := {| command := cmd; status := field "OKAY" "x"%char |} |}.

Definition time_of (h m : Z) : EFI_TIME :=
  {| Year := 2020; Month := 3; Day := 14; Hour := h; Minute := m; Second := 0 |}.

Definition sample_state (count : Z) (cmd : list CHAR8)
    (vars : list (string * efi_variable)) : state :=
  {| watchdog := {| counter := count; time_reference := time_of 9 0 |};
     efi_vars := list_to_map vars;
     misc := sample_misc cmd;
     console := [] |}.

(** A boot after the reset [r], at 9:11 on the day of [time_of], with no key
    pressed, a charged battery, and with or without the files asked for on
    the system partition. *)
Definition sample_platform (r : reset_sources) (sentinel : bool) : platform :=
  {| get_current_crash_event_menu := true;
     get_current_off_mode_charge := false;
     get_watchdog_status_ret := EFI_SUCCESS;
     reset_watchdog_status_ret := EFI_SUCCESS;
     set_watchdog_counter_ret := EFI_SUCCESS;
     set_watchdog_time_reference_ret := EFI_SUCCESS;
     rsci_get_reset_source := r;
     rsci_get_wake_source := WAKE_POWER_BUTTON_PRESSED;
     GetTime_ret := EFI_SUCCESS;
     GetTime_now := time_of 9 11;
     ux_crash_event_prompt_user_for_boot_target := RECOVERY;
     get_argv := Ok [];
     file_exists := λ _, sentinel;
     ReadKeyStroke := λ _, (EFI_NOT_READY, {| ScanCode := 0; UnicodeChar := 0 |});
     ui_enforce_key_held := λ _ _, false;
     is_battery_below_boot_OS_threshold := false;
     is_charger_plugged_in := false |}.

Definition sample_partition (image : bootimage) : image_partition :=
  {| part_gpt_ret := EFI_SUCCESS;
     part_read_header_ret := EFI_SUCCESS;
     part_AllocatePool := λ _, true;
     part_read_image_ret := EFI_SUCCESS;
     part_image := image |}.

Definition sample_file (image : bootimage) : image_file :=
  {| FileDevicePath_ok := true;
     HandleProtocol_ret := EFI_SUCCESS;
     OpenVolume_ret := EFI_SUCCESS;
     Open_ret := EFI_SUCCESS;
     AllocatePool_fileinfo := true;
     GetInfo_ret := EFI_BUFFER_TOO_SMALL;
     AllocatePool_fileinfo_again := true;
     GetInfo_again_ret := EFI_SUCCESS;
     AllocatePool_image := true;
     Read_ret := EFI_SUCCESS;
     AllocatePool_image_again := true;
     Read_again_ret := EFI_SUCCESS;
     Delete_ret := EFI_SUCCESS;
     file_image := image |}.

Definition sample_handover_env : handover_env :=
  {| setup_command_line_ret := EFI_SUCCESS;
     emalloc_ramdisk := Ok 0x20000000;
     allocate_pages_pref_address_ret := EFI_SUCCESS;
     emalloc_kernel := Ok 0x4000000;
     allocate_pages_boot_params := Ok 0x3fff0000 |}.

Definition quiet_platform : platform := sample_platform RESET_NOT_APPLICABLE false.
Definition sentinel_platform : platform := sample_platform RESET_NOT_APPLICABLE true.
Definition watchdog_platform : platform := sample_platform RESET_KERNEL_WATCHDOG false.

Definition unterminated_misc : partition bootloader_message :=
  sample_misc (repeat "x"%char 32).

Definition idle_state (count : Z) : state := sample_state count (field "" "x"%char) [].

Definition bootonce_state : state :=
  sample_state 0 (field "bootonce-recovery" "x"%char) [].

Definition persistent_state : state :=
  sample_state 0 (field "boot-recovery" "x"%char) [].

(** A command field without terminator: [boot-] and 27 letters. *)
Definition unterminated_boot_state : state :=
  sample_state 0 (A "boot-" ++ repeat "x"%char 27) [].

Definition charging_state : state :=
  sample_state 0 (field "boot-charging" "x"%char)
    [(LOADER_ENTRY_ONESHOT, VarStr16 (L "charging"))].

Definition timeout_state (ms : Z) : state :=
  sample_state 0 (field "" "x"%char) [(MAGIC_KEY_TIMEOUT_VAR, VarLong ms)].

Definition good_image : bootimage := sample_image "ANDROID!" 0xAA55.
Definition flipped_magic_image : bootimage := sample_image "ANDROIE!" 0xAA55.
Definition bad_signature_image : bootimage := sample_image "ANDROID!" 0x55AA.

(** * Further functions of android.c and kernelflinger.c *)

(** ** Boot image layout (android.c) *)

(** [get_bootimage_header]; a NULL blob is [None], and so is a NULL result. *)
Definition get_bootimage_header (b : build) (bootimage_blob : option bootimage)
  : option boot_img_hdr :=
  match bootimage_blob with
  | None => None
  | Some image =>
      if bad_magic b (aosp_header image) then None else Some (aosp_header image)
  end.

(** [get_bootimage_2nd]: the offset of [*second] from the start of the
    image, computed in [UINT32], and [*size]. *)
Definition get_bootimage_2nd (b : build) (bootimage : option bootimage) : result (Z * Z) :=
  match get_bootimage_header b bootimage with
  | None => Err EFI_INVALID_PARAMETER
  | Some bh =>
      if second_size bh =? 0 then Err EFI_NOT_FOUND
      else
        Ok (UINT32_wrap (page_size bh + pagealign bh (kernel_size bh)
                         + pagealign bh (ramdisk_size bh)),
            second_size bh)
  end.

(** A header whose page size is a power of two and whose fields are
    [UINT32] values. *)
Definition page_size_pow2 (h : boot_img_hdr) (k : Z) : Prop :=
  0 ≤ k < 32 ∧ page_size h = 2 ^ k.

(** The three section sizes are not negative and their sum with four pages
    does not exceed [2 ^ 32]: then none of the [UINT32] sums of the layout
    computation wraps around.  Sizes that are [UINT32] values one by one do
    not suffice for that. *)
Definition layout_fits (h : boot_img_hdr) : Prop :=
  0 ≤ kernel_size h ∧ 0 ≤ ramdisk_size h ∧ 0 ≤ second_size h
  ∧ kernel_size h + ramdisk_size h + second_size h + 4 * page_size h ≤ 2 ^ 32.

Definition two_stage_image : bootimage :=
  {| aosp_header := {| magic := A "ANDROID!"; kernel_size := 5000000; ramdisk_size := 70000;
                       second_size := 100; page_size := 2048 |};
     hdr := hdr good_image |}.

(** ** Paths in a control block (kernelflinger.c) *)

(** The last four characters of a path are [.efi] or [.EFI]. *)
Definition efi_suffix (path : list CHAR16) : Prop :=
  drop (length path - 4) path = L ".efi" ∨ drop (length path - 4) path = L ".EFI".

(** The record with both fields terminated, as [read_bcb] delivers it. *)
Definition terminated (w : bootloader_message) : bootloader_message :=
  {| command := <[31%nat := NUL]> (command w); status := <[31%nat := NUL]> (status w) |}.

Definition path_state (cmd : string) : state := sample_state 0 (field cmd "x"%char) [].

(** ** Where the command line may lead (kernelflinger.c) *)

(** What [bt] and [*address] can be while [check_command_line] runs. *)
Definition command_line_invariant (b : build) (bt : boot_target) (address : Z) : Prop :=
  (bt = NORMAL_BOOT ∨ (bt = FASTBOOT ∧ USERFASTBOOT b = false)
   ∨ (bt = MEMORY ∧ USERFASTBOOT b = true))
  ∧ (address ≠ 0 → USERFASTBOOT b = true ∧ bt = MEMORY).

(** ** Watchdog resets in a row (kernelflinger.c) *)

(** How often the crash-event menu was shown: the number of
    [ux_crash_event_prompt] events of a console. *)
Definition is_crash_prompt (e : event) : bool :=
  match e with
  | ux_crash_event_prompt => true
  | _ => false
  end.

Definition crash_prompts (shown : list event) : nat :=
  length (List.filter is_crash_prompt shown).

(** A boot after a kernel or security watchdog reset, with the crash-event
    menu enabled and the watchdog record and the clock readable and
    writable. *)
Definition watchdog_boot (p : platform) : Prop :=
  get_current_crash_event_menu p = true
  ∧ EFI_ERROR (get_watchdog_status_ret p) = false
  ∧ EFI_ERROR (set_watchdog_counter_ret p) = false
  ∧ EFI_ERROR (set_watchdog_time_reference_ret p) = false
  ∧ EFI_ERROR (GetTime_ret p) = false
  ∧ is_watchdog_reset (rsci_get_reset_source p) = true.

(** [now] lies in the year and month of [time_ref] and its time of day is
    at most [WATCHDOG_DELAY] seconds past that of [time_ref]; the days of the
    month are not constrained. *)
Definition within_window (now time_ref : EFI_TIME) : Prop :=
  Year now = Year time_ref ∧ Month now = Month time_ref ∧ 1 ≤ Month now ≤ 12
  ∧ 0 ≤ seconds_of_day now - seconds_of_day time_ref ≤ WATCHDOG_DELAY.

Definition with_day (t : EFI_TIME) (d : Z) : EFI_TIME :=
  {| Year := Year t; Month := Month t; Day := d; Hour := Hour t; Minute := Minute t;
     Second := Second t |}.

(** The sample platform of a watchdog reset at [h]:[m] on the day of
    [time_of]. *)
Definition watchdog_platform_at (h m : Z) : platform :=
  {| get_current_crash_event_menu := true;
     get_current_off_mode_charge := false;
     get_watchdog_status_ret := EFI_SUCCESS;
     reset_watchdog_status_ret := EFI_SUCCESS;
     set_watchdog_counter_ret := EFI_SUCCESS;
     set_watchdog_time_reference_ret := EFI_SUCCESS;
     rsci_get_reset_source := RESET_SECURITY_WATCHDOG;
     rsci_get_wake_source := WAKE_NOT_APPLICABLE;
     GetTime_ret := EFI_SUCCESS;
     GetTime_now := time_of h m;
     ux_crash_event_prompt_user_for_boot_target := FASTBOOT;
     get_argv := Ok [];
     file_exists := λ _, false;
     ReadKeyStroke := λ _, (EFI_NOT_READY, {| ScanCode := 0; UnicodeChar := 0 |});
     ui_enforce_key_held := λ _ _, false;
     is_battery_below_boot_OS_threshold := false;
     is_charger_plugged_in := false |}.

(** ** What a pass of the decision leaves behind (kernelflinger.c) *)

(** The variable store and the misc partition are the same in both states. *)
Definition same_store (s s' : state) : Prop :=
  efi_vars s' = efi_vars s ∧ misc s' = misc s.

(** ** Strings that reach the kernel command line (android.c) *)

(** The wide string that starts at a pointer to [CHAR16] cells. *)
Fixpoint wstr (mem : list CHAR16) : list CHAR16 :=
  match mem with
  | [] => []
  | c :: rest => if c =? 0 then [] else c :: wstr rest
  end.

(** [(CHAR16 * )data]: the cells of a byte buffer read as 16-bit units, low
    byte first as on the x86 machines the loader runs on. *)
Fixpoint wide_cells (data : list CHAR8) : list CHAR16 :=
  match data with
  | lo :: hi :: rest => (code8 lo + 256 * code8 hi) :: wide_cells rest
  | _ => []
  end.

(** The test of [get_serial_port] on a character: [0-9a-zA-Z,]. *)
Definition serial_char_ok (c : CHAR16) : bool :=
  ((code8 "0"%char <=? c) && (c <=? code8 "9"%char))
  || ((code8 "a"%char <=? c) && (c <=? code8 "z"%char))
  || ((code8 "A"%char <=? c) && (c <=? code8 "Z"%char))
  || (c =? code8 ","%char).

(** The test of [get_boot_reason] on a character: [0-9a-z_]. *)
Definition reason_char_ok (c : CHAR16) : bool :=
  ((code8 "0"%char <=? c) && (c <=? code8 "9"%char))
  || ((code8 "a"%char <=? c) && (c <=? code8 "z"%char))
  || (c =? code8 "_"%char).

(** [while ( *pos) { if (!ok( *pos)) ...give up...; pos++; }]: whether the
    loop runs to the terminator. *)
Fixpoint all_chars_ok (ok : CHAR16 → bool) (pos : list CHAR16) : bool :=
  match pos with
  | [] => true
  | c :: rest => if c =? 0 then true else if ok c then all_chars_ok ok rest else false
  end.

(** [get_serial_port], given what [get_efi_variable] delivers for
    [SerialPort]: a status, or the data whose length is [size].  The result
    is the string returned. *)
Definition get_serial_port (var : result (list CHAR8)) : list CHAR16 :=
  match var with
  | Err _ => L "tty0"
  | Ok data =>
      let size := length data in
      if (size <? 3)%nat then L "tty0"
      else
        let val :=
          if negb (deref8 data =? 0) && negb (deref8 (tail data) =? 0) then
            Some (stra_to_str (<[(size - 1)%nat := NUL]> data))
          else if (size mod 2 =? 0)%nat then
            Some (wide_cells (<[(size - 2)%nat := NUL]> (<[(size - 1)%nat := NUL]> data)))
          else None in
        match val with
        | None => L "tty0"
        | Some val => if all_chars_ok serial_char_ok val then wstr val else L "tty0"
        end
  end.

(** [get_wake_reason]; NULL is [None]. *)
Definition get_wake_reason (p : platform) : option (list CHAR16) :=
  match rsci_get_wake_source p with
  | WAKE_BATTERY_INSERTED => Some (L "battery_inserted")
  | WAKE_USB_CHARGER_INSERTED => Some (L "usb_charger_inserted")
  | WAKE_ACDC_CHARGER_INSERTED => Some (L "acdc_charger_inserted")
  | WAKE_POWER_BUTTON_PRESSED => Some (L "power_button_pressed")
  | WAKE_RTC_TIMER => Some (L "rtc_timer")
  | WAKE_BATTERY_REACHED_IA_THRESHOLD => Some (L "battery_reached_ia_threshold")
  | _ => None
  end.

(** [get_reset_reason] *)
Definition get_reset_reason (p : platform) : option (list CHAR16) :=
  match rsci_get_reset_source p with
  | RESET_KERNEL_WATCHDOG => Some (L "watchdog")
  | RESET_SECURITY_WATCHDOG => Some (L "security_watchdog")
  | RESET_PMC_WATCHDOG => Some (L "pmc_watchdog")
  | RESET_EC_WATCHDOG => Some (L "ec_watchdog")
  | RESET_PLATFORM_WATCHDOG => Some (L "platform_watchdog")
  | RESET_SECURITY_INITIATED => Some (L "security_initiated")
  | _ => None
  end.

Definition LOADER_ENTRY_REBOOT_REASON : string := "LoaderEntryRebootReason".

(** [get_boot_reason]: the string returned and the state. *)
Definition get_boot_reason (p : platform) (s : state) : list CHAR16 * state :=
  let bootreason :=
    match get_wake_reason p with
    | Some r => r
    | None =>
        match get_reset_reason p with
        | Some r => r
        | None =>
            match get_efi_variable_str s LOADER_ENTRY_REBOOT_REASON with
            | None => L "unknown"
            | Some v => if all_chars_ok reason_char_ok v then wstr v else L "unknown"
            end
        end
    end in
  (bootreason, del_efi_variable s LOADER_ENTRY_REBOOT_REASON).

(** A name as an 8-bit string and as a 16-bit string, each with its
    terminator. *)
Definition as_str8 (name : list CHAR8) : list CHAR8 := name ++ [NUL].

Definition as_str16 (name : list CHAR8) : list CHAR8 :=
  flat_map (λ c, [c; NUL]) name ++ [NUL; NUL].

(** ** Loading the image of a target (kernelflinger.c) *)

(** The labels [validate_bootimage] accepts for a target. *)
Definition accepted_labels (b : build) (boot_target : boot_target) : list (list CHAR16) :=
  match boot_target with
  | NORMAL_BOOT => [L "/boot"; L "/recovery"]
  | CHARGER => [L "/boot"]
  | RECOVERY => [L "/recovery"]
  | ESP_BOOTIMAGE => L "/boot" :: (if USERFASTBOOT b then [L "/fastboot"] else [])
  | _ => []
  end.

(** Where [load_boot_image] looks: the partitions labelled [BOOT_LABEL] and
    [RECOVERY_LABEL], and the file at [target_path] on [g_disk_device]. *)
Record image_sources := {
  boot_partition : image_partition;
  recovery_partition : image_partition;
  esp_file : image_file
}.

(** How [load_boot_image] ends: with a status, [*bootimage] and whether the
    file was deleted; inside the file loader, by reading through a null
    buffer; or by handing a NULL image to the verifier of security.c, which
    is not among the sources. *)
Inductive load_boot_image_outcome :=
| Boot_image (ret : EFI_STATUS) (bootimage : option bootimage) (deleted : bool)
| Boot_null_dereference
| Validated_null_image.

(** [load_boot_image]; a NULL [keystore] is [None]. *)
Definition load_boot_image (b : build) (x : externals) (src : image_sources)
    (boot_target : boot_target) (keystore : option (list CHAR8)) (oneshot : bool)
  : load_boot_image_outcome :=
  let loaded :=
    match boot_target with
    | NORMAL_BOOT | CHARGER =>
        let '(ret, image) := android_image_load_partition b x (boot_partition src) in
        Some (Loaded ret image false)
    | RECOVERY =>
        let '(ret, image) := android_image_load_partition b x (recovery_partition src) in
        Some (Loaded ret image false)
    | ESP_BOOTIMAGE => Some (android_image_load_file b (esp_file src) oneshot)
    | _ => None
    end in
  match loaded with
  | None => Boot_image EFI_INVALID_PARAMETER None false
  | Some Null_dereference => Boot_null_dereference
  | Some (Loaded ret image deleted) =>
      if EFI_ERROR ret then Boot_image ret image deleted
      else
        match keystore with
        | None => Boot_image ret image deleted
        | Some keystore =>
            match image with
            | None => Validated_null_image
            | Some bootimage =>
                Boot_image (validate_bootimage b x boot_target bootimage keystore)
                  image deleted
            end
        end
  end.

(** The targets [load_boot_image] has a source for. *)
Definition image_target (boot_target : boot_target) : bool :=
  match boot_target with
  | NORMAL_BOOT | CHARGER | RECOVERY | ESP_BOOTIMAGE => true
  | _ => false
  end.

Definition sample_sources : image_sources :=
  {| boot_partition := sample_partition good_image;
     recovery_partition := sample_partition good_image;
     esp_file := sample_file good_image |}.

Definition sample_keystore : list CHAR8 := A "keystore".

(** ** The boot flow of [efi_main] (kernelflinger.c) *)

(** The preprocessor switches of [efi_main] beside those of [build]. *)
Record main_build := {
  USERDEBUG : bool;
  NO_DEVICE_UNLOCK : bool
}.

Definition BOOT_STATE_GREEN : Z := 0.
Definition BOOT_STATE_YELLOW : Z := 1.
Definition BOOT_STATE_ORANGE : Z := 2.
Definition BOOT_STATE_RED : Z := 3.

Definition FASTBOOT_PATH : list CHAR16 := L "\fastboot.img".
Definition TDOS_PATH : list CHAR16 := L "\tdos.img".
Definition FWUPDATE_FILE : list CHAR16 := L "\BIOSUPDATE.fv".

(** What one call of [fastboot_start] leaves behind when it returns: its
    status, [*bootimage], whether [*efiimage] is set, and [*target]; with
    it, what the loop of [enter_fastboot_mode] meets while it serves that
    answer: the lock state [device_is_unlocked] reports, the memory the
    handover of a received boot image finds, and the status of [LoadImage]
    for a received EFI image.  The fastboot library is not among the
    sources. *)
Record fastboot_answer := {
  fastboot_start_ret : EFI_STATUS;
  received_bootimage : option bootimage;
  received_efiimage : bool;
  received_target : boot_target;
  unlocked_then : bool;
  handover_then : handover_env;
  received_LoadImage_ret : EFI_STATUS
}.

(** What [efi_main] meets beside the platform of [choose_boot_target]: the
    firmware calls, the device state of vars.c and security.c, the
    keystores, the places images are loaded from, the file at a path of
    [g_disk_device], the boot image that lies at [target_address], the
    memory the handover finds, and the answers of the successive calls of
    [fastboot_start].  None of these functions is among the sources. *)
Record main_env := {
  OpenProtocol_ret : EFI_STATUS;
  is_efi_secure_boot_enabled : bool;
  device_is_provisioning : bool;
  device_is_unlocked : bool;
  get_user_keystore : result (option (list CHAR8));
  oem_keystore : list CHAR8;
  verify_android_keystore : option (list CHAR8) → EFI_STATUS;
  binary_FileDevicePath_ok : bool;
  LoadImage_ret : EFI_STATUS;
  file_delete_ret : EFI_STATUS;
  StartImage_ret : EFI_STATUS;
  get_oemvars_update : bool;
  boot_partition_found : image_partition;
  recovery_partition_found : image_partition;
  file_at : option (list CHAR16) → image_file;
  image_at : Z → bootimage;
  handover : handover_env;
  fastboot_start : list fastboot_answer
}.

(** What [efi_main] shows, stores and starts, in order of occurrence.
    - [choose_boot_target_shows ev] is an event of the console of
      [choose_boot_target].
    - [image_start bootimage boot_state boot_target ret jumps] is the call
      [android_image_start_buffer(g_parent_image, bootimage, boot_target,
      boot_state, NULL)] of [load_image], with the status it returns and
      the jumps of its handover; what that function stores and prints on
      its way lies inside this event.  A [boot_target] of [None] is the
      argument [FALSE] of the call in the loop of [enter_fastboot_mode]:
      the enumeration is declared in targets.h, which is not among the
      sources.  A kernel that takes over does not come back; the events
      after a jump are what the code goes on with if it does.
    - [StartImage] is the firmware call, for the binary at [target_path] or
      for an EFI image that fastboot received.
    The prompts of ux.c are not among the sources: a prompt is recorded, and
    the run goes on as the code does once the prompt returns.  [ux_init],
    [storage_set_boot_device], the pauses and the messages of [debug],
    [error] and [efi_perror] leave no event. *)
Inductive main_event :=
| set_loader_version
| push_capsule
| choose_boot_target_shows (shown : event)
| ux_display_empty_battery
| ux_prompt_user_secure_boot_off
| ux_prompt_user_keystore_unverified
| ux_prompt_user_device_unlocked
| ux_warn_user_unverified_recovery
| ux_prompt_user_bootimage_unverified
| file_delete (path : option (list CHAR16)) (ret : EFI_STATUS)
| StartImage
| image_file_deleted (path : option (list CHAR16))
| set_image_oemvars_nocheck (bootimage : option bootimage)
| set_oemvars_update (updated : bool)
| set_oem_key_var
| android_clear_memory
| set_boot_state_var (boot_state : Z)
| image_start (bootimage : option bootimage) (boot_state : Z)
    (boot_target : option boot_target) (ret : EFI_STATUS) (jumps : list handover_event).

(** How [efi_main] ends: it returns; it ends in [halt_system],
    [ResetSystem], [reboot] or [reboot_to_target], none of which comes
    back; it waits in a call of [fastboot_start] beyond the answers of the
    environment; it reads the magic of an image through a null buffer; or
    it hands a NULL image to the verifier of security.c, which is not among
    the sources. *)
Inductive main_outcome :=
| main_returns (ret : EFI_STATUS)
| halt_system
| ResetSystem
| reboot
| reboot_to_target (target : boot_target)
| fastboot_start_waits
| main_null_dereference
| main_validated_null_image.

Definition run : Type := list main_event * main_outcome.

(** The events [evs], then the run [r]. *)
Definition after (evs : list main_event) (r : run) : run := (evs ++ fst r, snd r).

(** [select_keystore] *)
Definition select_keystore (e : main_env) : option (list CHAR8) :=
  match get_user_keystore e with
  | Err _ => Some (oem_keystore e)
  | Ok keystore => keystore
  end.

(** [enter_efi_binary] *)
Definition enter_efi_binary (e : main_env) (path : option (list CHAR16)) (delete : bool)
  : list main_event * EFI_STATUS :=
  if negb (binary_FileDevicePath_ok e) then ([], EFI_INVALID_PARAMETER)
  else if EFI_ERROR (LoadImage_ret e) then ([], LoadImage_ret e)
  else
    ((if delete then [file_delete path (file_delete_ret e)] else []) ++ [StartImage],
     StartImage_ret e).

(** [set_image_oemvars]; what [set_image_oemvars_nocheck] finds in the
    second stage of the image and flashes is outside this model. *)
Definition set_image_oemvars (e : main_env) (bootimage : option bootimage)
  : list main_event :=
  if negb (get_oemvars_update e) then []
  else [set_oemvars_update false; set_image_oemvars_nocheck bootimage].

(** [load_image]: its events and the status it returns; [h] is the memory
    the handover finds. *)
Definition load_image (b : build) (x : externals) (h : handover_env)
    (bootimage : option bootimage) (boot_state : Z) (boot_target : option boot_target)
  : list main_event * EFI_STATUS :=
  let '(ret, jumps) := android_image_start_buffer b x h bootimage in
  ((if negb (boot_state =? BOOT_STATE_GREEN) then [android_clear_memory] else [])
   ++ [set_boot_state_var boot_state;
       image_start bootimage boot_state boot_target ret jumps],
   ret).

(** The tail that [enter_tdos] and the USERFASTBOOT [enter_fastboot_mode]
    share word for word, from the [USERDEBUG] verification against the OEM
    keystore to the label [die]: [label] is [L"/tdos"], respectively
    [L"/fastboot"]. *)
Definition chainload (mb : main_build) (b : build) (x : externals) (e : main_env)
    (bootimage : option bootimage) (boot_state : Z) (boot_target : boot_target)
    (label : list CHAR16) : run :=
  if USERDEBUG mb then
    match bootimage with
    | None => ([], main_validated_null_image)
    | Some image =>
        let '(ret, target) := verify_android_boot_image x image (oem_keystore e) in
        if EFI_ERROR ret then ([], halt_system)
        else if negb (StrCmp target label =? 0) then ([], halt_system)
        else (fst (load_image b x (handover e) bootimage boot_state (Some boot_target)),
              halt_system)
    end
  else
    (fst (load_image b x (handover e) bootimage boot_state (Some boot_target)),
     halt_system).

(** [enter_tdos] *)
Definition enter_tdos (mb : main_build) (b : build) (x : externals) (e : main_env)
    (boot_state : Z) : run :=
  match android_image_load_file b (file_at e (Some TDOS_PATH)) false with
  | Null_dereference => ([], main_null_dereference)
  | Loaded ret bootimage _ =>
      if EFI_ERROR ret then ([], halt_system)
      else chainload mb b x e bootimage boot_state TDOS (L "/tdos")
  end.

(** The loop of the [enter_fastboot_mode] of a build without USERFASTBOOT,
    over the answers of [fastboot_start] that are left. *)
Fixpoint fastboot_loop (b : build) (x : externals) (answers : list fastboot_answer) : run :=
  match answers with
  | [] => ([], fastboot_start_waits)
  | a :: answers =>
      if EFI_ERROR (fastboot_start_ret a) then ([], halt_system)
      else
        match received_bootimage a with
        | Some image =>
            after (if unlocked_then a
                   then set_image_oemvars_nocheck (Some image)
                        :: fst (load_image b x (handover_then a) (Some image)
                                  BOOT_STATE_ORANGE None)
                   else [])
              (fastboot_loop b x answers)
        | None =>
            if received_efiimage a then
              after (if EFI_ERROR (received_LoadImage_ret a) then [] else [StartImage])
                (fastboot_loop b x answers)
            else if bool_decide (received_target a = UNKNOWN_TARGET)
            then fastboot_loop b x answers
            else ([], reboot_to_target (received_target a))
        end
  end.

(** [enter_fastboot_mode], in its two variants; [bootimage] is the address
    handed over, 0 for NULL.  Without USERFASTBOOT the first call of
    [fastboot_start] decides what [bootimage] is from then on. *)
Definition enter_fastboot_mode (mb : main_build) (b : build) (x : externals)
    (e : main_env) (boot_state : Z) (bootimage : Z) : run :=
  if USERFASTBOOT b then
    after [set_oem_key_var; set_oemvars_update true]
      (if bootimage =? 0 then
         match android_image_load_file b (file_at e (Some FASTBOOT_PATH)) false with
         | Null_dereference => ([], main_null_dereference)
         | Loaded ret bootimage _ =>
             if EFI_ERROR ret then ([], halt_system)
             else chainload mb b x e bootimage boot_state FASTBOOT (L "/fastboot")
         end
       else
         chainload mb b x e (Some (image_at e bootimage)) boot_state FASTBOOT
           (L "/fastboot"))
  else
    after [set_boot_state_var boot_state; set_oemvars_update true]
      (fastboot_loop b x (fastboot_start e)).

(** The device state found by [efi_main] between [choose_boot_target] and
    the start of a target: [boot_state], [lock_prompted] and
    [selected_keystore], or the halt of a build with [NO_DEVICE_UNLOCK]. *)
Inductive device_state_checked :=
| checked (boot_state : Z) (lock_prompted : bool) (selected_keystore : option (list CHAR8))
| halted.

(** [efi_main] from [debug(L"checking device state")] to the end of the
    conditional on [is_efi_secure_boot_enabled], and the branch of a build
    without [USERDEBUG]. *)
Definition check_device_state (mb : main_build) (e : main_env)
  : list main_event * device_state_checked :=
  if USERDEBUG mb then
    if negb (is_efi_secure_boot_enabled e) && negb (device_is_provisioning e) then
      ([ux_prompt_user_secure_boot_off],
       if NO_DEVICE_UNLOCK mb then halted
       else checked BOOT_STATE_ORANGE true None)
    else if device_is_unlocked e then ([], checked BOOT_STATE_ORANGE false None)
    else
      let selected_keystore := select_keystore e in
      ([], checked (if EFI_ERROR (verify_android_keystore e selected_keystore)
                    then BOOT_STATE_YELLOW else BOOT_STATE_GREEN)
             false selected_keystore)
  else ([], checked BOOT_STATE_RED false None).

(** The [switch (boot_target)] at the end of [efi_main]. *)
Definition image_oemvars (e : main_env) (boot_target : boot_target)
    (bootimage : option bootimage) : list main_event :=
  match boot_target with
  | RECOVERY | ESP_BOOTIMAGE =>
      [set_image_oemvars_nocheck bootimage; set_oemvars_update true]
  | NORMAL_BOOT | CHARGER => set_image_oemvars e bootimage
  | _ => []
  end.

(** [efi_main] from [debug(L"loading boot image")] to its end, where it
    returns what [load_image] returns. *)
Definition boot_android (mb : main_build) (b : build) (x : externals) (e : main_env)
    (boot_target : boot_target) (o : outputs) (boot_state : Z)
    (selected_keystore : option (list CHAR8)) : run :=
  let src := {| boot_partition := boot_partition_found e;
                recovery_partition := recovery_partition_found e;
                esp_file := file_at e (target_path o) |} in
  match load_boot_image b x src boot_target selected_keystore (oneshot o) with
  | Boot_null_dereference => ([], main_null_dereference)
  | Validated_null_image => ([], main_validated_null_image)
  | Boot_image ret bootimage deleted =>
      let deletion := if deleted then [image_file_deleted (target_path o)] else [] in
      let start boot_state :=
        let '(evs, ret) :=
          load_image b x (handover e) bootimage boot_state (Some boot_target) in
        after (image_oemvars e boot_target bootimage) (evs, main_returns ret) in
      after deletion
        (if EFI_ERROR ret then
           after [if bool_decide (boot_target = RECOVERY)
                  then ux_warn_user_unverified_recovery
                  else ux_prompt_user_bootimage_unverified]
             (if NO_DEVICE_UNLOCK mb then ([], halt_system)
              else
                match bootimage with
                | None => ([], halt_system)
                | Some _ => start BOOT_STATE_RED
                end)
         else start boot_state)
  end.

(** What [choose_boot_target] put on the console, from the state [s] it
    started in to the state [s'] it left. *)
Definition shown_since (s s' : state) : list main_event :=
  map choose_boot_target_shows (drop (length (console s)) (console s')).

(** [efi_main] from the conditional on [USER], inside the one on
    [USERDEBUG], to its end: the target is started. *)
Definition start_target (mb : main_build) (b : build) (x : externals) (e : main_env)
    (boot_target : boot_target) (o : outputs) (boot_state : Z) (lock_prompted : bool)
    (selected_keystore : option (list CHAR8)) : run :=
  if USERDEBUG mb && USER b && device_is_provisioning e then
    enter_fastboot_mode mb b x e boot_state (target_address o)
  else if bool_decide (boot_target = ESP_EFI_BINARY) then
    (fst (enter_efi_binary e (target_path o) (oneshot o)), reboot)
  else if bool_decide (boot_target = FASTBOOT) || bool_decide (boot_target = MEMORY) then
    enter_fastboot_mode mb b x e boot_state (target_address o)
  else if bool_decide (boot_target = TDOS) then
    enter_tdos mb b x e boot_state
  else
    after (if boot_state =? BOOT_STATE_YELLOW
           then [ux_prompt_user_keystore_unverified] else [])
      (if (boot_state =? BOOT_STATE_YELLOW) && NO_DEVICE_UNLOCK mb
       then ([], halt_system)
       else
         after (if (boot_state =? BOOT_STATE_ORANGE) && negb lock_prompted
                then [ux_prompt_user_device_unlocked] else [])
           (if (boot_state =? BOOT_STATE_ORANGE) && negb lock_prompted
               && NO_DEVICE_UNLOCK mb
            then ([], halt_system)
            else boot_android mb b x e boot_target o boot_state selected_keystore)).

(** [efi_main]; [s] is the state [choose_boot_target] starts from.  Of the
    state it leaves, the console goes into the run; what [efi_main] stores
    itself, the [LoaderVersion], [BootState] and OEM key variables, is
    recorded as events. *)
Definition efi_main (mb : main_build) (b : build) (x : externals) (p : platform)
    (e : main_env) (s : state) : run :=
  after [set_loader_version]
    (if EFI_ERROR (OpenProtocol_ret e) then ([], main_returns (OpenProtocol_ret e))
     else if file_exists p FWUPDATE_FILE then ([push_capsule], ResetSystem)
     else
       let '(boot_target, o, s') := choose_boot_target b x p s in
       after (shown_since s s')
         (if bool_decide (boot_target = EXIT_SHELL) then ([], main_returns EFI_SUCCESS)
          else if bool_decide (boot_target = POWER_OFF) then ([], halt_system)
          else
            after (if bool_decide (boot_target = CHARGER) then [ux_display_empty_battery]
                   else [])
              (let '(evs, st) := check_device_state mb e in
               after evs
                 match st with
                 | halted => ([], halt_system)
                 | checked boot_state lock_prompted selected_keystore =>
                     start_target mb b x e boot_target o boot_state lock_prompted
                       selected_keystore
                 end))).

(** The prompts about the lock state of the device, of which the code means
    to show one at most, and the warnings about an image that did not load
    or verify. *)
Definition lock_prompt (ev : main_event) : bool :=
  match ev with
  | ux_prompt_user_secure_boot_off | ux_prompt_user_keystore_unverified
  | ux_prompt_user_device_unlocked => true
  | _ => false
  end.

Definition image_prompt (ev : main_event) : bool :=
  match ev with
  | ux_warn_user_unverified_recovery | ux_prompt_user_bootimage_unverified => true
  | _ => false
  end.

(** What a user is warned with, the event that wipes the memory, and the
    start of an image. *)
Definition warning (ev : main_event) : bool := lock_prompt ev || image_prompt ev.

Definition clears_memory (ev : main_event) : bool :=
  match ev with
  | android_clear_memory => true
  | _ => false
  end.

Definition is_image_start (ev : main_event) : bool :=
  match ev with
  | image_start _ _ _ _ _ => true
  | _ => false
  end.

(** The events of [load_image] for an image, a state and a target: the
    memory is cleared unless the state is GREEN, the state is stored, and
    [android_image_start_buffer] is called. *)
Definition load_image_events (bootimage : option bootimage) (boot_state : Z)
    (boot_target : option boot_target) (ret : EFI_STATUS) (jumps : list handover_event)
  : list main_event :=
  (if negb (boot_state =? BOOT_STATE_GREEN) then [android_clear_memory] else [])
  ++ [set_boot_state_var boot_state;
      image_start bootimage boot_state boot_target ret jumps].

(** The events of [efi_main] up to the end of the check of the device
    state, whose events are [evs]; and the warnings about the lock state
    that precede the loading of an image. *)
Definition main_prefix (s s' : state) (boot_target : boot_target)
    (evs : list main_event) : list main_event :=
  set_loader_version
  :: shown_since s s'
  ++ (if bool_decide (boot_target = CHARGER) then [ux_display_empty_battery] else [])
  ++ evs.

Definition lock_warnings (boot_state : Z) (lock_prompted : bool) : list main_event :=
  (if boot_state =? BOOT_STATE_YELLOW then [ux_prompt_user_keystore_unverified] else [])
  ++ (if (boot_state =? BOOT_STATE_ORANGE) && negb lock_prompted
      then [ux_prompt_user_device_unlocked] else []).

(** What [efi_main] shows and does between the loading of an image and
    [load_image]: the deletion of a one-shot file, the warning about an
    image that did not load or verify, and the OEM variables. *)
Definition image_events (e : main_env) (boot_target : boot_target) (path : option (list CHAR16))
    (loaded : EFI_STATUS) (bootimage : option bootimage) (deleted : bool)
  : list main_event :=
  (if deleted then [image_file_deleted path] else [])
  ++ (if EFI_ERROR loaded
      then [if bool_decide (boot_target = RECOVERY)
            then ux_warn_user_unverified_recovery
            else ux_prompt_user_bootimage_unverified]
      else [])
  ++ image_oemvars e boot_target bootimage.

(** An image verifies against the OEM keystore and carries [label]. *)
Definition verified_by_oem_keystore (x : externals) (e : main_env)
    (bootimage : option bootimage) (label : list CHAR16) : Prop :=
  ∃ image, bootimage = Some image
           ∧ EFI_ERROR (fst (verify_android_boot_image x image (oem_keystore e))) = false
           ∧ StrCmp (snd (verify_android_boot_image x image (oem_keystore e))) label = 0.

(** Fastboot is entered: for the targets [FASTBOOT] and [MEMORY], and on a
    provisioning device of a USER and USERDEBUG build. *)
Definition enters_fastboot (mb : main_build) (b : build) (e : main_env)
    (boot_target : boot_target) : Prop :=
  boot_target = FASTBOOT ∨ boot_target = MEMORY
  ∨ (USERDEBUG mb = true ∧ USER b = true ∧ device_is_provisioning e = true).

Definition sample_main_env : main_env :=
  {| OpenProtocol_ret := EFI_SUCCESS;
     is_efi_secure_boot_enabled := true;
     device_is_provisioning := false;
     device_is_unlocked := false;
     get_user_keystore := Err EFI_NOT_FOUND;
     oem_keystore := sample_keystore;
     verify_android_keystore := λ _, EFI_SUCCESS;
     binary_FileDevicePath_ok := true;
     LoadImage_ret := EFI_SUCCESS;
     file_delete_ret := EFI_SUCCESS;
     StartImage_ret := EFI_SUCCESS;
     get_oemvars_update := false;
     boot_partition_found := sample_partition good_image;
     recovery_partition_found := sample_partition good_image;
     file_at := λ _, sample_file good_image;
     image_at := λ _, good_image;
     handover := sample_handover_env;
     fastboot_start := [] |}.

Definition locked_build : main_build := {| USERDEBUG := true; NO_DEVICE_UNLOCK := true |}.

Definition open_build : main_build := {| USERDEBUG := true; NO_DEVICE_UNLOCK := false |}.

(** The sample environment on an unlocked device. *)
Definition unlocked_main_env : main_env :=
  {| OpenProtocol_ret := EFI_SUCCESS;
     is_efi_secure_boot_enabled := true;
     device_is_provisioning := false;
     device_is_unlocked := true;
     get_user_keystore := Err EFI_NOT_FOUND;
     oem_keystore := sample_keystore;
     verify_android_keystore := λ _, EFI_SUCCESS;
     binary_FileDevicePath_ok := true;
     LoadImage_ret := EFI_SUCCESS;
     file_delete_ret := EFI_SUCCESS;
     StartImage_ret := EFI_SUCCESS;
     get_oemvars_update := false;
     boot_partition_found := sample_partition good_image;
     recovery_partition_found := sample_partition good_image;
     file_at := λ _, sample_file good_image;
     image_at := λ _, good_image;
     handover := sample_handover_env;
     fastboot_start := [] |}.

(** An unlocked device to which [fastboot boot] sends an image, after which
    [fastboot_start] fails. *)
Definition fastboot_boot_env : main_env :=
  {| OpenProtocol_ret := EFI_SUCCESS;
     is_efi_secure_boot_enabled := true;
     device_is_provisioning := false;
     device_is_unlocked := true;
     get_user_keystore := Err EFI_NOT_FOUND;
     oem_keystore := sample_keystore;
     verify_android_keystore := λ _, EFI_SUCCESS;
     binary_FileDevicePath_ok := true;
     LoadImage_ret := EFI_SUCCESS;
     file_delete_ret := EFI_SUCCESS;
     StartImage_ret := EFI_SUCCESS;
     get_oemvars_update := false;
     boot_partition_found := sample_partition good_image;
     recovery_partition_found := sample_partition good_image;
     file_at := λ _, sample_file good_image;
     image_at := λ _, good_image;
     handover := sample_handover_env;
     fastboot_start :=
       [ {| fastboot_start_ret := EFI_SUCCESS;
            received_bootimage := Some good_image;
            received_efiimage := false;
            received_target := UNKNOWN_TARGET;
            unlocked_then := true;
            handover_then := sample_handover_env;
            received_LoadImage_ret := EFI_SUCCESS |};
         {| fastboot_start_ret := EFI_DEVICE_ERROR;
            received_bootimage := None;
            received_efiimage := false;
            received_target := UNKNOWN_TARGET;
            unlocked_then := true;
            handover_then := sample_handover_env;
            received_LoadImage_ret := EFI_SUCCESS |} ] |}.

(** A control block that asks for Fastboot on every boot. *)
Definition fastboot_state : state := sample_state 0 (field "boot-fastboot" "x"%char) [].

(** A target table that knows TDOS alone, and a verifier that finds the
    label [/tdos]. *)
Definition tdos_externals : externals :=
  {| name_to_boot_target := λ _, TDOS;
     strtoul16 := λ _, 0;
     ui_keycode_to_event := λ code, code;
     EV_DOWN := 2;
     verify_android_boot_image := λ _ _, (EFI_SUCCESS, L "/tdos");
     BOOT_SIGNATURE_MAX_SIZE := 4096;
     SETUP_HDR := 0x53726448;
     XLF_EFI_HANDOVER_32 := 4;
     XLF_EFI_HANDOVER_64 := 8 |}.

(** ** Further sample inputs *)

Definition recovery_record : bootloader_message :=
  {| command := <[31%nat := NUL]> (field "boot-recovery" "x"%char);
     status := <[31%nat := NUL]> (field "OKAY" "x"%char) |}.

Definition unknown_bootonce_state : state :=
  sample_state 0 (field "bootonce-nowhere" "x"%char) [].

Definition unknown_bootonce_record : bootloader_message :=
  {| command := <[31%nat := NUL]> (field "bootonce-nowhere" "x"%char);
     status := <[31%nat := NUL]> (field "OKAY" "x"%char) |}.

Definition binary_path_state : state := path_state "boot-\loader.efi".

Definition binary_path_record : bootloader_message :=
  {| command := <[31%nat := NUL]> (field "boot-\loader.efi" "x"%char);
     status := <[31%nat := NUL]> (field "OKAY" "x"%char) |}.

(** * Properties *)

(** ** Strings in a 32-byte field *)

Lemma cstr_length_le (mem : list CHAR8) : (length (cstr mem) ≤ length mem)%nat.
Proof.
  induction mem as [|c rest IH]; simpl; [lia|].
  destruct (is_nul c); simpl; lia.
Qed.

Lemma cstr_nul_at (mem : list CHAR8) (i : nat) :
  mem !! i = Some NUL → (length (cstr mem) ≤ i)%nat.
Proof.
  revert i; induction mem as [|c rest IH]; intros i Hi; simpl.
  - lia.
  - destruct i as [|i]; simpl in Hi.
    + injection Hi as ->. unfold is_nul. rewrite bool_decide_eq_true_2 by reflexivity.
      simpl. lia.
    + destruct (is_nul c); simpl; [lia|]. apply IH in Hi. lia.
Qed.

(** C10: after a successful [read_bcb] of a 64-byte record, byte 31 of the
    command field and byte 31 of the status field are NUL, the other bytes
    are those on disk, and so either field read as a string has at most 31
    characters, whatever the disk held. *)
Theorem read_bcb_terminates_fields (misc : partition bootloader_message)
    (bcb : bootloader_message) :
  bcb_wf (stored misc) →
  read_bcb misc = Ok bcb →
  command bcb !! 31%nat = Some NUL ∧ status bcb !! 31%nat = Some NUL
  ∧ take 31 (command bcb) = take 31 (command (stored misc))
  ∧ take 31 (status bcb) = take 31 (status (stored misc))
  ∧ bcb_wf bcb
  ∧ (strlena (command bcb) ≤ 31)%nat ∧ (strlena (status bcb) ≤ 31)%nat.
Proof.
  intros [Hc Hs] Hread. unfold read_bcb in Hread.
  destruct (EFI_ERROR (gpt_get_partition_by_label_ret misc)); [discriminate|].
  destruct (EFI_ERROR (ReadDisk_ret misc)); [discriminate|].
  injection Hread as <-. simpl.
  assert (Hc31 : <[31%nat:=NUL]> (command (stored misc)) !! 31%nat = Some NUL)
    by (apply list_lookup_insert_eq; lia).
  assert (Hs31 : <[31%nat:=NUL]> (status (stored misc)) !! 31%nat = Some NUL)
    by (apply list_lookup_insert_eq; lia).
  repeat split.
  - exact Hc31.
  - exact Hs31.
  - apply take_insert_ge. lia.
  - apply take_insert_ge. lia.
  - simpl. rewrite length_insert. exact Hc.
  - simpl. rewrite length_insert. exact Hs.
  - unfold strlena. apply cstr_nul_at. exact Hc31.
  - unfold strlena. apply cstr_nul_at. exact Hs31.
Qed.

Lemma cstr_cons_inv (mem : list CHAR8) (c : CHAR8) (r : list CHAR8) :
  cstr mem = c :: r → ∃ mem', mem = c :: mem' ∧ cstr mem' = r.
Proof.
  destruct mem as [|c0 mem']; simpl; [discriminate|].
  destruct (is_nul c0); [discriminate|].
  intros H. injection H as -> <-. eauto.
Qed.

Lemma cstr_prefix_inv (lit X mem : list CHAR8) :
  cstr mem = lit ++ X → ∃ mem', mem = lit ++ mem' ∧ cstr mem' = X.
Proof.
  revert mem; induction lit as [|c lit IH]; intros mem H; simpl in *.
  - eauto.
  - apply cstr_cons_inv in H as (mem1 & -> & H1).
    apply IH in H1 as (mem' & -> & H'). eauto.
Qed.

Lemma UINTN_wrap_small (lp64 : bool) (z : Z) :
  0 < z < 256 → UINTN_wrap lp64 z ≠ 0.
Proof.
  intros Hz. unfold UINTN_wrap, word_bits.
  destruct lp64; rewrite Z.mod_small; lia.
Qed.

Lemma boot_prefix_recognised (b : build) (mem : list CHAR8) :
  is_boot_command b (A "boot-" ++ mem) = true.
Proof. reflexivity. Qed.

Lemma bootonce_prefix_recognised (b : build) (mem : list CHAR8) :
  is_boot_command b (A "bootonce-" ++ mem) = false
  ∧ is_bootonce_command b (A "bootonce-" ++ mem) = true.
Proof.
  split; [|reflexivity].
  unfold is_boot_command. cbn.
  apply Z.eqb_neq. apply UINTN_wrap_small.
  change (0 < 66 < 256). lia.
Qed.

(** What [check_bcb] does with a record that [read_bcb] delivered. *)
Lemma check_bcb_read (b : build) (x : externals) (p : platform) (s : state)
    (bcb : bootloader_message) :
  read_bcb (misc s) = Ok bcb →
  check_bcb b x p s =
    let '(w, target, once) := interpret_bcb b bcb in
    let s' := set_misc s (snd (write_bcb (misc s) w)) in
    match target with
    | None => (NORMAL_BOOT, None, once, s')
    | Some target =>
        let '(t, path) := resolve_bcb_target x p target in (t, path, once, s')
    end.
Proof.
  intros Hread. unfold check_bcb. rewrite Hread.
  destruct (interpret_bcb b bcb) as [[w target] once]. reflexivity.
Qed.

Lemma write_bcb_stored (m : partition bootloader_message) (w : bootloader_message) :
  fst (write_bcb m w) = EFI_SUCCESS → stored (snd (write_bcb m w)) = w.
Proof.
  unfold write_bcb.
  destruct (EFI_ERROR (gpt_get_partition_by_label_ret m)); simpl; [discriminate|].
  destruct (EFI_ERROR (WriteDisk_ret m)) eqn:E; simpl; [|reflexivity].
  intros H. rewrite H in E. discriminate.
Qed.

(** On a partition that was just read, [write_bcb] succeeds and stores the
    record unless [WriteDisk] fails. *)
Lemma write_bcb_after_read (m : partition bootloader_message)
    (bcb w : bootloader_message) :
  read_bcb m = Ok bcb →
  EFI_ERROR (WriteDisk_ret m) = false →
  fst (write_bcb m w) = EFI_SUCCESS ∧ stored (snd (write_bcb m w)) = w.
Proof.
  unfold read_bcb, write_bcb.
  destruct (EFI_ERROR (gpt_get_partition_by_label_ret m)); [discriminate|].
  intros _ ->. split; reflexivity.
Qed.

(** When [WriteDisk] fails, the record on the partition stays. *)
Lemma write_bcb_fails (m : partition bootloader_message) (w : bootloader_message) :
  EFI_ERROR (WriteDisk_ret m) = true → stored (snd (write_bcb m w)) = stored m.
Proof.
  unfold write_bcb. intros ->.
  destruct (EFI_ERROR (gpt_get_partition_by_label_ret m)); reflexivity.
Qed.

Lemma resolve_named_target (x : externals) (p : platform) (target : list CHAR16) :
  deref16 target ≠ BACKSLASH →
  name_to_boot_target x target ≠ UNKNOWN_TARGET →
  resolve_bcb_target x p target = (name_to_boot_target x target, None).
Proof.
  intros Hpath Hknown. unfold resolve_bcb_target.
  apply Z.eqb_neq in Hpath. rewrite Hpath.
  rewrite bool_decide_eq_true_2 by exact Hknown. reflexivity.
Qed.

(** C2: if the command of the record that [read_bcb] delivers is
    [bootonce-<X>] with [X] a valid target name, then [check_bcb] hands
    [write_bcb] a record whose command is the empty string (byte 0 of the
    field is set to NUL); on a partition whose [WriteDisk] does not fail the
    write succeeds and this record is the one stored on the misc partition
    afterwards, and when [WriteDisk] fails the record on disk stays as it
    was; the target returned is [name_to_boot_target X], and [*oneshot] is
    [TRUE]. *)
Theorem check_bcb_bootonce (b : build) (x : externals) (p : platform) (s : state)
    (bcb : bootloader_message) (X : list CHAR8) :
  read_bcb (misc s) = Ok bcb →
  cstr (command bcb) = A "bootonce-" ++ X →
  valid_target_name x X →
  ∃ (w : bootloader_message) (s' : state),
    check_bcb b x p s = (name_to_boot_target x (map code8 X), None, true, s')
    ∧ misc s' = snd (write_bcb (misc s) w)
    ∧ command w = <[0%nat := NUL]> (command bcb)
    ∧ cstr (command w) = []
    ∧ (EFI_ERROR (WriteDisk_ret (misc s)) = false →
       fst (write_bcb (misc s) w) = EFI_SUCCESS
       ∧ stored (misc s') = w
       ∧ cstr (command (stored (misc s'))) = [])
    ∧ (EFI_ERROR (WriteDisk_ret (misc s)) = true → stored (misc s') = stored (misc s)).
Proof.
  intros Hread Hcmd [Hpath Hknown].
  apply cstr_prefix_inv in Hcmd as (mem & Hmem & HX).
  rewrite (check_bcb_read b x p s bcb Hread).
  unfold interpret_bcb. cbn [command status]. rewrite Hmem.
  destruct (bootonce_prefix_recognised b mem) as [-> ->].
  change (drop 9 (A "bootonce-" ++ mem)) with mem.
  unfold stra_to_str. rewrite HX.
  rewrite (resolve_named_target x p _ Hpath Hknown).
  eexists _, _. split; [reflexivity|].
  split; [reflexivity|].
  split; [reflexivity|].
  split; [reflexivity|].
  cbn [misc set_misc].
  split.
  - intros Hw.
    match goal with
    | |- context [write_bcb (misc s) ?w] =>
        destruct (write_bcb_after_read (misc s) bcb w Hread Hw) as [Hret Hst]
    end.
    rewrite Hret, Hst. repeat split; reflexivity.
  - intros Hw. exact (write_bcb_fails _ _ Hw).
Qed.

(** C3, as the code has it: if the command of the record that [read_bcb]
    delivers is [boot-<X>], then [check_bcb] hands [write_bcb] a record with
    the command field as [read_bcb] delivered it, that is the field found on
    disk with byte 31 set to NUL (only byte 0 of the status is cleared
    besides); on a partition whose [WriteDisk] does not fail this is the
    field stored afterwards, and it still reads [boot-<X>]; it is the very
    field found on disk exactly when that field ended in NUL.  [*oneshot] is
    [FALSE].  For [boot-recovery], with [recovery] the name of [RECOVERY],
    the target is [RECOVERY]. *)
Theorem check_bcb_boot_persistent (b : build) (x : externals) (p : platform) (s : state)
    (bcb : bootloader_message) (X : list CHAR8) :
  read_bcb (misc s) = Ok bcb →
  cstr (command bcb) = A "boot-" ++ X →
  ∃ (w : bootloader_message) (s' : state),
    snd (fst (check_bcb b x p s)) = false
    ∧ snd (check_bcb b x p s) = s'
    ∧ misc s' = snd (write_bcb (misc s) w)
    ∧ command w = command bcb
    ∧ command w = <[31%nat := NUL]> (command (stored (misc s)))
    ∧ take 31 (command w) = take 31 (command (stored (misc s)))
    ∧ (command (stored (misc s)) !! 31%nat = Some NUL →
       command w = command (stored (misc s)))
    ∧ (EFI_ERROR (WriteDisk_ret (misc s)) = false →
       fst (write_bcb (misc s) w) = EFI_SUCCESS
       ∧ command (stored (misc s')) = <[31%nat := NUL]> (command (stored (misc s)))
       ∧ cstr (command (stored (misc s'))) = A "boot-" ++ X)
    ∧ (EFI_ERROR (WriteDisk_ret (misc s)) = true → stored (misc s') = stored (misc s))
    ∧ (X = A "recovery" →
       name_to_boot_target x (L "recovery") = RECOVERY →
       check_bcb b x p s = (RECOVERY, None, false, s')).
Proof.
  intros Hread Hcmd.
  pose proof Hcmd as Hcmd0.
  apply cstr_prefix_inv in Hcmd as (mem & Hmem & HX).
  assert (Hdisk : command bcb = <[31%nat := NUL]> (command (stored (misc s)))).
  { unfold read_bcb in Hread.
    destruct (EFI_ERROR (gpt_get_partition_by_label_ret (misc s))); [discriminate|].
    destruct (EFI_ERROR (ReadDisk_ret (misc s))); [discriminate|].
    injection Hread as <-. reflexivity. }
  rewrite (check_bcb_read b x p s bcb Hread).
  unfold interpret_bcb. cbn [command status]. rewrite Hmem.
  rewrite boot_prefix_recognised.
  change (drop 5 (A "boot-" ++ mem)) with mem.
  unfold stra_to_str. rewrite HX.
  destruct (resolve_bcb_target x p (map code8 X)) as [t path] eqn:Hres.
  eexists _, _. cbn [fst snd].
  split; [reflexivity|]. split; [reflexivity|]. split; [reflexivity|].
  cbn [command]. split; [reflexivity|].
  rewrite <- Hmem.
  split; [exact Hdisk|].
  split; [rewrite Hdisk; apply take_insert_ge; lia|].
  split; [intros H31; rewrite Hdisk; apply list_insert_id; exact H31|].
  cbn [misc set_misc].
  split.
  { intros Hw.
    match goal with
    | |- context [write_bcb (misc s) ?w] =>
        destruct (write_bcb_after_read (misc s) bcb w Hread Hw) as [Hret Hst]
    end.
    rewrite Hret, Hst. cbn [command].
    split; [reflexivity|]. split; [exact Hdisk | exact Hcmd0]. }
  split; [intros Hw; exact (write_bcb_fails _ _ Hw)|].
  intros -> Hrec.
  unfold resolve_bcb_target in Hres. change (map code8 (A "recovery")) with (L "recovery") in Hres.
  change (deref16 (L "recovery") =? BACKSLASH) with false in Hres.
  rewrite Hrec in Hres. cbn in Hres. injection Hres as <- <-. reflexivity.
Qed.

(** C3 as stated fails: a command field of 32 characters without
    terminator, [boot-] followed by 27 letters, is read as a [boot-] command,
    and the field written back differs from the one found on disk: its last
    character is replaced by NUL. *)
Lemma boot_command_last_byte_counterexample :
  command (stored (misc unterminated_boot_state)) = A "boot-" ++ repeat "x"%char 27
  ∧ (∃ bcb, read_bcb (misc unterminated_boot_state) = Ok bcb
            ∧ is_boot_command user_build (command bcb) = true)
  ∧ fst (check_bcb user_build sample_externals quiet_platform unterminated_boot_state)
    = (NORMAL_BOOT, None, false)
  ∧ command (stored (misc (snd (check_bcb user_build sample_externals quiet_platform
                                  unterminated_boot_state))))
    = A "boot-" ++ repeat "x"%char 26 ++ [NUL]
  ∧ command (stored (misc (snd (check_bcb user_build sample_externals quiet_platform
                                  unterminated_boot_state))))
    ≠ command (stored (misc unterminated_boot_state)).
Proof.
  split; [reflexivity|]. split; [eexists; split; reflexivity|].
  split; [reflexivity|]. split; [reflexivity|]. vm_compute. discriminate.
Qed.

(** ** The decision chain *)

Lemma first_decision_split chain os t os' :
  first_decision chain os = (t, os') →
  (t = NORMAL_BOOT ∧ all_defer chain os os')
  ∨ (t ≠ NORMAL_BOOT
     ∧ ∃ pre n c post os1,
         chain = pre ++ (n, c) :: post ∧ all_defer pre os os1 ∧ c os1 = (t, os')).
Proof.
  revert os; induction chain as [|[n c] rest IH]; intros os H; simpl in H.
  - injection H as <- <-. left. split; [reflexivity | constructor].
  - destruct (c os) as [t1 os1] eqn:Hc.
    destruct (decide (t1 = NORMAL_BOOT)) as [->|Hne].
    + rewrite bool_decide_eq_true_2 in H by reflexivity.
      destruct (IH _ H) as [[-> Hall] | [Hne (pre & n' & c' & post & os2 & -> & Hall & Hc')]].
      * left. split; [reflexivity|]. econstructor; eassumption.
      * right. split; [exact Hne|].
        exists ((n, c) :: pre), n', c', post, os2.
        split; [reflexivity|]. split; [|exact Hc'].
        econstructor; eassumption.
    + rewrite bool_decide_eq_false_2 in H by exact Hne.
      injection H as <- <-. right. split; [exact Hne|].
      exists [], n, c, rest, os. split; [reflexivity|].
      split; [constructor | exact Hc].
Qed.

Ltac run_check :=
  match goal with
  | |- context [check_watchdog ?b ?p ?s] =>
      destruct (check_watchdog b p s) as [[] ?]
  | |- context [check_command_line ?b ?x ?p ?s] =>
      destruct (check_command_line b x p s) as [[[] ?] ?]
  | |- context [check_fastboot_sentinel ?p ?s] =>
      destruct (check_fastboot_sentinel p s) as [[] ?]
  | |- context [check_magic_key ?b ?x ?p ?s] =>
      destruct (check_magic_key b x p s) as [[] ?]
  | |- context [check_battery_inserted ?p ?s] =>
      destruct (check_battery_inserted p s) as [[] ?]
  | |- context [check_bcb ?b ?x ?p ?s] =>
      destruct (check_bcb b x p s) as [[[[] ?] ?] ?]
  | |- context [check_loader_entry_one_shot ?x ?p ?s] =>
      destruct (check_loader_entry_one_shot x p s) as [[] ?]
  | |- context [check_battery ?p ?s] =>
      destruct (check_battery p s) as [[] ?]
  | |- context [check_charge_mode ?p ?s] =>
      destruct (check_charge_mode p s) as [[] ?]
  end; cbn; try reflexivity.

Lemma choose_boot_target_chain (b : build) (x : externals) (p : platform) (s : state) :
  choose_boot_target b x p s =
    let '(t, (o, s')) := first_decision (boot_chain b x p) (chain_start s) in
    (t, o, emit (debug_selected t) s').
Proof.
  unfold choose_boot_target, boot_chain, chain_start, first_decision,
    link_watchdog, link_command_line, link_fastboot_sentinel, link_magic_key,
    link_battery_inserted, link_bcb, link_one_shot, link_low_battery,
    link_charge_mode.
  repeat run_check.
Qed.

(** C1: [choose_boot_target] runs its checks in the fixed order watchdog,
    command line, fastboot sentinel, magic key, battery inserted, BCB,
    one-shot variable, low battery, charge mode.  Its target is the answer of
    the first check that answers something other than [NORMAL_BOOT], and the
    outputs and the state are those this check left, no later check having
    run; if every check defers, the target is [NORMAL_BOOT]. *)
Theorem choose_boot_target_first_answer (b : build) (x : externals) (p : platform)
    (s : state) :
  map fst (boot_chain b x p) = fixed_order
  ∧ ∃ t o s',
      choose_boot_target b x p s = (t, o, emit (debug_selected t) s')
      ∧ first_decision (boot_chain b x p) (chain_start s) = (t, (o, s'))
      ∧ ((t = NORMAL_BOOT ∧ all_defer (boot_chain b x p) (chain_start s) (o, s'))
         ∨ (t ≠ NORMAL_BOOT
            ∧ ∃ pre n c post os1,
                boot_chain b x p = pre ++ (n, c) :: post
                ∧ all_defer pre (chain_start s) os1
                ∧ c os1 = (t, (o, s')))).
Proof.
  split; [reflexivity|].
  destruct (first_decision (boot_chain b x p) (chain_start s)) as [t [o s']] eqn:Hfd.
  exists t, o, s'. split.
  - rewrite choose_boot_target_chain, Hfd. reflexivity.
  - split; [reflexivity|]. exact (first_decision_split _ _ _ _ Hfd).
Qed.

(** ** Image validation *)

(** C4: with an image that verifies and carries the label [/recovery],
    [validate_bootimage] succeeds for the targets [RECOVERY] and
    [NORMAL_BOOT] and answers [EFI_ACCESS_DENIED] for [CHARGER]. *)
Theorem validate_bootimage_recovery_label (b : build) (x : externals)
    (image : bootimage) (keystore : list CHAR8) (ret : EFI_STATUS) :
  verify_android_boot_image x image keystore = (ret, L "/recovery") →
  EFI_ERROR ret = false →
  validate_bootimage b x RECOVERY image keystore = EFI_SUCCESS
  ∧ validate_bootimage b x NORMAL_BOOT image keystore = EFI_SUCCESS
  ∧ validate_bootimage b x CHARGER image keystore = EFI_ACCESS_DENIED.
Proof.
  intros Hv He. unfold validate_bootimage. rewrite Hv, He.
  repeat split; reflexivity.
Qed.

(** ** The magic of a boot image *)

Lemma code8_range (c : CHAR8) : 0 ≤ code8 c < 256.
Proof.
  unfold code8. pose proof (N_ascii_bounded c). lia.
Qed.

Lemma code8_inj (c d : CHAR8) : code8 c = code8 d → c = d.
Proof.
  unfold code8. intros H. apply N2Z.inj in H.
  rewrite <- (ascii_N_embedding c), <- (ascii_N_embedding d). congruence.
Qed.

Lemma code8_nul (c : CHAR8) : code8 c = 0 → c = NUL.
Proof. intros H. apply code8_inj. exact H. Qed.

Lemma UINTN_wrap_diff (lp64 : bool) (u v : Z) :
  0 ≤ u < 256 → 0 ≤ v < 256 → UINTN_wrap lp64 (u - v) = 0 → u = v.
Proof.
  intros Hu Hv H. unfold UINTN_wrap, word_bits in H.
  destruct (Z.eq_dec u v) as [|Hne]; [assumption|exfalso].
  destruct (Z_lt_le_dec u v).
  - assert (E : (u - v) mod 2 ^ (if lp64 then 64 else 32)
                = u - v + 2 ^ (if lp64 then 64 else 32)).
    { symmetry. apply Z.mod_unique with (q := -1); destruct lp64; lia. }
    rewrite E in H. destruct lp64; lia.
  - rewrite Z.mod_small in H by (destruct lp64; lia). lia.
Qed.

Lemma deref8_range (p : list CHAR8) : 0 ≤ deref8 p < 256.
Proof. destruct p; simpl; [lia | apply code8_range]. Qed.

(** A comparison over the whole of a NUL-free [s1] yields 0 only if [s2]
    starts with [s1]. *)
Lemma strncmpa_zero_prefix (lp64 : bool) (s1 s2 : list CHAR8) :
  Forall (λ c, c ≠ NUL) s1 →
  strncmpa lp64 s1 s2 (length s1) = 0 →
  take (length s1) s2 = s1.
Proof.
  intros Hnn; revert s2; induction Hnn as [|c s1 Hc Hnn IH]; intros s2 H.
  - reflexivity.
  - simpl in H.
    destruct (code8 c =? 0) eqn:E0.
    { apply Z.eqb_eq, code8_nul in E0. contradiction. }
    destruct (code8 c =? deref8 s2) eqn:E1; simpl in H.
    + apply Z.eqb_eq in E1. destruct s2 as [|d s2]; simpl in E1.
      * apply Z.eqb_neq in E0. contradiction.
      * apply code8_inj in E1 as <-. simpl. f_equal. apply IH. exact H.
    + apply UINTN_wrap_diff in H; [|apply code8_range|apply deref8_range].
      apply Z.eqb_neq in E1. contradiction.
Qed.

Lemma bad_magic_detected (b : build) (h : boot_img_hdr) :
  take 8 (magic h) ≠ BOOT_MAGIC → bad_magic b h = true.
Proof.
  intros Hne. unfold bad_magic. apply negb_true_iff, Z.eqb_neq. intros H.
  apply Hne. apply (strncmpa_zero_prefix (LP64 b) BOOT_MAGIC (magic h)); [|exact H].
  unfold BOOT_MAGIC, A. simpl. repeat constructor; discriminate.
Qed.

Lemma load_file_out_error (f : image_file) (delete : bool) (ret : EFI_STATUS)
    (image : option bootimage) :
  ret ≠ EFI_SUCCESS →
  load_file_out f delete ret image
  = Loaded ret None (delete && bool_decide (Delete_ret f = EFI_SUCCESS)).
Proof.
  intros H. unfold load_file_out. rewrite bool_decide_eq_false_2 by exact H. reflexivity.
Qed.

Lemma EFI_ERROR_not_success (ret : EFI_STATUS) : EFI_ERROR ret = true → ret ≠ EFI_SUCCESS.
Proof. intros H ->. discriminate. Qed.

Lemma load_file_read_bad_magic (b : build) (f : image_file) (delete : bool) :
  bad_magic b (aosp_header (file_image f)) = true →
  ∀ ret img d, load_file_read b f delete = Loaded ret img d →
               img = None ∧ ret ≠ EFI_SUCCESS.
Proof.
  intros Hbad ret img d. unfold load_file_read.
  destruct (AllocatePool_image f); simpl.
  2:{ rewrite load_file_out_error by discriminate. intros [= <- <- _]. split; [reflexivity|discriminate]. }
  destruct (bool_decide (Read_ret f = EFI_BUFFER_TOO_SMALL)).
  - destruct (EFI_ERROR (Read_again_ret f)) eqn:E.
    + rewrite load_file_out_error by (apply EFI_ERROR_not_success; exact E).
      intros [= <- <- _]. split; [reflexivity|]. apply EFI_ERROR_not_success; exact E.
    + destruct (AllocatePool_image_again f); [|discriminate].
      rewrite Hbad. rewrite load_file_out_error by discriminate.
      intros [= <- <- _]. split; [reflexivity|discriminate].
  - destruct (EFI_ERROR (Read_ret f)) eqn:E.
    + rewrite load_file_out_error by (apply EFI_ERROR_not_success; exact E).
      intros [= <- <- _]. split; [reflexivity|]. apply EFI_ERROR_not_success; exact E.
    + rewrite Hbad. rewrite load_file_out_error by discriminate.
      intros [= <- <- _]. split; [reflexivity|discriminate].
Qed.

(** C7: for an image whose first eight bytes are not the boot magic, both
    loaders leave [*bootimage_p] null, whatever else happens; the partition
    loader, once it has read the header, and the file loader, once it has
    read the file, return [EFI_INVALID_PARAMETER]. *)
Theorem loaders_reject_bad_magic (b : build) (x : externals) (part : image_partition)
    (f : image_file) (delete : bool) :
  take 8 (magic (aosp_header (part_image part))) ≠ BOOT_MAGIC →
  take 8 (magic (aosp_header (file_image f))) ≠ BOOT_MAGIC →
  (snd (android_image_load_partition b x part) = None
   ∧ fst (android_image_load_partition b x part) ≠ EFI_SUCCESS
   ∧ (header_is_read part = true →
      android_image_load_partition b x part = (EFI_INVALID_PARAMETER, None)))
  ∧ ((∀ ret img d, android_image_load_file b f delete = Loaded ret img d →
                   img = None ∧ ret ≠ EFI_SUCCESS)
     ∧ (file_is_read f = true →
        ∃ d, android_image_load_file b f delete = Loaded EFI_INVALID_PARAMETER None d)).
Proof.
  intros Hp Hf.
  apply (bad_magic_detected b) in Hp. apply (bad_magic_detected b) in Hf.
  split.
  - unfold android_image_load_partition, header_is_read. rewrite Hp.
    destruct (EFI_ERROR (part_gpt_ret part)) eqn:E1; simpl.
    { repeat split; [apply EFI_ERROR_not_success; exact E1 | discriminate]. }
    destruct (EFI_ERROR (part_read_header_ret part)) eqn:E2; simpl.
    { repeat split; [apply EFI_ERROR_not_success; exact E2 | discriminate]. }
    repeat split; discriminate.
  - split.
    + intros ret img d. unfold android_image_load_file.
      destruct (FileDevicePath_ok f); simpl;
        [|intros [= <- <- _]; split; [reflexivity|discriminate]].
      destruct (EFI_ERROR (HandleProtocol_ret f)) eqn:E1;
        [intros [= <- <- _]; split; [reflexivity|apply EFI_ERROR_not_success; exact E1]|].
      destruct (EFI_ERROR (OpenVolume_ret f)) eqn:E2;
        [intros [= <- <- _]; split; [reflexivity|apply EFI_ERROR_not_success; exact E2]|].
      destruct (EFI_ERROR (Open_ret f)) eqn:E3;
        [intros [= <- <- _]; split; [reflexivity|apply EFI_ERROR_not_success; exact E3]|].
      destruct (AllocatePool_fileinfo f); simpl;
        [|intros [= <- <- _]; split; [reflexivity|discriminate]].
      destruct (bool_decide (GetInfo_ret f = EFI_BUFFER_TOO_SMALL)).
      * destruct (AllocatePool_fileinfo_again f); simpl;
          [|intros [= <- <- _]; split; [reflexivity|discriminate]].
        destruct (EFI_ERROR (GetInfo_again_ret f)) eqn:E4.
        -- rewrite load_file_out_error by (apply EFI_ERROR_not_success; exact E4).
           intros [= <- <- _]. split; [reflexivity|apply EFI_ERROR_not_success; exact E4].
        -- apply load_file_read_bad_magic. exact Hf.
      * destruct (EFI_ERROR (GetInfo_ret f)) eqn:E4.
        -- rewrite load_file_out_error by (apply EFI_ERROR_not_success; exact E4).
           intros [= <- <- _]. split; [reflexivity|apply EFI_ERROR_not_success; exact E4].
        -- apply load_file_read_bad_magic. exact Hf.
    + unfold file_is_read, android_image_load_file, load_file_read.
      intros Hread.
      repeat (apply andb_prop in Hread as [Hread ?]).
      repeat match goal with
             | H : negb _ = true |- _ => apply negb_true_iff in H
             end.
      rewrite Hread. simpl.
      repeat match goal with
             | H : _ = _ |- _ => rewrite H; simpl
             end.
      eexists.
      destruct (bool_decide (GetInfo_ret f = EFI_BUFFER_TOO_SMALL));
        destruct (bool_decide (Read_ret f = EFI_BUFFER_TOO_SMALL));
        repeat match goal with
               | H : _ && _ = true |- _ => apply andb_prop in H as [? ?]
               | H : negb _ = true |- _ => apply negb_true_iff in H
               end;
        repeat match goal with
               | H : _ = _ |- _ => rewrite H; simpl
               end;
        rewrite ?Hf; rewrite load_file_out_error by discriminate; reflexivity.
Qed.

(** ** Checks before the handover *)

(** C5: an image whose boot-sector signature is not [0xAA55], or whose
    protocol version is below [0x20c], or which lacks the handover flag of
    the build, or which is not relocatable, makes
    [android_image_start_buffer] return [EFI_INVALID_PARAMETER] without any
    jump to the kernel. *)
Theorem start_buffer_rejects_before_jump (b : build) (x : externals) (e : handover_env)
    (image : bootimage) :
  signature (hdr image) ≠ 0xAA55
  ∨ version (hdr image) < 0x20c
  ∨ Z.land (xloadflags (hdr image)) (handover_flag b x) = 0
  ∨ relocatable_kernel (hdr image) = 0 →
  android_image_start_buffer b x e (Some image) = (EFI_INVALID_PARAMETER, []).
Proof.
  intros H. unfold android_image_start_buffer.
  destruct (bad_magic b (aosp_header image)); [reflexivity|].
  destruct (signature (hdr image) =? 0xAA55) eqn:Hs; simpl; [|reflexivity].
  destruct (header (hdr image) =? SETUP_HDR x); simpl; [|reflexivity].
  destruct (version (hdr image) <? 0x20c) eqn:Hv; [reflexivity|].
  destruct (Z.land (xloadflags (hdr image)) (handover_flag b x) =? 0) eqn:Hx;
    [reflexivity|].
  destruct (relocatable_kernel (hdr image) =? 0) eqn:Hr; [reflexivity|].
  exfalso. destruct H as [H|[H|[H|H]]].
  - apply Z.eqb_eq in Hs. contradiction.
  - apply Z.ltb_ge in Hv. lia.
  - apply Z.eqb_neq in Hx. contradiction.
  - apply Z.eqb_neq in Hr. contradiction.
Qed.

(** ** Sample runs *)

Example good_image_is_handed_over :
  android_image_start_buffer user_build sample_externals sample_handover_env
    (Some good_image)
  = (EFI_LOAD_ERROR, [handover_jump (0x1000000 + 512 + 0x190)]).
Proof. vm_compute. reflexivity. Qed.

Example good_image_is_loaded :
  android_image_load_partition user_build sample_externals (sample_partition good_image)
  = (EFI_SUCCESS, Some good_image)
  ∧ android_image_load_file user_build (sample_file good_image) true
    = Loaded EFI_SUCCESS (Some good_image) true.
Proof. split; vm_compute; reflexivity. Qed.

Example quiet_boot_is_normal :
  let '(t, o, s) :=
    choose_boot_target user_build sample_externals quiet_platform (timeout_state 0) in
  t = NORMAL_BOOT
  ∧ o = {| target_address := 0; target_path := None; oneshot := false |}
  ∧ last (console s) = Some (debug_selected NORMAL_BOOT).
Proof. vm_compute. repeat split. Qed.

Example sentinel_forces_fastboot :
  let '(t, o, s) :=
    choose_boot_target user_build sample_externals sentinel_platform bootonce_state in
  t = FASTBOOT
  ∧ o = {| target_address := 0; target_path := None; oneshot := true |}
  ∧ stored (misc s) = {| command := field "bootonce-recovery" "x"%char;
                         status := field "OKAY" "x"%char |}
  ∧ last (console s) = Some (debug_selected FASTBOOT).
Proof. vm_compute. repeat split. Qed.

(** ** The persisted one-shot variable *)

Lemma named_target_is_bcb_resolution (x : externals) (p : platform) (name : list CHAR16) :
  deref16 name ≠ BACKSLASH →
  fst (resolve_bcb_target x p name) = named_target x name.
Proof.
  intros Hpath. unfold resolve_bcb_target, named_target.
  apply Z.eqb_neq in Hpath. rewrite Hpath.
  destruct (decide (name_to_boot_target x name = UNKNOWN_TARGET)) as [E|E].
  - rewrite bool_decide_eq_false_2 by (intros H; exact (H E)).
    rewrite bool_decide_eq_true_2 by exact E. reflexivity.
  - rewrite bool_decide_eq_true_2 by exact E.
    rewrite bool_decide_eq_false_2 by exact E. reflexivity.
Qed.

(** C8, as the code has it: [check_loader_entry_one_shot] deletes the
    variable whatever it held and leaves the other variables, the watchdog
    record and the misc partition alone; an absent variable
    and an unknown name give [NORMAL_BOOT]; a known name gives the target the
    BCB check gives for that name, except that [CHARGER] becomes [POWER_OFF]
    when off-mode charging is not enabled. *)
Theorem one_shot_variable_read_once (x : externals) (p : platform) (s : state) :
  let r := check_loader_entry_one_shot x p s in
  efi_vars (snd r) !! LOADER_ENTRY_ONESHOT = None
  ∧ efi_vars (snd r) = delete LOADER_ENTRY_ONESHOT (efi_vars s)
  ∧ watchdog (snd r) = watchdog s ∧ misc (snd r) = misc s
  ∧ match get_efi_variable_str s LOADER_ENTRY_ONESHOT with
    | None => fst r = NORMAL_BOOT
    | Some name =>
        (name_to_boot_target x name = UNKNOWN_TARGET → fst r = NORMAL_BOOT)
        ∧ (name_to_boot_target x name = CHARGER ∧ get_current_off_mode_charge p = false →
           fst r = POWER_OFF)
        ∧ (¬ (name_to_boot_target x name = CHARGER ∧ get_current_off_mode_charge p = false) →
           fst r = named_target x name)
        ∧ (deref16 name ≠ BACKSLASH →
           named_target x name = fst (resolve_bcb_target x p name))
    end.
Proof.
  unfold check_loader_entry_one_shot.
  destruct (get_efi_variable_str s LOADER_ENTRY_ONESHOT) as [name|]; cbn zeta.
  2:{ cbn [fst snd del_efi_variable set_efi_vars efi_vars watchdog misc console].
      rewrite lookup_delete_eq. repeat split. }
  assert (Hst : ∀ t : boot_target,
             efi_vars (snd (t, del_efi_variable s LOADER_ENTRY_ONESHOT))
               !! LOADER_ENTRY_ONESHOT = None
             ∧ efi_vars (snd (t, del_efi_variable s LOADER_ENTRY_ONESHOT))
               = delete LOADER_ENTRY_ONESHOT (efi_vars s)
             ∧ watchdog (snd (t, del_efi_variable s LOADER_ENTRY_ONESHOT)) = watchdog s
             ∧ misc (snd (t, del_efi_variable s LOADER_ENTRY_ONESHOT)) = misc s).
  { intros t. cbn [fst snd del_efi_variable set_efi_vars efi_vars watchdog misc console].
    rewrite lookup_delete_eq. repeat split. }
  unfold named_target.
  destruct (decide (name_to_boot_target x name = UNKNOWN_TARGET)) as [E|E].
  - rewrite !bool_decide_eq_true_2 by exact E.
    destruct (Hst NORMAL_BOOT) as (H1 & H2 & H3 & H4).
    repeat split; try assumption.
    + intros [Hc _]. congruence.
    + intros Hpath. symmetry. rewrite named_target_is_bcb_resolution by exact Hpath.
      unfold named_target. rewrite bool_decide_eq_true_2 by exact E. reflexivity.
  - rewrite !bool_decide_eq_false_2 by exact E.
    assert (Hbcb : deref16 name ≠ BACKSLASH →
                   name_to_boot_target x name = fst (resolve_bcb_target x p name)).
    { intros Hpath. rewrite named_target_is_bcb_resolution by exact Hpath.
      unfold named_target. rewrite bool_decide_eq_false_2 by exact E. reflexivity. }
    destruct (decide (name_to_boot_target x name = CHARGER)) as [C|C].
    + rewrite bool_decide_eq_true_2 by exact C.
      destruct (get_current_off_mode_charge p) eqn:Hoff; cbn [negb andb].
      * destruct (Hst (name_to_boot_target x name)) as (H1 & H2 & H3 & H4).
        repeat split; try assumption.
        -- intros H; contradiction.
        -- intros [_ H]; discriminate.
      * destruct (Hst POWER_OFF) as (H1 & H2 & H3 & H4).
        repeat split; try assumption.
        -- intros H; contradiction.
        -- intros H. exfalso. apply H. split; [exact C | reflexivity].
    + rewrite bool_decide_eq_false_2 by exact C. cbn [andb].
      destruct (Hst (name_to_boot_target x name)) as (H1 & H2 & H3 & H4).
      repeat split; try assumption.
      * intros H; contradiction.
      * intros [H _]; contradiction.
Qed.

(** C8 as stated fails: with off-mode charging disabled, a one-shot variable
    that names [CHARGER] yields [POWER_OFF], whereas the BCB check resolves
    the same name, in [boot-charging], to [CHARGER]. *)
Lemma one_shot_charger_counterexample :
  get_efi_variable_str charging_state LOADER_ENTRY_ONESHOT = Some (L "charging")
  ∧ get_current_off_mode_charge quiet_platform = false
  ∧ fst (check_bcb user_build sample_externals quiet_platform charging_state)
    = (CHARGER, None, false)
  ∧ named_target sample_externals (L "charging") = CHARGER
  ∧ fst (check_loader_entry_one_shot sample_externals quiet_platform charging_state)
    = POWER_OFF
  ∧ fst (check_loader_entry_one_shot sample_externals quiet_platform charging_state)
    ≠ named_target sample_externals (L "charging").
Proof. vm_compute. repeat split. discriminate. Qed.

(** ** The magic-key timeout *)

Lemma fold_stalls_init (l : list event) (a : Z) :
  fold_right (fun e acc => match e with Stall us => us + acc | _ => acc end) a l
  = fold_right (fun e acc => match e with Stall us => us + acc | _ => acc end) 0 l + a.
Proof.
  induction l as [|e l IH]; simpl; [lia|].
  destruct e; rewrite IH; lia.
Qed.

Lemma stalled_emit (e : event) (s : state) :
  stalled (emit e s) = stalled s + match e with Stall us => us | _ => 0 end.
Proof.
  unfold stalled, emit. cbn [console]. rewrite fold_right_app. simpl.
  rewrite fold_stalls_init. destruct e; lia.
Qed.

Lemma poll_magic_key_stalls (p : platform) (remaining i : nat) (s : state) :
  ∃ tries : nat,
    (tries ≤ remaining)%nat
    ∧ snd (fst (poll_magic_key p remaining i s)) = (i + tries)%nat
    ∧ fst (fst (poll_magic_key p remaining i s)) = ReadKeyStroke p (i + tries)
    ∧ stalled (snd (poll_magic_key p remaining i s))
      = stalled s + DETECT_KEY_STALL_TIME_MS * 1000 * Z.of_nat tries
    ∧ efi_vars (snd (poll_magic_key p remaining i s)) = efi_vars s
    ∧ ((∀ k, (i ≤ k < i + remaining)%nat → fst (ReadKeyStroke p k) ≠ EFI_SUCCESS) →
       tries = remaining)
    ∧ ((tries < remaining)%nat → fst (ReadKeyStroke p (i + tries)) = EFI_SUCCESS).
Proof.
  revert i s; induction remaining as [|remaining IH]; intros i s; simpl.
  - exists 0%nat. destruct (ReadKeyStroke p i) as [ret key] eqn:E. cbn [fst snd].
    rewrite Nat.add_0_r, E. repeat split; try lia.
  - destruct (ReadKeyStroke p i) as [ret key] eqn:E.
    destruct (decide (ret = EFI_SUCCESS)) as [->|Hne].
    + rewrite bool_decide_eq_true_2 by reflexivity. exists 0%nat. cbn [fst snd].
      rewrite Nat.add_0_r, E. repeat split; try lia.
      intros Hall. exfalso. apply (Hall i); [lia|]. rewrite E. reflexivity.
    + rewrite bool_decide_eq_false_2 by exact Hne.
      destruct (IH (S i) (emit (Stall (DETECT_KEY_STALL_TIME_MS * 1000)) s))
        as (tries & Hle & Hi & Hret & Hst & Hvars & Hall & Hsome).
      exists (S tries). rewrite Hi, Hret, Hst, Hvars, stalled_emit.
      replace (i + S tries)%nat with (S i + tries)%nat by lia.
      repeat split; try lia.
      * intros H. f_equal. apply Hall. intros k Hk. apply H. lia.
      * intros Hlt. apply Hsome. lia.
Qed.

Lemma magic_key_wait_ms_bound (s : state) : magic_key_wait_ms s ≤ MAGIC_KEY_TIMEOUT_MAX.
Proof.
  unfold magic_key_wait_ms, MAGIC_KEY_TIMEOUT_MAX, EFI_RESET_WAIT_MS.
  destruct (get_efi_variable_long_from_str8 s MAGIC_KEY_TIMEOUT_VAR) as [?|v]; [lia|].
  destruct (v >? 1000) eqn:E; [lia|]. lia.
Qed.

(** C9, as the code has it: the timeout is the persisted value when that
    value is at most 1000 ms; a larger value, like an absent or malformed
    variable, gives the default of 200 ms, so the timeout never exceeds
    1000 ms.  The keyboard is then polled with 1 ms stalls for at most that
    long, and for exactly that long if no key shows up before. *)
Theorem magic_key_timeout_falls_back_to_default (b : build) (x : externals)
    (p : platform) (s : state) :
  let wait_ms := magic_key_wait_ms s in
  match get_efi_variable_long_from_str8 s MAGIC_KEY_TIMEOUT_VAR with
  | Err _ => wait_ms = EFI_RESET_WAIT_MS
  | Ok v => (v ≤ MAGIC_KEY_TIMEOUT_MAX → wait_ms = v)
            ∧ (MAGIC_KEY_TIMEOUT_MAX < v → wait_ms = EFI_RESET_WAIT_MS)
  end
  ∧ wait_ms ≤ MAGIC_KEY_TIMEOUT_MAX
  ∧ ∃ tries : nat,
      (tries ≤ Z.to_nat wait_ms)%nat
      ∧ stalled (snd (check_magic_key b x p s))
        = stalled s + DETECT_KEY_STALL_TIME_MS * 1000 * Z.of_nat tries
      ∧ ((∀ k, (k < Z.to_nat wait_ms)%nat → fst (ReadKeyStroke p k) ≠ EFI_SUCCESS) →
         tries = Z.to_nat wait_ms).
Proof.
  cbn zeta. split; [|split].
  - unfold magic_key_wait_ms, MAGIC_KEY_TIMEOUT_MAX.
    destruct (get_efi_variable_long_from_str8 s MAGIC_KEY_TIMEOUT_VAR) as [?|v];
      [reflexivity|].
    destruct (v >? 1000) eqn:E; split; intros; try reflexivity; lia.
  - apply magic_key_wait_ms_bound.
  - unfold check_magic_key.
    change (magic_key_wait_ms (emit ConIn_Reset s)) with (magic_key_wait_ms s).
    destruct (poll_magic_key_stalls p (Z.to_nat (magic_key_wait_ms s)) 0 (emit ConIn_Reset s))
      as (tries & Hle & _ & _ & Hst & _ & Hall & _).
    exists tries. split; [exact Hle|]. split.
    + destruct (poll_magic_key p (Z.to_nat (magic_key_wait_ms s)) 0 (emit ConIn_Reset s))
        as [[[ret key] j] s'].
      cbn [fst snd] in Hst. rewrite stalled_emit in Hst.
      assert (Hs' : ∀ t : boot_target, stalled (snd (t, s'))
                = stalled s + DETECT_KEY_STALL_TIME_MS * 1000 * Z.of_nat tries)
        by (intros t; cbn [snd]; lia).
      repeat match goal with
             | |- context [if ?c then _ else _] => destruct c
             end; apply Hs'.
    + intros H. apply Hall. intros k Hk. apply H. lia.
Qed.

(** C9 as stated fails: a persisted timeout of 5000 ms is not clamped to the
    maximum of 1000 ms, it is replaced by the default of 200 ms. *)
Lemma magic_key_timeout_not_clamped :
  get_efi_variable_long_from_str8 (timeout_state 5000) MAGIC_KEY_TIMEOUT_VAR = Ok 5000
  ∧ clamp_to_maximum MAGIC_KEY_TIMEOUT_MAX 5000 = 1000
  ∧ magic_key_wait_ms (timeout_state 5000) = 200
  ∧ magic_key_wait_ms (timeout_state 5000) ≠ clamp_to_maximum MAGIC_KEY_TIMEOUT_MAX 5000.
Proof. vm_compute. repeat split. discriminate. Qed.

(** No choice of maximum turns the code's rule into a clamp. *)
Lemma magic_key_timeout_is_no_clamp (maximum : Z) :
  ¬ ∀ v : Z, 0 ≤ v → magic_key_wait_ms (timeout_state v) = clamp_to_maximum maximum v.
Proof.
  intros H.
  assert (Hw : ∀ v, magic_key_wait_ms (timeout_state v)
               = if v >? 1000 then EFI_RESET_WAIT_MS else v).
  { intros v.
    unfold magic_key_wait_ms, get_efi_variable_long_from_str8, timeout_state, sample_state.
    cbn [efi_vars list_to_map foldr]. unfold MAGIC_KEY_TIMEOUT_VAR.
    rewrite lookup_insert_eq. reflexivity. }
  pose proof (H 1000 ltac:(lia)) as H1. pose proof (H 1001 ltac:(lia)) as H2.
  rewrite Hw in H1, H2. unfold clamp_to_maximum, EFI_RESET_WAIT_MS in *.
  change (1000 >? 1000) with false in H1. change (1001 >? 1000) with true in H2.
  cbv iota in H1, H2.
  destruct (maximum <? 1000) eqn:E1; destruct (maximum <? 1001) eqn:E2;
    try apply Z.ltb_lt in E1; try apply Z.ltb_ge in E1;
    try apply Z.ltb_lt in E2; try apply Z.ltb_ge in E2; lia.
Qed.

(** ** The watchdog counter *)

Lemma word_bits_pow (lp64 : bool) :
  2 ^ word_bits lp64 = 2 * 2 ^ (word_bits lp64 - 1) ∧ 2 ^ 31 ≤ 2 ^ (word_bits lp64 - 1).
Proof. destruct lp64; vm_compute; split; (reflexivity || discriminate). Qed.

Lemma INTN_wrap_sub (lp64 : bool) (u v : Z) :
  INTN_wrap lp64 (INTN_wrap lp64 u - INTN_wrap lp64 v) = INTN_wrap lp64 (u - v).
Proof.
  unfold INTN_wrap.
  set (m := 2 ^ word_bits lp64). set (h := 2 ^ (word_bits lp64 - 1)).
  f_equal.
  replace ((u + h) mod m - h - ((v + h) mod m - h) + h)
    with ((u + h) mod m - ((v + h) mod m - h)) by ring.
  rewrite Zminus_mod_idemp_l.
  replace (u + h - ((v + h) mod m - h)) with (u + h + h - (v + h) mod m) by ring.
  rewrite Zminus_mod_idemp_r. f_equal. ring.
Qed.

Lemma INTN_wrap_small (lp64 : bool) (z : Z) :
  - 2 ^ 31 ≤ z < 2 ^ 31 → INTN_wrap lp64 z = z.
Proof.
  intros Hz. unfold INTN_wrap.
  destruct (word_bits_pow lp64) as [Hm Hh]. rewrite Hm.
  rewrite Z.mod_small; lia.
Qed.

(** Two times of the same year and month differ, for [check_watchdog], by
    the difference of their seconds within the day. *)
Lemma time_diff_same_month (b : build) (t1 t2 : EFI_TIME) :
  Year t1 = Year t2 → Month t1 = Month t2 →
  INTN_wrap (LP64 b) (efi_time_to_ctime b t1 - efi_time_to_ctime b t2)
  = INTN_wrap (LP64 b) (seconds_of_day t1 - seconds_of_day t2).
Proof.
  intros Hy Hm. unfold efi_time_to_ctime. rewrite Hy, Hm, INTN_wrap_sub.
  f_equal. unfold seconds_of_day. ring.
Qed.

(** [efi_time_to_ctime] never reads the day of the month. *)
Lemma efi_time_to_ctime_ignores_day (b : build) (t : EFI_TIME) (d : Z) :
  efi_time_to_ctime b {| Year := Year t; Month := Month t; Day := d; Hour := Hour t;
                         Minute := Minute t; Second := Second t |}
  = efi_time_to_ctime b t.
Proof. reflexivity. Qed.

Lemma stale_window_restarts (b : build) (c : Z) (now time_ref : EFI_TIME) :
  same_date now time_ref → valid_time now → valid_time time_ref →
  WATCHDOG_DELAY < seconds_of_day now - seconds_of_day time_ref →
  0 ≤ c →
  watchdog_window_counter b c now time_ref = 0.
Proof.
  intros (Hy & Hm & _) (_ & Hh1 & Hm1 & Hs1) (_ & Hh2 & Hm2 & Hs2) Hlate Hc.
  unfold watchdog_window_counter.
  destruct (0 <? c) eqn:E; [|apply Z.ltb_ge in E; lia].
  rewrite (time_diff_same_month b now time_ref Hy Hm).
  unfold seconds_of_day in *.
  rewrite INTN_wrap_small by (change (2 ^ 31) with 2147483648; lia).
  replace (WATCHDOG_DELAY <? _) with true by (symmetry; apply Z.ltb_lt; exact Hlate).
  rewrite orb_true_r. reflexivity.
Qed.

(** C6, as the code has it: with the crash-event menu enabled, the watchdog
    record and the clock readable and writable, and a time reference earlier
    on the same day by more than [WATCHDOG_DELAY] seconds, one pass of
    [check_watchdog] defers; after a reset that is not a watchdog reset the
    stored counter is 0; after a watchdog reset the count starts anew with
    this reset, so the stored counter is 1 and the time reference is the
    current time. *)
Theorem check_watchdog_stale_window (b : build) (p : platform) (s : state) :
  get_current_crash_event_menu p = true →
  EFI_ERROR (get_watchdog_status_ret p) = false →
  EFI_ERROR (reset_watchdog_status_ret p) = false →
  EFI_ERROR (set_watchdog_counter_ret p) = false →
  EFI_ERROR (set_watchdog_time_reference_ret p) = false →
  EFI_ERROR (GetTime_ret p) = false →
  0 ≤ counter (watchdog s) < 256 →
  same_date (GetTime_now p) (time_reference (watchdog s)) →
  valid_time (GetTime_now p) → valid_time (time_reference (watchdog s)) →
  WATCHDOG_DELAY < seconds_of_day (GetTime_now p) - seconds_of_day (time_reference (watchdog s)) →
  fst (check_watchdog b p s) = NORMAL_BOOT
  ∧ (is_watchdog_reset (rsci_get_reset_source p) = false →
     counter (watchdog (snd (check_watchdog b p s))) = 0)
  ∧ (is_watchdog_reset (rsci_get_reset_source p) = true →
     counter (watchdog (snd (check_watchdog b p s))) = 1
     ∧ time_reference (watchdog (snd (check_watchdog b p s))) = GetTime_now p).
Proof.
  intros Hmenu Hget Hreset Hsetc Hsett Htime Hc Hdate Hnow Href Hlate.
  unfold check_watchdog, get_watchdog_status. rewrite Hmenu, Hget, Htime. cbn [negb].
  destruct (is_watchdog_reset (rsci_get_reset_source p)); cbn [negb].
  - rewrite (stale_window_restarts b _ _ _ Hdate Hnow Href Hlate) by lia.
    change (0 =? 0) with true. cbv iota.
    unfold set_watchdog_time_reference. rewrite Hsett, Hsett.
    change ((0 + 1) mod 256 <=? WATCHDOG_COUNTER_MAX) with true. cbv iota.
    unfold set_watchdog_counter. rewrite Hsetc. cbn.
    repeat split; discriminate.
  - destruct (counter (watchdog s) =? 0) eqn:E; cbn [negb fst snd].
    + apply Z.eqb_eq in E. repeat split; [intros _; exact E | discriminate | discriminate].
    + unfold reset_watchdog_status. rewrite Hreset. cbn.
      repeat split; discriminate.
Qed.

(** C6 as stated fails: the time reference is 9:00, the watchdog resets the
    device, and at 9:11, which is 660 s later and past the 600 s window, the
    pass leaves the stored counter at 1, not at 0. *)
Lemma stale_watchdog_counter_counterexample :
  same_date (GetTime_now watchdog_platform) (time_reference (watchdog (idle_state 1)))
  ∧ seconds_of_day (GetTime_now watchdog_platform)
    - seconds_of_day (time_reference (watchdog (idle_state 1))) = 660
  ∧ WATCHDOG_DELAY = 600
  ∧ rsci_get_reset_source watchdog_platform = RESET_KERNEL_WATCHDOG
  ∧ counter (watchdog (idle_state 1)) = 1
  ∧ counter (watchdog (snd (check_watchdog user_build watchdog_platform (idle_state 1)))) = 1
  ∧ counter (watchdog (snd (check_watchdog user_build watchdog_platform (idle_state 1)))) ≠ 0.
Proof. vm_compute. repeat split. discriminate. Qed.

(** A whole day later the code sees no time elapsed, for want of the day in
    [efi_time_to_ctime]: the third watchdog reset in a row then raises the
    crash menu although the first two are a day old. *)
Example day_old_watchdog_resets_still_count :
  let p := watchdog_platform in
  let s := {| watchdog := {| counter := 2;
                             time_reference := {| Year := 2020; Month := 3; Day := 13;
                                                  Hour := 9; Minute := 11; Second := 0 |} |};
              efi_vars := ∅; misc := sample_misc (field "" "x"%char); console := [] |} in
  watchdog_window_counter user_build 2 (GetTime_now p) (time_reference (watchdog s)) = 2
  ∧ fst (check_watchdog user_build p s) = RECOVERY
  ∧ In ux_crash_event_prompt (console (snd (check_watchdog user_build p s))).
Proof. vm_compute. repeat split. left. reflexivity. Qed.

(** ** The theorems at sample inputs *)

Ltac side_condition :=
  first [ reflexivity
        | split; reflexivity
        | vm_compute; intuition discriminate
        | unfold valid_time, seconds_of_day, WATCHDOG_DELAY; cbn; lia ].

(** A command field filled with 32 letters and no terminator is read as a
    string of 31 characters. *)
Lemma read_bcb_terminates_fields_witness :
  strlena (command (stored unterminated_misc)) = 32%nat
  ∧ ∃ bcb, read_bcb unterminated_misc = Ok bcb
           ∧ command bcb !! 31%nat = Some NUL
           ∧ strlena (command bcb) = 31%nat.
Proof.
  split; [reflexivity|]. eexists. split; [reflexivity|].
  destruct (read_bcb_terminates_fields unterminated_misc _ ltac:(side_condition) eq_refl)
    as (H31 & _).
  split; [exact H31 | reflexivity].
Defined.

(** The record on the sample partition reads [bootonce-recovery] before the
    pass and holds the empty command after it. *)
Lemma check_bcb_bootonce_witness :
  cstr (command (stored (misc bootonce_state))) = A "bootonce-recovery"
  ∧ fst (check_bcb user_build sample_externals quiet_platform bootonce_state)
    = (RECOVERY, None, true)
  ∧ command (stored (misc (snd (check_bcb user_build sample_externals quiet_platform
                                  bootonce_state))))
    = <[0%nat := NUL]> (<[31%nat := NUL]> (field "bootonce-recovery" "x"%char))
  ∧ cstr (command (stored (misc (snd (check_bcb user_build sample_externals quiet_platform
                                        bootonce_state))))) = [].
Proof.
  destruct (check_bcb_bootonce user_build sample_externals quiet_platform bootonce_state
              {| command := <[31%nat := NUL]> (field "bootonce-recovery" "x"%char);
                 status := <[31%nat := NUL]> (field "OKAY" "x"%char) |}
              (A "recovery")
              eq_refl eq_refl ltac:(side_condition))
    as (w & s' & Hrun & _ & Hw & _ & Hdisk & _).
  destruct (Hdisk eq_refl) as (_ & Hstored & Hempty).
  rewrite Hrun. cbn [fst snd].
  split; [reflexivity|]. split; [reflexivity|].
  split; [rewrite Hstored; exact Hw | exact Hempty].
Defined.

Lemma check_bcb_boot_persistent_witness :
  fst (check_bcb user_build sample_externals quiet_platform persistent_state)
  = (RECOVERY, None, false)
  ∧ command (stored (misc (snd (check_bcb user_build sample_externals quiet_platform
                                  persistent_state))))
    = <[31%nat := NUL]> (field "boot-recovery" "x"%char)
  ∧ cstr (command (stored (misc (snd (check_bcb user_build sample_externals quiet_platform
                                        persistent_state)))))
    = A "boot-recovery".
Proof.
  destruct (check_bcb_boot_persistent user_build sample_externals quiet_platform
              persistent_state
              {| command := <[31%nat := NUL]> (field "boot-recovery" "x"%char);
                 status := <[31%nat := NUL]> (field "OKAY" "x"%char) |}
              (A "recovery") eq_refl eq_refl)
    as (w & s' & _ & Hs' & _ & _ & _ & _ & _ & Hkept & _ & Hrec).
  rewrite (Hrec eq_refl eq_refl). cbn [fst snd].
  destruct (Hkept eq_refl) as (_ & Hfield & Hstr).
  split; [reflexivity|].
  split; [exact Hfield | exact Hstr].
Defined.

Lemma validate_bootimage_recovery_label_witness :
  validate_bootimage user_build sample_externals RECOVERY good_image [] = EFI_SUCCESS
  ∧ validate_bootimage user_build sample_externals NORMAL_BOOT good_image [] = EFI_SUCCESS
  ∧ validate_bootimage user_build sample_externals CHARGER good_image [] = EFI_ACCESS_DENIED.
Proof.
  exact (validate_bootimage_recovery_label user_build sample_externals good_image []
           EFI_SUCCESS eq_refl eq_refl).
Defined.

Lemma start_buffer_rejects_before_jump_witness :
  android_image_start_buffer user_build sample_externals sample_handover_env
    (Some bad_signature_image)
  = (EFI_INVALID_PARAMETER, []).
Proof.
  apply start_buffer_rejects_before_jump. left. side_condition.
Defined.

Lemma loaders_reject_bad_magic_witness :
  android_image_load_partition user_build sample_externals
    (sample_partition flipped_magic_image)
  = (EFI_INVALID_PARAMETER, None)
  ∧ ∃ d, android_image_load_file user_build (sample_file flipped_magic_image) true
         = Loaded EFI_INVALID_PARAMETER None d.
Proof.
  destruct (loaders_reject_bad_magic user_build sample_externals
              (sample_partition flipped_magic_image) (sample_file flipped_magic_image) true
              ltac:(side_condition) ltac:(side_condition))
    as [(_ & _ & Hpart) (_ & Hfile)].
  split; [exact (Hpart eq_refl) | exact (Hfile eq_refl)].
Defined.

Lemma check_watchdog_stale_window_witness :
  fst (check_watchdog user_build watchdog_platform (idle_state 2)) = NORMAL_BOOT
  ∧ counter (watchdog (snd (check_watchdog user_build watchdog_platform (idle_state 2)))) = 1
  ∧ time_reference (watchdog (snd (check_watchdog user_build watchdog_platform (idle_state 2))))
    = time_of 9 11.
Proof.
  destruct (check_watchdog_stale_window user_build watchdog_platform (idle_state 2)
              eq_refl eq_refl eq_refl eq_refl eq_refl eq_refl
              ltac:(side_condition) ltac:(side_condition) ltac:(side_condition)
              ltac:(side_condition) ltac:(side_condition))
    as (Hdefer & _ & Hwd).
  split; [exact Hdefer | exact (Hwd eq_refl)].
Defined.

(** * Further properties *)

(** ** Page alignment and image size *)

Lemma land_clear_low_bits (y k : Z) :
  0 ≤ k < 32 → 0 ≤ y < 2 ^ 32 →
  Z.land y (UINT32_wrap (Z.lnot (UINT32_wrap (2 ^ k - 1)))) = y - y mod 2 ^ k.
Proof.
  intros Hk Hy. unfold UINT32_wrap.
  assert (Hpk : 0 < 2 ^ k ≤ 2 ^ 31).
  { split; [apply Z.pow_pos_nonneg; lia|]. apply Z.pow_le_mono_r; lia. }
  rewrite (Z.mod_small (2 ^ k - 1)) by (change (2 ^ 32) with (2 * 2 ^ 31); lia).
  replace (2 ^ k - 1) with (Z.ones k) by (rewrite Z.ones_equiv; lia).
  rewrite <- (Z.land_ones (Z.lnot (Z.ones k)) 32) by lia.
  rewrite Z.land_assoc, (Z.land_comm y), <- Z.land_assoc.
  rewrite (Z.land_ones y 32) by lia. rewrite (Z.mod_small y) by lia.
  rewrite Z.land_comm, <- Z.ldiff_land.
  rewrite Z.ldiff_ones_r by lia.
  rewrite Z.shiftr_div_pow2, Z.shiftl_mul_pow2 by lia.
  pose proof (Z.div_mod y (2 ^ k) ltac:(lia)). lia.
Qed.

Lemma pagealign_no_wrap (h : boot_img_hdr) (k blob_size : Z) :
  page_size_pow2 h k → 0 ≤ blob_size → blob_size + page_size h ≤ 2 ^ 32 →
  pagealign h blob_size
  = blob_size + page_size h - 1 - (blob_size + page_size h - 1) mod page_size h.
Proof.
  intros [Hk Hp] Hb Hfit. unfold pagealign. rewrite Hp in *.
  assert (Hpk : 0 < 2 ^ k) by (apply Z.pow_pos_nonneg; lia).
  assert (E : UINT32_wrap (blob_size + UINT32_wrap (2 ^ k - 1)) = blob_size + 2 ^ k - 1).
  { unfold UINT32_wrap. rewrite (Z.mod_small (2 ^ k - 1)) by lia.
    rewrite Z.mod_small by lia. lia. }
  rewrite E. rewrite land_clear_low_bits by lia. reflexivity.
Qed.

(** X1: with a page size that is a power of two and no overflow of
    [UINT32], [pagealign] yields the least multiple of the page size that
    is not below the blob size. *)
Theorem pagealign_rounds_up (h : boot_img_hdr) (k blob_size : Z) :
  page_size_pow2 h k → 0 ≤ blob_size → blob_size + page_size h ≤ 2 ^ 32 →
  pagealign h blob_size mod page_size h = 0
  ∧ blob_size ≤ pagealign h blob_size < blob_size + page_size h.
Proof.
  intros Hp Hb Hfit. rewrite (pagealign_no_wrap h k blob_size Hp Hb Hfit).
  destruct Hp as [Hk Hp]. rewrite Hp in *.
  assert (Hpk : 0 < 2 ^ k) by (apply Z.pow_pos_nonneg; lia).
  pose proof (Z.mod_pos_bound (blob_size + 2 ^ k - 1) (2 ^ k) Hpk) as Hm.
  split; [|lia].
  pose proof (Z.div_mod (blob_size + 2 ^ k - 1) (2 ^ k) ltac:(lia)) as Hd.
  replace (blob_size + 2 ^ k - 1 - (blob_size + 2 ^ k - 1) mod 2 ^ k)
    with ((blob_size + 2 ^ k - 1) / 2 ^ k * 2 ^ k) by lia.
  apply Z.mod_mul. lia.
Qed.

(** X2: a blob size within one page of 4 GiB makes the sum wrap around
    in [UINT32], and [pagealign] answers 0. *)
Theorem pagealign_wraps_to_zero (h : boot_img_hdr) (k blob_size : Z) :
  page_size_pow2 h k → 2 ^ 32 - page_size h < blob_size < 2 ^ 32 →
  pagealign h blob_size = 0.
Proof.
  intros [Hk Hp] Hb. unfold pagealign. rewrite Hp in *.
  assert (Hpk : 0 < 2 ^ k ≤ 2 ^ 31).
  { split; [apply Z.pow_pos_nonneg; lia|]. apply Z.pow_le_mono_r; lia. }
  change (2 ^ 32) with (2 * 2 ^ 31) in Hb.
  assert (E : UINT32_wrap (blob_size + UINT32_wrap (2 ^ k - 1))
              = blob_size + 2 ^ k - 1 - 2 ^ 32).
  { unfold UINT32_wrap. change (2 ^ 32) with (2 * 2 ^ 31).
    rewrite (Z.mod_small (2 ^ k - 1)) by lia.
    symmetry. apply Z.mod_unique with (q := 1); lia. }
  rewrite E. rewrite land_clear_low_bits by (change (2 ^ 32) with (2 * 2 ^ 31) in *; lia).
  rewrite Z.mod_small by (change (2 ^ 32) with (2 * 2 ^ 31); lia). lia.
Qed.

Lemma pagealign_multiple (h : boot_img_hdr) (k blob_size : Z) :
  page_size_pow2 h k → 0 ≤ blob_size → blob_size + page_size h ≤ 2 ^ 32 →
  (page_size h | pagealign h blob_size)
  ∧ blob_size ≤ pagealign h blob_size < blob_size + page_size h.
Proof.
  intros Hp Hb Hfit. rewrite (pagealign_no_wrap h k blob_size Hp Hb Hfit).
  destruct Hp as [Hk Hp]. rewrite Hp in *.
  assert (Hpk : 0 < 2 ^ k) by (apply Z.pow_pos_nonneg; lia).
  pose proof (Z.mod_pos_bound (blob_size + 2 ^ k - 1) (2 ^ k) Hpk) as Hm.
  split; [|lia].
  exists ((blob_size + 2 ^ k - 1) / 2 ^ k).
  pose proof (Z.div_mod (blob_size + 2 ^ k - 1) (2 ^ k) ltac:(lia)) as Hd. lia.
Qed.

Lemma page_size_positive (h : boot_img_hdr) (k : Z) :
  page_size_pow2 h k → 0 < page_size h.
Proof. intros [Hk ->]. apply Z.pow_pos_nonneg; lia. Qed.

Lemma bootimage_size_no_wrap (h : boot_img_hdr) (k : Z) :
  page_size_pow2 h k → layout_fits h →
  bootimage_size h
  = pagealign h (kernel_size h) + pagealign h (ramdisk_size h)
    + pagealign h (second_size h) + page_size h.
Proof.
  intros Hp (Hk & Hr & Hs & Hfit).
  pose proof (page_size_positive h k Hp) as Hpos.
  destruct (pagealign_multiple h k (kernel_size h) Hp Hk ltac:(lia)) as [_ Bk].
  destruct (pagealign_multiple h k (ramdisk_size h) Hp Hr ltac:(lia)) as [_ Br].
  destruct (pagealign_multiple h k (second_size h) Hp Hs ltac:(lia)) as [_ Bs].
  unfold bootimage_size, UINT32_wrap. apply Z.mod_small. lia.
Qed.

(** X3: with a power-of-two page size and section sizes whose sum with
    four pages does not exceed [2 ^ 32] ([layout_fits], so that no 32-bit
    sum wraps around), [bootimage_size] is a multiple of the page size,
    holds the header page and the three sections, and exceeds their sum by
    less than three pages. *)
Theorem bootimage_size_covers_sections (h : boot_img_hdr) (k : Z) :
  page_size_pow2 h k → layout_fits h →
  bootimage_size h mod page_size h = 0
  ∧ page_size h + kernel_size h + ramdisk_size h + second_size h ≤ bootimage_size h
  ∧ bootimage_size h
    < page_size h + kernel_size h + ramdisk_size h + second_size h + 3 * page_size h.
Proof.
  intros Hp Hfit. rewrite (bootimage_size_no_wrap h k Hp Hfit).
  destruct Hfit as (Hk & Hr & Hs & Hfit).
  pose proof (page_size_positive h k Hp) as Hpos.
  destruct (pagealign_multiple h k (kernel_size h) Hp Hk ltac:(lia)) as [Dk Bk].
  destruct (pagealign_multiple h k (ramdisk_size h) Hp Hr ltac:(lia)) as [Dr Br].
  destruct (pagealign_multiple h k (second_size h) Hp Hs ltac:(lia)) as [Ds Bs].
  split; [|lia].
  apply Z.mod_divide; [lia|].
  repeat apply Z.divide_add_r; try assumption. apply Z.divide_refl.
Qed.

Lemma magic_accepted (b : build) (h : boot_img_hdr) :
  take 8 (magic h) = BOOT_MAGIC → bad_magic b h = false.
Proof.
  intros H. unfold bad_magic. rewrite <- (take_drop 8 (magic h)), H. reflexivity.
Qed.

(** X4: [get_bootimage_header] hands out the header exactly when the first
    eight bytes of the blob are the boot magic; [get_bootimage_2nd] answers
    [EFI_INVALID_PARAMETER] for every other blob, the NULL blob included, and
    [EFI_NOT_FOUND] for an accepted image without second stage. *)
Theorem get_bootimage_header_checks_magic (b : build) (image : bootimage) :
  (get_bootimage_header b (Some image) = Some (aosp_header image)
   ↔ take 8 (magic (aosp_header image)) = BOOT_MAGIC)
  ∧ (get_bootimage_header b (Some image) = None
     ↔ take 8 (magic (aosp_header image)) ≠ BOOT_MAGIC)
  ∧ get_bootimage_header b None = None
  ∧ get_bootimage_2nd b None = Err EFI_INVALID_PARAMETER
  ∧ (take 8 (magic (aosp_header image)) ≠ BOOT_MAGIC →
     get_bootimage_2nd b (Some image) = Err EFI_INVALID_PARAMETER)
  ∧ (take 8 (magic (aosp_header image)) = BOOT_MAGIC →
     second_size (aosp_header image) = 0 →
     get_bootimage_2nd b (Some image) = Err EFI_NOT_FOUND).
Proof.
  unfold get_bootimage_2nd, get_bootimage_header.
  destruct (decide (take 8 (magic (aosp_header image)) = BOOT_MAGIC)) as [E|E].
  - rewrite (magic_accepted b _ E).
    repeat split; try reflexivity; try (intros; congruence).
    intros _ ->. reflexivity.
  - rewrite (bad_magic_detected b _ E).
    repeat split; try reflexivity; try (intros; congruence).
Qed.

(** X5: for an accepted image with a second stage, a power-of-two page
    size and section sizes whose sum with four pages does not exceed
    [2 ^ 32] ([layout_fits], so that no 32-bit sum wraps around),
    [get_bootimage_2nd] delivers the
    declared size and an offset that is page aligned, lies behind the header,
    the kernel and the ramdisk, and leaves the blob inside the image:
    offset plus aligned size is [bootimage_size]. *)
Theorem get_bootimage_2nd_inside_image (b : build) (image : bootimage) (k : Z) :
  take 8 (magic (aosp_header image)) = BOOT_MAGIC →
  second_size (aosp_header image) ≠ 0 →
  page_size_pow2 (aosp_header image) k → layout_fits (aosp_header image) →
  ∃ offset,
    get_bootimage_2nd b (Some image) = Ok (offset, second_size (aosp_header image))
    ∧ offset mod page_size (aosp_header image) = 0
    ∧ page_size (aosp_header image) + kernel_size (aosp_header image)
      + ramdisk_size (aosp_header image) ≤ offset
    ∧ offset + pagealign (aosp_header image) (second_size (aosp_header image))
      = bootimage_size (aosp_header image)
    ∧ offset + second_size (aosp_header image) ≤ bootimage_size (aosp_header image).
Proof.
  intros Hmagic Hsecond Hp Hfit.
  unfold get_bootimage_2nd, get_bootimage_header. rewrite (magic_accepted b _ Hmagic).
  apply Z.eqb_neq in Hsecond. rewrite Hsecond.
  set (h := aosp_header image) in *.
  rewrite (bootimage_size_no_wrap h k Hp Hfit).
  destruct Hfit as (Hk & Hr & Hs & Hfit).
  pose proof (page_size_positive h k Hp) as Hpos.
  destruct (pagealign_multiple h k (kernel_size h) Hp Hk ltac:(lia)) as [Dk Bk].
  destruct (pagealign_multiple h k (ramdisk_size h) Hp Hr ltac:(lia)) as [Dr Br].
  destruct (pagealign_multiple h k (second_size h) Hp Hs ltac:(lia)) as [Ds Bs].
  eexists. split; [reflexivity|].
  unfold UINT32_wrap. rewrite (Z.mod_small _ (2 ^ 32)) by lia.
  split; [|lia].
  apply Z.mod_divide; [lia|].
  repeat apply Z.divide_add_r; try assumption. apply Z.divide_refl.
Qed.

(** ** The control block on disk *)

(** X6: what [write_bcb] stores is what the next [read_bcb] delivers, up to
    the two terminators that [read_bcb] forces; a record that came out of
    [read_bcb] is read back unchanged. *)
Theorem bcb_write_then_read (m : partition bootloader_message) (w : bootloader_message) :
  fst (write_bcb m w) = EFI_SUCCESS →
  EFI_ERROR (ReadDisk_ret m) = false →
  read_bcb (snd (write_bcb m w)) = Ok (terminated w)
  ∧ (∀ m0, read_bcb m0 = Ok w → read_bcb (snd (write_bcb m w)) = Ok w).
Proof.
  intros Hw Hr. unfold write_bcb in *.
  destruct (EFI_ERROR (gpt_get_partition_by_label_ret m)) eqn:Eg; [discriminate|].
  destruct (EFI_ERROR (WriteDisk_ret m)) eqn:Ew.
  { cbn [fst] in Hw. rewrite Hw in Ew. discriminate. }
  cbn [snd]. unfold read_bcb at 1 3. cbn. rewrite Eg, Hr.
  split; [reflexivity|].
  intros m0 H0. unfold read_bcb in H0.
  destruct (EFI_ERROR (gpt_get_partition_by_label_ret m0)); [discriminate|].
  destruct (EFI_ERROR (ReadDisk_ret m0)); [discriminate|].
  injection H0 as <-. cbn [command status].
  rewrite !list_insert_insert_eq. reflexivity.
Qed.

Lemma cstr_insert_nul_0 (mem : list CHAR8) :
  (0 < length mem)%nat → cstr (<[0%nat := NUL]> mem) = [].
Proof. destruct mem; simpl; [lia | reflexivity]. Qed.

Lemma read_bcb_wf (m : partition bootloader_message) (bcb : bootloader_message) :
  bcb_wf (stored m) → read_bcb m = Ok bcb → bcb_wf bcb.
Proof.
  intros [Hc Hs] H. unfold read_bcb in H.
  destruct (EFI_ERROR (gpt_get_partition_by_label_ret m)); [discriminate|].
  destruct (EFI_ERROR (ReadDisk_ret m)); [discriminate|].
  injection H as <-. split; cbn; rewrite length_insert; assumption.
Qed.

(** X7: whatever command a record carries, [check_bcb] hands [write_bcb] a
    record whose status is the empty string (only byte 0 of the field is
    touched) and leaves the command field alone unless the command is a
    [bootonce-] command; on a partition whose [WriteDisk] does not fail the
    status stored afterwards is that empty string.  The watchdog record and
    the variables are not touched. *)
Theorem check_bcb_clears_status (b : build) (x : externals) (p : platform) (s : state)
    (bcb : bootloader_message) :
  bcb_wf (stored (misc s)) →
  read_bcb (misc s) = Ok bcb →
  ∃ w,
    misc (snd (check_bcb b x p s)) = snd (write_bcb (misc s) w)
    ∧ status w = <[0%nat := NUL]> (status bcb)
    ∧ cstr (status w) = []
    ∧ (is_boot_command b (command bcb) = true ∨ is_bootonce_command b (command bcb) = false →
       command w = command bcb)
    ∧ (EFI_ERROR (WriteDisk_ret (misc s)) = false →
       stored (misc (snd (check_bcb b x p s))) = w
       ∧ cstr (status (stored (misc (snd (check_bcb b x p s))))) = [])
    ∧ watchdog (snd (check_bcb b x p s)) = watchdog s
    ∧ efi_vars (snd (check_bcb b x p s)) = efi_vars s.
Proof.
  intros Hwf Hread.
  destruct (read_bcb_wf _ _ Hwf Hread) as [_ Hs].
  rewrite (check_bcb_read b x p s bcb Hread). unfold interpret_bcb. cbn [command status].
  assert (He : cstr (<[0%nat := NUL]> (status bcb)) = [])
    by (apply cstr_insert_nul_0; lia).
  assert (Hdisk : ∀ w, EFI_ERROR (WriteDisk_ret (misc s)) = false →
                       cstr (status w) = [] →
                       stored (snd (write_bcb (misc s) w)) = w
                       ∧ cstr (status (stored (snd (write_bcb (misc s) w)))) = []).
  { intros w Hw Hempty.
    destruct (write_bcb_after_read (misc s) bcb w Hread Hw) as [_ Hst].
    rewrite Hst. split; [reflexivity | exact Hempty]. }
  destruct (is_boot_command b (command bcb)) eqn:Eb.
  - destruct (resolve_bcb_target x p (stra_to_str (drop 5 (command bcb)))) as [t path].
    eexists. cbn [snd misc set_misc watchdog efi_vars status command].
    split; [reflexivity|]. split; [reflexivity|]. split; [exact He|].
    split; [reflexivity|].
    split; [intros Hw; apply (Hdisk _ Hw); exact He|]. split; reflexivity.
  - destruct (is_bootonce_command b (command bcb)) eqn:Eo.
    + destruct (resolve_bcb_target x p (stra_to_str (drop 9 (command bcb)))) as [t path].
      eexists. cbn [snd misc set_misc watchdog efi_vars status command].
      split; [reflexivity|]. split; [reflexivity|]. split; [exact He|].
      split; [intros [H|H]; discriminate|].
      split; [intros Hw; apply (Hdisk _ Hw); exact He|]. split; reflexivity.
    + eexists. cbn [snd misc set_misc watchdog efi_vars status command].
      split; [reflexivity|]. split; [reflexivity|]. split; [exact He|].
      split; [reflexivity|].
      split; [intros Hw; apply (Hdisk _ Hw); exact He|]. split; reflexivity.
Qed.

(** X8: a [bootonce-] command whose name the table does not know is
    consumed all the same: the command handed to [write_bcb] is the empty
    string, which on a partition whose [WriteDisk] does not fail is the
    command stored afterwards; [*oneshot] is [TRUE], and the check defers
    with [NORMAL_BOOT]. *)
Theorem check_bcb_bootonce_unknown_name (b : build) (x : externals) (p : platform)
    (s : state) (bcb : bootloader_message) (X : list CHAR8) :
  read_bcb (misc s) = Ok bcb →
  cstr (command bcb) = A "bootonce-" ++ X →
  deref16 (map code8 X) ≠ BACKSLASH →
  name_to_boot_target x (map code8 X) = UNKNOWN_TARGET →
  ∃ w s',
    check_bcb b x p s = (NORMAL_BOOT, None, true, s')
    ∧ misc s' = snd (write_bcb (misc s) w)
    ∧ cstr (command w) = []
    ∧ (EFI_ERROR (WriteDisk_ret (misc s)) = false →
       fst (write_bcb (misc s) w) = EFI_SUCCESS
       ∧ stored (misc s') = w
       ∧ cstr (command (stored (misc s'))) = []).
Proof.
  intros Hread Hcmd Hpath Hunknown.
  apply cstr_prefix_inv in Hcmd as (mem & Hmem & HX).
  rewrite (check_bcb_read b x p s bcb Hread).
  unfold interpret_bcb. cbn [command status]. rewrite Hmem.
  destruct (bootonce_prefix_recognised b mem) as [-> ->].
  change (drop 9 (A "bootonce-" ++ mem)) with mem.
  unfold stra_to_str. rewrite HX.
  unfold resolve_bcb_target. apply Z.eqb_neq in Hpath. rewrite Hpath, Hunknown.
  rewrite bool_decide_eq_false_2 by (intros H; apply H; reflexivity).
  eexists _, _. split; [reflexivity|]. split; [reflexivity|]. split; [reflexivity|].
  intros Hw. cbn [misc set_misc].
  match goal with
  | |- context [write_bcb (misc s) ?w] =>
      destruct (write_bcb_after_read (misc s) bcb w Hread Hw) as [Hret Hst]
  end.
  rewrite Hret, Hst. repeat split; reflexivity.
Qed.

(** ** Paths named by a control block *)

Lemma cstr_no_nul (mem : list CHAR8) : Forall (λ c, c ≠ NUL) (cstr mem).
Proof.
  induction mem as [|c mem IH]; simpl; [constructor|].
  unfold is_nul. destruct (decide (c = NUL)) as [E|E].
  - rewrite bool_decide_eq_true_2 by exact E. constructor.
  - rewrite bool_decide_eq_false_2 by exact E. constructor; assumption.
Qed.

Lemma widened_no_nul (X : list CHAR8) :
  Forall (λ c, c ≠ NUL) X → Forall (λ c : Z, c ≠ 0) (map code8 X).
Proof.
  induction 1 as [|c X Hc _ IH]; simpl; constructor; [|exact IH].
  intros H. apply Hc. apply code8_nul. exact H.
Qed.

(** On strings without NUL, [StrCmp] answers 0 exactly for equal strings. *)
Lemma StrCmp_zero_iff (s1 s2 : list CHAR16) :
  Forall (λ c : Z, c ≠ 0) s1 → Forall (λ c : Z, c ≠ 0) s2 →
  StrCmp s1 s2 = 0 ↔ s1 = s2.
Proof.
  intros H1; revert s2; induction H1 as [|c1 t1 Hc1 _ IH]; intros s2 H2; simpl.
  - destruct H2 as [|c2 t2 Hc2 _]; simpl; split; intros H; try reflexivity;
      try discriminate. lia.
  - apply Z.eqb_neq in Hc1 as E0. rewrite E0.
    destruct H2 as [|c2 t2 Hc2 H2]; simpl.
    + rewrite E0. simpl. split; [lia | discriminate].
    + destruct (c1 =? c2) eqn:E; simpl.
      * apply Z.eqb_eq in E as ->. rewrite (IH t2 H2). split; congruence.
      * apply Z.eqb_neq in E. split; [lia | congruence].
Qed.

Lemma efi_suffix_decided (path : list CHAR16) :
  Forall (λ c : Z, c ≠ 0) path →
  (StrCmp (drop (length path - 4) path) (L ".efi") =? 0)
  || (StrCmp (drop (length path - 4) path) (L ".EFI") =? 0) = true
  ↔ efi_suffix path.
Proof.
  intros Hnn. unfold efi_suffix.
  assert (Hd : Forall (λ c : Z, c ≠ 0) (drop (length path - 4) path))
    by (apply Forall_drop; exact Hnn).
  assert (Hl : Forall (λ c : Z, c ≠ 0) (L ".efi")) by (repeat constructor; discriminate).
  assert (Hu : Forall (λ c : Z, c ≠ 0) (L ".EFI")) by (repeat constructor; discriminate).
  rewrite orb_true_iff, !Z.eqb_eq.
  rewrite (StrCmp_zero_iff _ _ Hd Hl), (StrCmp_zero_iff _ _ Hd Hu). reflexivity.
Qed.

(** X9: a [boot-] or [bootonce-] command whose target starts with a
    backslash is a path and is never looked up in the name table.  A path
    that does not exist, or that has at most four characters, gives
    [NORMAL_BOOT] and no path; any other path is handed out in
    [*target_path], with [ESP_EFI_BINARY] exactly when it ends in [.efi] or
    [.EFI] and [ESP_BOOTIMAGE] otherwise. *)
Theorem check_bcb_path_target (b : build) (x : externals) (p : platform) (s : state)
    (bcb : bootloader_message) (X : list CHAR8) :
  read_bcb (misc s) = Ok bcb →
  cstr (command bcb) = A "boot-" ++ X ∨ cstr (command bcb) = A "bootonce-" ++ X →
  deref16 (map code8 X) = BACKSLASH →
  let t := fst (fst (fst (check_bcb b x p s))) in
  let target_path := snd (fst (fst (check_bcb b x p s))) in
  (file_exists p (map code8 X) = false ∨ (length X ≤ 4)%nat →
   t = NORMAL_BOOT ∧ target_path = None)
  ∧ (file_exists p (map code8 X) = true → (4 < length X)%nat →
     target_path = Some (map code8 X)
     ∧ (efi_suffix (map code8 X) → t = ESP_EFI_BINARY)
     ∧ (¬ efi_suffix (map code8 X) → t = ESP_BOOTIMAGE)).
Proof.
  intros Hread Hcmd Hpath.
  assert (Hres : ∃ once s', check_bcb b x p s
                 = (fst (resolve_bcb_target x p (map code8 X)),
                    snd (resolve_bcb_target x p (map code8 X)), once, s')
                 ∧ Forall (λ c : Z, c ≠ 0) (map code8 X)).
  { rewrite (check_bcb_read b x p s bcb Hread). unfold interpret_bcb. cbn [command status].
    destruct Hcmd as [Hcmd|Hcmd]; apply cstr_prefix_inv in Hcmd as (mem & Hmem & HX);
      rewrite Hmem.
    - rewrite boot_prefix_recognised. change (drop 5 (A "boot-" ++ mem)) with mem.
      unfold stra_to_str. rewrite HX.
      destruct (resolve_bcb_target x p (map code8 X)) as [t path].
      eexists _, _. split; [reflexivity|].
      apply widened_no_nul. rewrite <- HX. apply cstr_no_nul.
    - destruct (bootonce_prefix_recognised b mem) as [-> ->].
      change (drop 9 (A "bootonce-" ++ mem)) with mem.
      unfold stra_to_str. rewrite HX.
      destruct (resolve_bcb_target x p (map code8 X)) as [t path].
      eexists _, _. split; [reflexivity|].
      apply widened_no_nul. rewrite <- HX. apply cstr_no_nul. }
  destruct Hres as (once & s' & -> & Hnn). cbn [fst snd].
  unfold resolve_bcb_target. apply Z.eqb_eq in Hpath. rewrite Hpath.
  rewrite length_map.
  split.
  - intros [Hmissing|Hshort].
    + rewrite Hmissing. split; reflexivity.
    + destruct (file_exists p (map code8 X)); cbn [negb]; [|split; reflexivity].
      replace (4 <? Z.of_nat (length X)) with false by (symmetry; apply Z.ltb_ge; lia).
      split; reflexivity.
  - intros Hexists Hlong. rewrite Hexists. cbn [negb].
    replace (4 <? Z.of_nat (length X)) with true by (symmetry; apply Z.ltb_lt; lia).
    pose proof (efi_suffix_decided (map code8 X) Hnn) as Hsuf. rewrite length_map in Hsuf.
    match goal with
    | |- context [if ?c then _ else _] => destruct c eqn:E
    end.
    + split; [reflexivity|]. split; [intros _; reflexivity|].
      intros Hn. exfalso. apply Hn. apply Hsuf. reflexivity.
    + split; [reflexivity|]. split; [|intros _; reflexivity].
      intros Hy. apply Hsuf in Hy. discriminate.
Qed.

(** ** The command line *)

Lemma check_command_line_loop_invariant (b : build) (x : externals) (n : nat) :
  ∀ (argv : list (list CHAR16)) (first : bool) (bt : boot_target) (address : Z) (s : state),
    (length argv ≤ n)%nat →
    command_line_invariant b bt address →
    let r := check_command_line_loop b x first argv bt address s in
    (command_line_invariant b (fst (fst r)) (snd (fst r)) ∧ snd r = s)
    ∨ (fst (fst r) = EXIT_SHELL ∧ USER b = false
       ∧ (snd (fst r) ≠ 0 → USERFASTBOOT b = true)
       ∧ ∃ arg, snd r = emit (unittest_main arg) s).
Proof.
  induction n as [|n IH]; intros argv first bt address s Hlen Hinv.
  - destruct argv; [|simpl in Hlen; lia]. left. split; [exact Hinv | reflexivity].
  - destruct argv as [|arg rest]; [left; split; [exact Hinv | reflexivity]|].
    simpl in Hlen. cbn [check_command_line_loop].
    destruct (negb (USERFASTBOOT b) && (StrCmp arg (L "-f") =? 0)) eqn:Ef.
    { apply andb_prop in Ef as [Ef _]. apply negb_true_iff in Ef.
      apply IH; [lia|]. split; [right; left; split; [reflexivity | exact Ef]|].
      intros Ha. destruct Hinv as [_ Hinv]. destruct (Hinv Ha) as [Hu _]. congruence. }
    destruct (negb (USER b) && (StrCmp arg (L "-U") =? 0)) eqn:EU.
    { apply andb_prop in EU as [EU _]. apply negb_true_iff in EU.
      right. cbn [fst snd]. split; [reflexivity|]. split; [exact EU|].
      split; [intros Ha; destruct Hinv as [_ Hinv]; exact (proj1 (Hinv Ha))|].
      eexists. reflexivity. }
    destruct (StrCmp arg (L "-a") =? 0).
    { destruct rest as [|addr rest']; [left; split; [exact Hinv | reflexivity]|].
      simpl in Hlen. destruct (USERFASTBOOT b) eqn:Eu.
      - apply IH; [lia|]. split; [right; right; split; [reflexivity | exact Eu]|].
        intros _. split; [exact Eu | reflexivity].
      - apply IH; [lia|]. split; [right; left; split; [reflexivity | exact Eu]|].
        intros Ha. destruct Hinv as [_ Hinv]. destruct (Hinv Ha) as [Hu _]. congruence. }
    destruct first.
    + apply IH; [lia | exact Hinv].
    + left. split; [exact Hinv | reflexivity].
Qed.

(** X10: whatever the arguments, [check_command_line] answers
    [NORMAL_BOOT], [FASTBOOT] (only without USERFASTBOOT), [MEMORY] (only
    with USERFASTBOOT) or [EXIT_SHELL] (only outside USER builds); a
    non-null [*address] comes only with USERFASTBOOT and with [MEMORY] or
    [EXIT_SHELL]; and unless the self tests ran, the variables, the misc
    partition and the watchdog record are as they were. *)
Theorem check_command_line_targets (b : build) (x : externals) (p : platform) (s : state) :
  let t := fst (fst (check_command_line b x p s)) in
  let address := snd (fst (check_command_line b x p s)) in
  (t = NORMAL_BOOT ∨ (t = FASTBOOT ∧ USERFASTBOOT b = false)
   ∨ (t = MEMORY ∧ USERFASTBOOT b = true) ∨ (t = EXIT_SHELL ∧ USER b = false))
  ∧ (address ≠ 0 → USERFASTBOOT b = true ∧ (t = MEMORY ∨ t = EXIT_SHELL))
  ∧ (t ≠ EXIT_SHELL →
     efi_vars (snd (check_command_line b x p s)) = efi_vars s
     ∧ misc (snd (check_command_line b x p s)) = misc s
     ∧ watchdog (snd (check_command_line b x p s)) = watchdog s)
  ∧ (USER b = true → USERFASTBOOT b = false →
     (t = NORMAL_BOOT ∨ t = FASTBOOT) ∧ address = 0).
Proof.
  cbn zeta. unfold check_command_line.
  destruct (get_argv p) as [st|argv].
  { cbn [fst snd]. split; [left; reflexivity|]. split; [intros H0; contradiction|].
    split; [intros _; repeat split|]. intros _ _. split; [left; reflexivity | reflexivity]. }
  assert (Hstart : command_line_invariant b NORMAL_BOOT 0).
  { split; [left; reflexivity | intros H0; contradiction]. }
  pose proof (check_command_line_loop_invariant b x (length argv) argv true NORMAL_BOOT 0 s
                (le_n _) Hstart) as H.
  cbn zeta in H.
  destruct (check_command_line_loop b x true argv NORMAL_BOOT 0 s) as [[t address] s'].
  cbn [fst snd] in *.
  destruct H as [[[Ht Ha] ->] | (-> & HU & Ha & arg & ->)].
  - split; [destruct Ht as [Ht|[Ht|Ht]]; tauto|].
    split; [intros Hne; destruct (Ha Hne) as [Hu ->]; tauto|].
    split; [intros _; repeat split|].
    intros _ Hu. split.
    + destruct Ht as [Ht|[[Ht _]|[_ Ht]]]; [tauto | tauto | congruence].
    + destruct (Z.eq_dec address 0) as [|Hne]; [assumption|].
      destruct (Ha Hne). congruence.
  - split; [tauto|]. split; [intros Hne; split; [exact (Ha Hne) | tauto]|].
    split; [intros H0; contradiction|]. intros HU'. congruence.
Qed.

(** ** Watchdog resets in a row *)

Lemma window_keeps_counter (b : build) (c : Z) (now time_ref : EFI_TIME) :
  within_window now time_ref → watchdog_window_counter b c now time_ref = c.
Proof.
  intros (Hy & Hm & _ & Hd). unfold watchdog_window_counter.
  destruct (0 <? c); [|reflexivity].
  rewrite (time_diff_same_month b now time_ref Hy Hm).
  unfold WATCHDOG_DELAY in *.
  rewrite INTN_wrap_small by (change (2 ^ 31) with 2147483648; lia).
  replace (_ <? 0) with false by (symmetry; apply Z.ltb_ge; lia).
  replace (10 * 60 <? _) with false by (symmetry; apply Z.ltb_ge; lia).
  reflexivity.
Qed.

Lemma check_watchdog_after_watchdog_reset (b : build) (p : platform) (s : state) :
  watchdog_boot p →
  check_watchdog b p s =
    let c := watchdog_window_counter b (counter (watchdog s)) (GetTime_now p)
               (time_reference (watchdog s)) in
    let s1 := if c =? 0 then snd (set_watchdog_time_reference p (GetTime_now p) s) else s in
    if (c + 1) mod 256 <=? WATCHDOG_COUNTER_MAX
    then (NORMAL_BOOT, snd (set_watchdog_counter p ((c + 1) mod 256) s1))
    else (ux_crash_event_prompt_user_for_boot_target p,
          emit ux_crash_event_prompt (snd (reset_watchdog_status p s1))).
Proof.
  intros (Hmenu & Hget & Hsetc & Hsett & Htime & Hwd).
  unfold check_watchdog, get_watchdog_status. rewrite Hmenu, Hget, Hwd, Htime. cbn [negb].
  cbn zeta.
  destruct (watchdog_window_counter b (counter (watchdog s)) (GetTime_now p)
              (time_reference (watchdog s)) =? 0).
  - unfold set_watchdog_time_reference. rewrite Hsett, Hsett. reflexivity.
  - reflexivity.
Qed.

(** X11: a stored counter between 0 and [WATCHDOG_COUNTER_MAX] stays in
    that range through a pass of [check_watchdog], whatever the reset source
    and whichever accesses fail. *)
Theorem check_watchdog_keeps_counter_bounded (b : build) (p : platform) (s : state) :
  0 ≤ counter (watchdog s) ≤ WATCHDOG_COUNTER_MAX →
  0 ≤ counter (watchdog (snd (check_watchdog b p s))) ≤ WATCHDOG_COUNTER_MAX.
Proof.
  intros Hc. unfold check_watchdog, get_watchdog_status.
  unfold WATCHDOG_COUNTER_MAX in *.
  destruct (get_current_crash_event_menu p); cbn [negb snd]; [|exact Hc].
  destruct (EFI_ERROR (get_watchdog_status_ret p)); cbn [snd]; [exact Hc|].
  destruct (is_watchdog_reset (rsci_get_reset_source p)); cbn [negb].
  2:{ destruct (counter (watchdog s) =? 0); cbn [negb snd]; [exact Hc|].
      unfold reset_watchdog_status.
      destruct (EFI_ERROR (reset_watchdog_status_ret p)); cbn; [exact Hc | lia]. }
  destruct (EFI_ERROR (GetTime_ret p)); cbn [snd]; [exact Hc|].
  set (c := watchdog_window_counter b (counter (watchdog s)) (GetTime_now p)
              (time_reference (watchdog s))).
  assert (Hw : 0 ≤ c ≤ 2).
  { subst c. unfold watchdog_window_counter.
    destruct (0 <? counter (watchdog s)); [|exact Hc].
    match goal with |- context [if ?t then _ else _] => destruct t end; lia. }
  unfold set_watchdog_time_reference, set_watchdog_counter, reset_watchdog_status.
  destruct (c =? 0); destruct (EFI_ERROR (set_watchdog_time_reference_ret p)) eqn:Et;
    rewrite ?Et; cbn [snd fst EFI_ERROR watchdog counter set_watchdog];
    try exact Hc;
    destruct ((c + 1) mod 256 <=? 2) eqn:El;
    destruct (EFI_ERROR (set_watchdog_counter_ret p));
    destruct (EFI_ERROR (reset_watchdog_status_ret p));
    cbn [snd fst watchdog counter set_watchdog emit];
    try exact Hc; try lia;
    try (apply Z.leb_le in El;
         pose proof (Z.mod_pos_bound (c + 1) 256 ltac:(lia)); lia).
Qed.

Lemma crash_prompts_emit (e : event) (s : state) :
  crash_prompts (console (emit e s))
  = (crash_prompts (console s) + if is_crash_prompt e then 1 else 0)%nat.
Proof.
  unfold crash_prompts, emit. cbn [console].
  rewrite List.filter_app, length_app. cbn [List.filter].
  destruct (is_crash_prompt e); reflexivity.
Qed.

(** X12: after a watchdog reset inside the window, a stored counter from
    [WATCHDOG_COUNTER_MAX] up to 254 makes [check_watchdog] ask the user for
    the boot target and return the answer: the console grows and holds one
    crash-event prompt more than before.  The counter is put back to 0
    unless the reset of the record fails, and the prompt is shown either
    way. *)
Theorem check_watchdog_escalates (b : build) (p : platform) (s : state) :
  watchdog_boot p →
  within_window (GetTime_now p) (time_reference (watchdog s)) →
  WATCHDOG_COUNTER_MAX ≤ counter (watchdog s) < 255 →
  fst (check_watchdog b p s) = ux_crash_event_prompt_user_for_boot_target p
  ∧ crash_prompts (console (snd (check_watchdog b p s))) = S (crash_prompts (console s))
  ∧ (∃ shown, console (snd (check_watchdog b p s)) = console s ++ shown)
  ∧ time_reference (watchdog (snd (check_watchdog b p s))) = time_reference (watchdog s)
  ∧ (EFI_ERROR (reset_watchdog_status_ret p) = false →
     counter (watchdog (snd (check_watchdog b p s))) = 0)
  ∧ (EFI_ERROR (reset_watchdog_status_ret p) = true →
     counter (watchdog (snd (check_watchdog b p s))) = counter (watchdog s)).
Proof.
  intros Hboot Hwin Hc. unfold WATCHDOG_COUNTER_MAX in *.
  rewrite (check_watchdog_after_watchdog_reset b p s Hboot). cbn zeta.
  rewrite (window_keeps_counter b _ _ _ Hwin).
  replace (counter (watchdog s) =? 0) with false by (symmetry; apply Z.eqb_neq; lia).
  rewrite Z.mod_small by lia.
  replace (counter (watchdog s) + 1 <=? WATCHDOG_COUNTER_MAX) with false
    by (symmetry; apply Z.leb_gt; unfold WATCHDOG_COUNTER_MAX; lia).
  unfold reset_watchdog_status. cbn [fst snd].
  rewrite crash_prompts_emit. cbn [is_crash_prompt].
  destruct (EFI_ERROR (reset_watchdog_status_ret p));
    cbn [fst snd emit console watchdog set_watchdog counter time_reference];
    (split; [reflexivity|]); (split; [lia|]);
    (split; [eexists; reflexivity|]);
    repeat split; intros; try reflexivity; discriminate.
Qed.

(** X13: a stored counter of 255 inside the window overflows the [UINT8]:
    the pass stores 0 and defers, and the crash-event prompt is not
    shown. *)
Theorem check_watchdog_counter_overflow (b : build) (p : platform) (s : state) :
  watchdog_boot p →
  within_window (GetTime_now p) (time_reference (watchdog s)) →
  counter (watchdog s) = 255 →
  fst (check_watchdog b p s) = NORMAL_BOOT
  ∧ counter (watchdog (snd (check_watchdog b p s))) = 0
  ∧ crash_prompts (console (snd (check_watchdog b p s))) = crash_prompts (console s).
Proof.
  intros Hboot Hwin Hc.
  rewrite (check_watchdog_after_watchdog_reset b p s Hboot). cbn zeta.
  rewrite (window_keeps_counter b _ _ _ Hwin). rewrite Hc.
  destruct Hboot as (_ & _ & Hsetc & _).
  unfold set_watchdog_counter. rewrite Hsetc. cbn. repeat split.
Qed.

(** X14: three watchdog resets in a row, the second and the third inside
    the window opened by the first, starting from a counter of 0: the first
    two passes defer and count 1 and 2, the first one recording its time,
    and show no crash-event prompt; the third asks the user, which is the
    one prompt of the three passes, and puts the counter back to 0. *)
Theorem third_watchdog_reset_raises_menu (b : build) (p1 p2 p3 : platform) (s : state) :
  watchdog_boot p1 → watchdog_boot p2 → watchdog_boot p3 →
  EFI_ERROR (reset_watchdog_status_ret p3) = false →
  counter (watchdog s) = 0 →
  within_window (GetTime_now p2) (GetTime_now p1) →
  within_window (GetTime_now p3) (GetTime_now p1) →
  let r1 := check_watchdog b p1 s in
  let r2 := check_watchdog b p2 (snd r1) in
  let r3 := check_watchdog b p3 (snd r2) in
  fst r1 = NORMAL_BOOT
  ∧ watchdog (snd r1) = {| counter := 1; time_reference := GetTime_now p1 |}
  ∧ fst r2 = NORMAL_BOOT
  ∧ watchdog (snd r2) = {| counter := 2; time_reference := GetTime_now p1 |}
  ∧ crash_prompts (console (snd r2)) = crash_prompts (console s)
  ∧ fst r3 = ux_crash_event_prompt_user_for_boot_target p3
  ∧ watchdog (snd r3) = {| counter := 0; time_reference := GetTime_now p1 |}
  ∧ crash_prompts (console (snd r3)) = S (crash_prompts (console s)).
Proof.
  intros H1 H2 H3 Hreset Hc W2 W3. cbn zeta.
  assert (E1 : check_watchdog b p1 s
               = (NORMAL_BOOT,
                  set_watchdog s {| counter := 1; time_reference := GetTime_now p1 |})).
  { rewrite (check_watchdog_after_watchdog_reset b p1 s H1). cbn zeta.
    unfold watchdog_window_counter. rewrite Hc. cbn.
    destruct H1 as (_ & _ & Hsetc & Hsett & _).
    unfold set_watchdog_counter, set_watchdog_time_reference. rewrite Hsetc, Hsett.
    reflexivity. }
  rewrite E1. cbn [fst snd].
  assert (E2 : check_watchdog b p2
                 (set_watchdog s {| counter := 1; time_reference := GetTime_now p1 |})
               = (NORMAL_BOOT,
                  set_watchdog s {| counter := 2; time_reference := GetTime_now p1 |})).
  { rewrite (check_watchdog_after_watchdog_reset b p2 _ H2). cbn zeta.
    cbn [watchdog set_watchdog counter time_reference].
    rewrite (window_keeps_counter b _ _ _ W2). cbn.
    destruct H2 as (_ & _ & Hsetc & _).
    unfold set_watchdog_counter. rewrite Hsetc. reflexivity. }
  rewrite E2. cbn [fst snd].
  rewrite (check_watchdog_after_watchdog_reset b p3 _ H3). cbn zeta.
  cbn [watchdog set_watchdog counter time_reference].
  rewrite (window_keeps_counter b _ _ _ W3). cbn.
  unfold reset_watchdog_status. rewrite Hreset.
  repeat split.
  unfold crash_prompts.
  change ((2 + 1) `mod` 256 <=? WATCHDOG_COUNTER_MAX) with false.
  cbn [fst snd emit console set_watchdog].
  rewrite List.filter_app, length_app. cbn. lia.
Qed.

(** X15: the window is measured without the day of the month: with the
    year and month of the time reference and a time of day at most
    [WATCHDOG_DELAY] seconds past it, the counter is kept whatever the two
    days are. *)
Theorem watchdog_window_ignores_day (b : build) (c d1 d2 : Z) (now time_ref : EFI_TIME) :
  within_window now time_ref →
  watchdog_window_counter b c (with_day now d1) (with_day time_ref d2) = c.
Proof.
  intros Hwin. apply window_keeps_counter. exact Hwin.
Qed.

(** ** What a pass of the decision leaves behind *)

Lemma check_watchdog_store (b : build) (p : platform) (s : state) :
  same_store s (snd (check_watchdog b p s)).
Proof.
  unfold check_watchdog, get_watchdog_status, reset_watchdog_status,
    set_watchdog_time_reference, set_watchdog_counter, same_store.
  repeat match goal with
         | |- context [if ?c then _ else _] => destruct c
         | |- context [let '(_, _) := ?c in _] => destruct c
         end; cbn; split; reflexivity.
Qed.

Lemma check_command_line_store (b : build) (x : externals) (p : platform) (s : state) :
  same_store s (snd (check_command_line b x p s))
  ∧ watchdog (snd (check_command_line b x p s)) = watchdog s
  ∧ (snd (fst (check_command_line b x p s)) ≠ 0 →
     USERFASTBOOT b = true
     ∧ (fst (fst (check_command_line b x p s)) = MEMORY
        ∨ fst (fst (check_command_line b x p s)) = EXIT_SHELL)).
Proof.
  unfold check_command_line.
  destruct (get_argv p) as [st|argv].
  { cbn [fst snd]. split; [split; reflexivity|]. split; [reflexivity|].
    intros H0; contradiction. }
  assert (Hstart : command_line_invariant b NORMAL_BOOT 0).
  { split; [left; reflexivity | intros H0; contradiction]. }
  pose proof (check_command_line_loop_invariant b x (length argv) argv true NORMAL_BOOT 0 s
                (le_n _) Hstart) as H.
  cbn zeta in H.
  destruct (check_command_line_loop b x true argv NORMAL_BOOT 0 s) as [[t address] s'].
  cbn [fst snd] in *.
  destruct H as [[[Ht Ha] ->] | (-> & HU & Ha & arg & ->)].
  - split; [split; reflexivity|]. split; [reflexivity|].
    intros Hne. split; [exact (proj1 (Ha Hne)) | left; exact (proj2 (Ha Hne))].
  - split; [split; reflexivity|]. split; [reflexivity|].
    intros Hne. split; [exact (Ha Hne) | right; reflexivity].
Qed.

Lemma poll_magic_key_store (p : platform) (remaining i : nat) (s : state) :
  same_store s (snd (poll_magic_key p remaining i s))
  ∧ watchdog (snd (poll_magic_key p remaining i s)) = watchdog s.
Proof.
  revert i s; induction remaining as [|remaining IH]; intros i s; simpl.
  - destruct (ReadKeyStroke p i). repeat split.
  - destruct (ReadKeyStroke p i) as [ret key].
    destruct (bool_decide (ret = EFI_SUCCESS)); [repeat split|].
    destruct (IH (S i) (emit (Stall (DETECT_KEY_STALL_TIME_MS * 1000)) s))
      as [[Hv Hm] Hw].
    repeat split; [rewrite Hv | rewrite Hm | rewrite Hw]; reflexivity.
Qed.

Lemma check_magic_key_store (b : build) (x : externals) (p : platform) (s : state) :
  same_store s (snd (check_magic_key b x p s))
  ∧ watchdog (snd (check_magic_key b x p s)) = watchdog s.
Proof.
  unfold check_magic_key.
  destruct (poll_magic_key_store p (Z.to_nat (magic_key_wait_ms (emit ConIn_Reset s))) 0
              (emit ConIn_Reset s)) as [[Hv Hm] Hw].
  destruct (poll_magic_key p (Z.to_nat (magic_key_wait_ms (emit ConIn_Reset s))) 0
              (emit ConIn_Reset s)) as [[[ret key] j] s'].
  cbn [snd] in Hv, Hm, Hw.
  assert (H : ∀ t : boot_target, same_store s (snd (t, s'))
                                 ∧ watchdog (snd (t, s')) = watchdog s).
  { intros t. cbn [snd]. repeat split; assumption. }
  repeat match goal with
         | |- context [if ?c then _ else _] => destruct c
         end; apply H.
Qed.

Lemma check_bcb_store (b : build) (x : externals) (p : platform) (s : state) :
  efi_vars (snd (check_bcb b x p s)) = efi_vars s
  ∧ watchdog (snd (check_bcb b x p s)) = watchdog s
  ∧ (misc (snd (check_bcb b x p s)) = misc s
     ∨ ∃ w, misc (snd (check_bcb b x p s)) = snd (write_bcb (misc s) w))
  ∧ (∀ path, snd (fst (fst (check_bcb b x p s))) = Some path →
             (fst (fst (fst (check_bcb b x p s))) = ESP_EFI_BINARY
              ∨ fst (fst (fst (check_bcb b x p s))) = ESP_BOOTIMAGE)
             ∧ deref16 path = BACKSLASH ∧ file_exists p path = true
             ∧ (4 < length path)%nat).
Proof.
  unfold check_bcb.
  destruct (read_bcb (misc s)) as [st|bcb].
  { cbn [fst snd]. split; [reflexivity|]. split; [reflexivity|].
    split; [left; reflexivity | discriminate]. }
  destruct (interpret_bcb b bcb) as [[w target] once].
  destruct target as [target|].
  2:{ cbn [fst snd misc set_misc efi_vars watchdog].
      split; [reflexivity|]. split; [reflexivity|].
      split; [right; eexists; reflexivity | discriminate]. }
  unfold resolve_bcb_target.
  destruct (deref16 target =? BACKSLASH) eqn:Eb.
  - destruct (file_exists p target) eqn:Ef; cbn [negb].
    + destruct (4 <? Z.of_nat (length target)) eqn:El.
      * apply Z.eqb_eq in Eb. apply Z.ltb_lt in El.
        match goal with |- context [if ?c then _ else _] => destruct c end;
          cbn [fst snd misc set_misc efi_vars watchdog];
          (split; [reflexivity|]; split; [reflexivity|];
           split; [right; eexists; reflexivity|]);
          intros path [= <-].
        -- split; [left; reflexivity|]. split; [exact Eb|]. split; [exact Ef | lia].
        -- split; [right; reflexivity|]. split; [exact Eb|]. split; [exact Ef | lia].
      * cbn [fst snd misc set_misc efi_vars watchdog].
        split; [reflexivity|]. split; [reflexivity|].
        split; [right; eexists; reflexivity | discriminate].
    + cbn [fst snd misc set_misc efi_vars watchdog].
      split; [reflexivity|]. split; [reflexivity|].
      split; [right; eexists; reflexivity | discriminate].
  - destruct (bool_decide (name_to_boot_target x target ≠ UNKNOWN_TARGET));
      cbn [fst snd misc set_misc efi_vars watchdog];
      (split; [reflexivity|]; split; [reflexivity|];
       split; [right; eexists; reflexivity | discriminate]).
Qed.

Lemma check_bcb_defers_without_path (b : build) (x : externals) (p : platform) (s : state) :
  fst (fst (fst (check_bcb b x p s))) = NORMAL_BOOT →
  snd (fst (fst (check_bcb b x p s))) = None.
Proof.
  intros Ht. destruct (check_bcb_store b x p s) as (_ & _ & _ & Hpath).
  destruct (snd (fst (fst (check_bcb b x p s)))) as [path|]; [|reflexivity].
  destruct (Hpath path eq_refl) as ([E|E] & _); rewrite E in Ht; discriminate.
Qed.

Lemma check_loader_entry_one_shot_store (x : externals) (p : platform) (s : state) :
  efi_vars (snd (check_loader_entry_one_shot x p s))
  = delete LOADER_ENTRY_ONESHOT (efi_vars s)
  ∧ misc (snd (check_loader_entry_one_shot x p s)) = misc s
  ∧ watchdog (snd (check_loader_entry_one_shot x p s)) = watchdog s.
Proof.
  unfold check_loader_entry_one_shot.
  destruct (get_efi_variable_str s LOADER_ENTRY_ONESHOT); [|repeat split].
  repeat match goal with
         | |- context [if ?c then _ else _] => destruct c
         end; repeat split.
Qed.

Lemma passive_checks_store (p : platform) (s : state) :
  snd (check_fastboot_sentinel p s) = s ∧ snd (check_battery_inserted p s) = s
  ∧ snd (check_battery p s) = s ∧ snd (check_charge_mode p s) = s.
Proof.
  unfold check_fastboot_sentinel, check_battery_inserted, check_battery, check_charge_mode.
  repeat match goal with
         | |- context [if ?c then _ else _] => destruct c
         end; repeat split.
Qed.

Ltac store_step :=
  match goal with
  | |- context [check_watchdog ?b ?p ?s] =>
      let H := fresh "Hwd" in
      pose proof (check_watchdog_store b p s) as H;
      destruct (check_watchdog b p s) as [? ?]
  | |- context [check_command_line ?b ?x ?p ?s] =>
      let H := fresh "Hcl" in
      pose proof (check_command_line_store b x p s) as H;
      destruct (check_command_line b x p s) as [[? ?] ?]
  | |- context [check_fastboot_sentinel ?p ?s] =>
      let H := fresh "Hfs" in
      pose proof (proj1 (passive_checks_store p s)) as H;
      destruct (check_fastboot_sentinel p s) as [? ?]
  | |- context [check_magic_key ?b ?x ?p ?s] =>
      let H := fresh "Hmk" in
      pose proof (check_magic_key_store b x p s) as H;
      destruct (check_magic_key b x p s) as [? ?]
  | |- context [check_battery_inserted ?p ?s] =>
      let H := fresh "Hbi" in
      pose proof (proj1 (proj2 (passive_checks_store p s))) as H;
      destruct (check_battery_inserted p s) as [? ?]
  | |- context [check_bcb ?b ?x ?p ?s] =>
      let H := fresh "Hbcb" in
      let H' := fresh "Hnone" in
      pose proof (check_bcb_store b x p s) as H;
      pose proof (check_bcb_defers_without_path b x p s) as H';
      destruct (check_bcb b x p s) as [[[? ?] ?] ?];
      cbn [fst snd] in H'
  | |- context [check_loader_entry_one_shot ?x ?p ?s] =>
      let H := fresh "Hos" in
      pose proof (check_loader_entry_one_shot_store x p s) as H;
      destruct (check_loader_entry_one_shot x p s) as [? ?]
  | |- context [check_battery ?p ?s] =>
      let H := fresh "Hlb" in
      pose proof (proj1 (proj2 (proj2 (passive_checks_store p s)))) as H;
      destruct (check_battery p s) as [? ?]
  | |- context [check_charge_mode ?p ?s] =>
      let H := fresh "Hcm" in
      pose proof (proj2 (proj2 (proj2 (passive_checks_store p s)))) as H;
      destruct (check_charge_mode p s) as [? ?]
  end;
  match goal with
  | H : _ |- _ =>
      progress (unfold same_store in H;
                cbn [fst snd emit efi_vars misc watchdog console] in H)
  | _ => idtac
  end.

Ltac decide_answer :=
  match goal with
  | |- context [bool_decide (?r ≠ NORMAL_BOOT)] =>
      let Hne := fresh "Hne" in
      destruct (decide (r = NORMAL_BOOT)) as [->|Hne];
      [ rewrite (bool_decide_eq_false_2 (NORMAL_BOOT ≠ NORMAL_BOOT))
          by (intros Hc; exact (Hc eq_refl))
      | rewrite (bool_decide_eq_true_2 _ Hne) ]
  end.

Ltac store_chain :=
  repeat match goal with
         | H : _ ∧ _ |- _ => destruct H
         | H : ?s' = _ |- _ => is_var s'; subst s'
         end;
  cbn [fst snd emit efi_vars misc watchdog console] in *;
  repeat match goal with
         | H : efi_vars _ = _ |- _ => rewrite H; clear H
         | H : misc _ = _ |- _ => rewrite H; clear H
         end.

Ltac store_done :=
  store_chain;
  split; [ first [left; reflexivity | right; reflexivity]
         | first [left; reflexivity | right; eexists; reflexivity] ].

(** X16: a pass of [choose_boot_target] never creates or changes a
    variable: the variable store afterwards is the one before, or the one
    before without [LoaderEntryOneShot]; and the misc partition is the one
    before, or the one before after a single [write_bcb]. *)
Theorem choose_boot_target_store (b : build) (x : externals) (p : platform) (s : state) :
  (efi_vars (snd (choose_boot_target b x p s)) = efi_vars s
   ∨ efi_vars (snd (choose_boot_target b x p s))
     = delete LOADER_ENTRY_ONESHOT (efi_vars s))
  ∧ (misc (snd (choose_boot_target b x p s)) = misc s
     ∨ ∃ w, misc (snd (choose_boot_target b x p s)) = snd (write_bcb (misc s) w)).
Proof.
  unfold choose_boot_target.
  do 5 (store_step; decide_answer; [|store_done]).
  store_step. destruct Hbcb as (Hv & _ & Hm & _).
  assert (Hlow : ∀ (c : bool) s',
             efi_vars (if c then emit (ux_display_low_battery 3) s' else s') = efi_vars s'
             ∧ misc (if c then emit (ux_display_low_battery 3) s' else s') = misc s')
    by (intros [] ?; split; reflexivity).
  decide_answer; [|destruct Hm as [Hm|[w Hm]]; store_done].
  store_step. decide_answer; [|destruct Hm as [Hm|[w Hm]]; store_done].
  store_step.
  match goal with
  | |- context [if bool_decide (?r = POWER_OFF) then _ else ?s'] =>
      destruct (Hlow (bool_decide (r = POWER_OFF)) s') as [Hlv Hlm];
      generalize dependent (if bool_decide (r = POWER_OFF)
                            then emit (ux_display_low_battery 3) s' else s')
  end.
  intros s8 Hlv Hlm.
  decide_answer; [|destruct Hm as [Hm|[w Hm]]; store_done].
  store_step. destruct Hm as [Hm|[w Hm]]; store_done.
Qed.

(** X17: the outputs keep their contract.  A non-null [*target_path]
    comes only with [ESP_EFI_BINARY] or [ESP_BOOTIMAGE] and is then a path
    of more than four characters that starts with a backslash and exists on
    the system partition; a non-null [*target_address] comes only in
    USERFASTBOOT builds and with [MEMORY] or [EXIT_SHELL]. *)
Theorem choose_boot_target_outputs (b : build) (x : externals) (p : platform) (s : state) :
  (∀ path, target_path (snd (fst (choose_boot_target b x p s))) = Some path →
           (fst (fst (choose_boot_target b x p s)) = ESP_EFI_BINARY
            ∨ fst (fst (choose_boot_target b x p s)) = ESP_BOOTIMAGE)
           ∧ deref16 path = BACKSLASH ∧ file_exists p path = true
           ∧ (4 < length path)%nat)
  ∧ (target_address (snd (fst (choose_boot_target b x p s))) ≠ 0 →
     USERFASTBOOT b = true
     ∧ (fst (fst (choose_boot_target b x p s)) = MEMORY
        ∨ fst (fst (choose_boot_target b x p s)) = EXIT_SHELL)).
Proof.
  unfold choose_boot_target.
  repeat (store_step; try decide_answer;
          try (cbn [fst snd target_path target_address]; split;
               [ intros path Hpath;
                 first [ discriminate Hpath
                       | (rewrite (Hnone eq_refl) in Hpath; discriminate Hpath)
                       | (destruct Hbcb as (_ & _ & _ & Hbcb); exact (Hbcb path Hpath)) ]
               | intros Haddr;
                 first [ exact (False_ind _ (Haddr eq_refl))
                       | (destruct Hcl as (_ & _ & Hcl);
                          destruct (Hcl Haddr) as (_ & [E|E]); discriminate E)
                       | (destruct Hcl as (_ & _ & Hcl); exact (Hcl Haddr)) ] ])).
Qed.

Lemma check_watchdog_defers (b : build) (p : platform) (s : state) :
  get_current_crash_event_menu p = false
  ∨ is_watchdog_reset (rsci_get_reset_source p) = false →
  fst (check_watchdog b p s) = NORMAL_BOOT.
Proof.
  intros H. unfold check_watchdog.
  destruct (get_current_crash_event_menu p); cbn [negb]; [|reflexivity].
  destruct H as [H|H]; [discriminate|]. rewrite H. cbn [negb].
  destruct (get_watchdog_status p s); [reflexivity|].
  destruct (negb (counter x =? 0)); reflexivity.
Qed.

(** X18: booted without arguments and not after a watchdog reset (or with
    the crash-event menu disabled), a device whose system partition holds
    the sentinel file goes to [FASTBOOT]; the BCB and the one-shot variable
    are not read: the misc partition and the variable store are those found,
    and the outputs are the initial ones. *)
Theorem sentinel_forces_fastboot_first (b : build) (x : externals) (p : platform)
    (s : state) :
  get_current_crash_event_menu p = false
  ∨ is_watchdog_reset (rsci_get_reset_source p) = false →
  get_argv p = Ok [] →
  file_exists p FASTBOOT_SENTINEL = true →
  fst (choose_boot_target b x p s)
  = (FASTBOOT, {| target_address := 0; target_path := None; oneshot := true |})
  ∧ efi_vars (snd (choose_boot_target b x p s)) = efi_vars s
  ∧ misc (snd (choose_boot_target b x p s)) = misc s.
Proof.
  intros Hwd Hargv Hfile. unfold choose_boot_target.
  match goal with
  | |- context [check_watchdog ?b ?p ?s0] =>
      pose proof (check_watchdog_defers b p s0 Hwd) as Hdefer;
      pose proof (check_watchdog_store b p s0) as [Hv Hm];
      destruct (check_watchdog b p s0) as [t s1]
  end.
  cbn [fst snd] in *. subst t. cbn [bool_decide decide_rel].
  rewrite bool_decide_eq_false_2 by (intros H; apply H; reflexivity).
  unfold check_command_line. rewrite Hargv. cbn [check_command_line_loop].
  rewrite bool_decide_eq_false_2 by (intros H; apply H; reflexivity).
  unfold check_fastboot_sentinel. rewrite Hfile.
  rewrite bool_decide_eq_true_2 by discriminate.
  cbn [fst snd emit efi_vars misc] in *.
  split; [reflexivity|]. split; assumption.
Qed.

(** ** Strings that reach the kernel command line *)

Lemma all_chars_ok_wstr (ok : CHAR16 → bool) (mem : list CHAR16) :
  all_chars_ok ok mem = true → Forall (λ c, ok c = true) (wstr mem).
Proof.
  induction mem as [|c rest IH]; simpl; [constructor|].
  destruct (c =? 0); [constructor|].
  destruct (ok c) eqn:E; [|discriminate].
  intros H. constructor; [exact E | exact (IH H)].
Qed.

(** X19: whatever the [SerialPort] variable holds, and whether it can be
    read at all, [get_serial_port] returns a string made of the characters
    [0-9a-zA-Z,] only. *)
Theorem get_serial_port_is_sanitized (var : result (list CHAR8)) :
  Forall (λ c, serial_char_ok c = true) (get_serial_port var).
Proof.
  assert (Htty : Forall (λ c, serial_char_ok c = true) (L "tty0"))
    by (repeat constructor).
  unfold get_serial_port. destruct var as [st|data]; [exact Htty|].
  cbn zeta. destruct (length data <? 3)%nat; [exact Htty|].
  match goal with
  | |- context [match ?v with Some _ => _ | None => _ end] => destruct v as [val|]
  end; [|exact Htty].
  destruct (all_chars_ok serial_char_ok val) eqn:E; [|exact Htty].
  apply all_chars_ok_wstr. exact E.
Qed.

Lemma serial_char_nonzero (c : CHAR16) : serial_char_ok c = true → c ≠ 0.
Proof. intros H ->. discriminate H. Qed.

Lemma cstr_app_nul (name rest : list CHAR8) :
  Forall (λ c, c ≠ NUL) name → cstr (name ++ NUL :: rest) = name.
Proof.
  induction 1 as [|c name Hc _ IH]; simpl; [reflexivity|].
  unfold is_nul. rewrite bool_decide_eq_false_2 by exact Hc. f_equal. exact IH.
Qed.

Lemma all_chars_ok_intro (ok : CHAR16 → bool) (l rest : list CHAR16) :
  Forall (λ c, ok c = true) l → all_chars_ok ok (l ++ 0 :: rest) = true
                                ∧ all_chars_ok ok l = true.
Proof.
  induction 1 as [|c l Hc _ [IH1 IH2]]; simpl; [split; reflexivity|].
  rewrite Hc. destruct (c =? 0); split; auto.
Qed.

Lemma wstr_app_nul (l rest : list CHAR16) :
  Forall (λ c : Z, c ≠ 0) l → wstr (l ++ 0 :: rest) = l ∧ wstr l = l.
Proof.
  induction 1 as [|c l Hc _ [IH1 IH2]]; simpl; [split; reflexivity|].
  apply Z.eqb_neq in Hc. rewrite Hc. split; f_equal; assumption.
Qed.

Lemma serial_name_facts (name : list CHAR8) :
  Forall (λ c, serial_char_ok (code8 c) = true) name →
  Forall (λ c, c ≠ NUL) name
  ∧ Forall (λ c, serial_char_ok c = true) (map code8 name)
  ∧ Forall (λ c : Z, c ≠ 0) (map code8 name).
Proof.
  induction 1 as [|c name Hc _ (IH1 & IH2 & IH3)]; simpl.
  - repeat split; constructor.
  - repeat split; constructor; try assumption.
    + intros ->. discriminate Hc.
    + apply serial_char_nonzero. exact Hc.
Qed.

Lemma wide_cells_str16 (name : list CHAR8) :
  wide_cells (as_str16 name) = map code8 name ++ [0]
  ∧ length (as_str16 name) = (2 * length name + 2)%nat.
Proof.
  unfold as_str16. induction name as [|c name [IH1 IH2]]; simpl; [split; reflexivity|].
  rewrite IH1. split; [f_equal; unfold code8 at 2; simpl; lia|].
  simpl in IH2. lia.
Qed.

(** X20: a port name made of accepted characters is read back from either
    encoding of the variable: from the 8-bit string with its terminator when
    the name has at least two characters, and from the 16-bit string with
    its terminator; an 8-bit value stored without terminator loses its last
    character. *)
Theorem get_serial_port_reads_both_encodings (name : list CHAR8) :
  Forall (λ c, serial_char_ok (code8 c) = true) name →
  ((2 ≤ length name)%nat → get_serial_port (Ok (as_str8 name)) = map code8 name)
  ∧ ((1 ≤ length name)%nat → get_serial_port (Ok (as_str16 name)) = map code8 name)
  ∧ ((3 ≤ length name)%nat →
     get_serial_port (Ok name) = map code8 (take (length name - 1) name)).
Proof.
  intros Hok. destruct (serial_name_facts name Hok) as (Hnn & Hok16 & Hnz).
  split; [|split].
  - intros Hlen. unfold get_serial_port, as_str8. cbn zeta.
    rewrite length_app. cbn [length].
    replace (length name + 1 <? 3)%nat with false by (symmetry; apply Nat.ltb_ge; lia).
    destruct name as [|c0 [|c1 name]]; try (simpl in Hlen; lia).
    inversion Hok as [|? ? H0 Hok']; subst. inversion Hok' as [|? ? H1 _]; subst.
    cbn [app deref8 tail].
    apply serial_char_nonzero, Z.eqb_neq in H0 as ->.
    apply serial_char_nonzero, Z.eqb_neq in H1 as ->. cbn [negb andb].
    change (c0 :: c1 :: name ++ [NUL]) with ((c0 :: c1 :: name) ++ [NUL]).
    rewrite insert_app_r_alt by lia.
    replace (length (c0 :: c1 :: name) + 1 - 1 - length (c0 :: c1 :: name))%nat with 0%nat
      by lia.
    cbn [insert list_insert]. unfold stra_to_str. rewrite cstr_app_nul by exact Hnn.
    rewrite (proj2 (all_chars_ok_intro serial_char_ok _ [] Hok16)).
    exact (proj2 (wstr_app_nul _ [] Hnz)).
  - intros Hlen. unfold get_serial_port. cbn zeta.
    destruct (wide_cells_str16 name) as [Hcells Hsize]. rewrite Hsize.
    replace (2 * length name + 2 <? 3)%nat with false by (symmetry; apply Nat.ltb_ge; lia).
    assert (Hsecond : deref8 (tail (as_str16 name)) = 0).
    { unfold as_str16. destruct name; [simpl in Hlen; lia | reflexivity]. }
    rewrite Hsecond. cbn [Z.eqb negb andb]. rewrite andb_false_r.
    replace ((2 * length name + 2) mod 2 =? 0)%nat with true.
    2:{ symmetry. apply Nat.eqb_eq.
        replace (2 * length name + 2)%nat with ((length name + 1) * 2)%nat by lia.
        apply Nat.Div0.mod_mul. }
    assert (Hid : <[(2 * length name + 2 - 2)%nat := NUL]>
                    (<[(2 * length name + 2 - 1)%nat := NUL]> (as_str16 name))
                  = as_str16 name).
    { unfold as_str16.
      assert (Hl : length (flat_map (λ c, [c; NUL]) name) = (2 * length name)%nat).
      { pose proof Hsize as H. unfold as_str16 in H. rewrite length_app in H.
        cbn [length] in H. lia. }
      rewrite insert_app_r_alt by lia. rewrite insert_app_r_alt by lia. rewrite Hl.
      replace (2 * length name + 2 - 1 - 2 * length name)%nat with 1%nat by lia.
      replace (2 * length name + 2 - 2 - 2 * length name)%nat with 0%nat by lia.
      reflexivity. }
    rewrite Hid, Hcells.
    match goal with
    | |- (if ?c then _ else _) = _ =>
        replace c with true
          by (symmetry; exact (proj1 (all_chars_ok_intro serial_char_ok _ [] Hok16)))
    end.
    exact (proj1 (wstr_app_nul _ [] Hnz)).
  - intros Hlen. unfold get_serial_port. cbn zeta.
    replace (length name <? 3)%nat with false by (symmetry; apply Nat.ltb_ge; lia).
    assert (Hfirst : negb (deref8 name =? 0) && negb (deref8 (tail name) =? 0) = true).
    { destruct name as [|c0 [|c1 name']]; try (simpl in Hlen; lia).
      inversion Hok as [|? ? H0 Hok']; subst. inversion Hok' as [|? ? H1 _]; subst.
      cbn [deref8 tail].
      apply serial_char_nonzero, Z.eqb_neq in H0 as ->.
      apply serial_char_nonzero, Z.eqb_neq in H1 as ->. reflexivity. }
    rewrite Hfirst.
    pose proof (take_drop (length name - 1) name) as Hsplit.
    assert (Htake : length (take (length name - 1) name) = (length name - 1)%nat)
      by (rewrite length_take; lia).
    destruct (drop (length name - 1) name) as [|last tl] eqn:Hdrop.
    { apply (f_equal length) in Hdrop. rewrite length_drop in Hdrop. simpl in Hdrop. lia. }
    assert (Hins : <[(length name - 1)%nat := NUL]> name
                   = take (length name - 1) name ++ NUL :: tl).
    { rewrite <- Hsplit at 2. rewrite insert_app_r_alt by lia. rewrite Htake.
      replace (length name - 1 - (length name - 1))%nat with 0%nat by lia. reflexivity. }
    rewrite Hins. unfold stra_to_str.
    rewrite cstr_app_nul by (apply Forall_take; exact Hnn).
    assert (Hok' : Forall (λ c, serial_char_ok c = true)
                     (map code8 (take (length name - 1) name))).
    { rewrite <- firstn_map. apply Forall_take. exact Hok16. }
    assert (Hnz' : Forall (λ c : Z, c ≠ 0) (map code8 (take (length name - 1) name))).
    { rewrite <- firstn_map. apply Forall_take. exact Hnz. }
    rewrite (proj2 (all_chars_ok_intro serial_char_ok _ [] Hok')).
    exact (proj2 (wstr_app_nul _ [] Hnz')).
Qed.

(** X21: the boot reason is always made of the characters [0-9a-z_]: a
    known wake source wins over a known reset source, which wins over the
    [LoaderEntryRebootReason] variable, and a variable with any other
    character, or none, gives [unknown].  The variable is deleted on every
    path, read or not, and nothing else is touched. *)
Theorem get_boot_reason_is_sanitized (p : platform) (s : state) :
  Forall (λ c, reason_char_ok c = true) (fst (get_boot_reason p s))
  ∧ efi_vars (snd (get_boot_reason p s))
    = delete LOADER_ENTRY_REBOOT_REASON (efi_vars s)
  ∧ misc (snd (get_boot_reason p s)) = misc s
  ∧ watchdog (snd (get_boot_reason p s)) = watchdog s
  ∧ (∀ r, get_wake_reason p = Some r → fst (get_boot_reason p s) = r)
  ∧ (∀ r, get_wake_reason p = None → get_reset_reason p = Some r →
          fst (get_boot_reason p s) = r)
  ∧ (get_wake_reason p = None → get_reset_reason p = None →
     ∀ v, get_efi_variable_str s LOADER_ENTRY_REBOOT_REASON = Some v →
          Forall (λ c : Z, c ≠ 0) v →
          fst (get_boot_reason p s)
          = if forallb reason_char_ok v then v else L "unknown").
Proof.
  unfold get_boot_reason. cbn [fst snd del_efi_variable set_efi_vars efi_vars misc watchdog].
  split.
  { unfold get_wake_reason, get_reset_reason.
    destruct (rsci_get_wake_source p); try (repeat constructor);
      destruct (rsci_get_reset_source p); try (repeat constructor);
      destruct (get_efi_variable_str s LOADER_ENTRY_REBOOT_REASON) as [v|];
      try (repeat constructor);
      destruct (all_chars_ok reason_char_ok v) eqn:E; try (repeat constructor);
      apply all_chars_ok_wstr; exact E. }
  split; [reflexivity|]. split; [reflexivity|]. split; [reflexivity|].
  split; [intros r ->; reflexivity|].
  split; [intros r -> ->; reflexivity|].
  intros -> -> v -> Hnz.
  assert (H : all_chars_ok reason_char_ok v = forallb reason_char_ok v ∧ wstr v = v).
  { induction Hnz as [|c v Hc _ [IH1 IH2]]; simpl; [split; reflexivity|].
    apply Z.eqb_neq in Hc. rewrite Hc.
    destruct (reason_char_ok c); simpl; split; try assumption; try reflexivity.
    - f_equal. exact IH2.
    - f_equal. exact IH2. }
  destruct H as [-> ->]. reflexivity.
Qed.

(** ** Checks before the handover, read backwards *)

(** X22: the kernel entry point is called only after every check of
    [android_image_start_buffer] has passed and the command line and the
    ramdisk are in place; it is called at most once, and should it return,
    the status is [EFI_LOAD_ERROR]. *)
Theorem start_buffer_jumps_only_after_checks (b : build) (x : externals)
    (e : handover_env) (bootimage : option bootimage) (entry : Z) :
  In (handover_jump entry) (snd (android_image_start_buffer b x e bootimage)) →
  ∃ image, bootimage = Some image
    ∧ bad_magic b (aosp_header image) = false
    ∧ signature (hdr image) = 0xAA55
    ∧ header (hdr image) = SETUP_HDR x
    ∧ 0x20c ≤ version (hdr image)
    ∧ Z.land (xloadflags (hdr image)) (handover_flag b x) ≠ 0
    ∧ relocatable_kernel (hdr image) ≠ 0
    ∧ EFI_ERROR (setup_command_line_ret e) = false
    ∧ EFI_ERROR (setup_ramdisk e image) = false
    ∧ android_image_start_buffer b x e bootimage = (EFI_LOAD_ERROR, [handover_jump entry]).
Proof.
  unfold android_image_start_buffer. destruct bootimage as [image|]; [|intros []].
  destruct (bad_magic b (aosp_header image)) eqn:Em; [intros []|].
  destruct (signature (hdr image) =? 43605) eqn:Es; cbn [negb]; [|intros []].
  destruct (header (hdr image) =? SETUP_HDR x) eqn:Eh; cbn [negb]; [|intros []].
  destruct (version (hdr image) <? 524) eqn:Ev; [intros []|].
  destruct (Z.land (xloadflags (hdr image)) (handover_flag b x) =? 0) eqn:Ef; [intros []|].
  destruct (relocatable_kernel (hdr image) =? 0) eqn:Er; [intros []|].
  destruct (EFI_ERROR (setup_command_line_ret e)) eqn:Ec; [intros []|].
  destruct (EFI_ERROR (setup_ramdisk e image)) eqn:Erd; [intros []|].
  intros Hjump. exists image.
  apply Z.eqb_eq in Es, Eh. apply Z.ltb_ge in Ev. apply Z.eqb_neq in Ef, Er.
  do 9 (split; [first [reflexivity | assumption]|]).
  revert Hjump. unfold handover_kernel.
  destruct (if EFI_ERROR (allocate_pages_pref_address_ret e) then emalloc_kernel e
            else Ok (pref_address (hdr image))) as [ret|kernel_start]; [intros []|].
  destruct (allocate_pages_boot_params e) as [ret|boot_addr]; [intros []|].
  cbn [snd In]. intros [Hjump|[]]. rewrite Hjump. reflexivity.
Qed.

(** ** What the loaders hand back *)

Lemma load_partition_image_iff (b : build) (x : externals) (part : image_partition) :
  (snd (android_image_load_partition b x part) ≠ None
   ↔ fst (android_image_load_partition b x part) = EFI_SUCCESS)
  ∧ (∀ image, snd (android_image_load_partition b x part) = Some image →
              image = part_image part).
Proof.
  unfold android_image_load_partition.
  repeat match goal with
         | |- context [if ?c then _ else _] => destruct c eqn:?
         end; cbn [fst snd];
    (split; [split; intros H; try congruence | intros image H; congruence]).
all: match goal with
       | E : EFI_ERROR ?r = true, H : ?r = EFI_SUCCESS |- _ =>
           rewrite H in E; discriminate E
       end.
Qed.

Lemma load_file_image_iff (b : build) (f : image_file) (delete : bool) (ret : EFI_STATUS)
    (bootimage_p : option bootimage) (deleted : bool) :
  android_image_load_file b f delete = Loaded ret bootimage_p deleted →
  (bootimage_p ≠ None ↔ ret = EFI_SUCCESS)
  ∧ (∀ image, bootimage_p = Some image → image = file_image f).
Proof.
  intros H.
    unfold android_image_load_file, load_file_read, load_file_out in H.
    repeat match type of H with
           | context [if ?c then _ else _] => destruct c eqn:?
           end;
      try discriminate H; injection H as <- <- <-;
      repeat match goal with
             | E : bool_decide _ = true |- _ => apply bool_decide_eq_true in E
             | E : bool_decide _ = false |- _ => apply bool_decide_eq_false in E
             end.
    all: try (split; [split; intros H; congruence | intros image H; congruence]).
    all: try (split; [split; intros H; [congruence|]
                     | intros image H; congruence]).
    all: exfalso;
      match goal with
      | E : EFI_ERROR ?r = true, H : ?r = EFI_SUCCESS |- _ => rewrite H in E; discriminate E
      end.
Qed.

(** X23: both loaders hand back an image exactly when they return
    [EFI_SUCCESS], and the image is then the one read from the partition,
    respectively the file. *)
Theorem loaders_image_iff_success (b : build) (x : externals) :
  (∀ part, (snd (android_image_load_partition b x part) ≠ None
            ↔ fst (android_image_load_partition b x part) = EFI_SUCCESS)
           ∧ (∀ image, snd (android_image_load_partition b x part) = Some image →
                       image = part_image part))
  ∧ (∀ f delete ret bootimage_p deleted,
       android_image_load_file b f delete = Loaded ret bootimage_p deleted →
       (bootimage_p ≠ None ↔ ret = EFI_SUCCESS)
       ∧ (∀ image, bootimage_p = Some image → image = file_image f)).
Proof.
  split.
  - intros part. apply load_partition_image_iff.
  - intros f delete ret bootimage_p deleted. apply load_file_image_iff.
Qed.

(** X24: the file loader deletes the file only when asked to, and only
    once the file is open and its size known; from there on a requested
    deletion is attempted on every exit, so a file that cannot be read or
    does not hold a boot image is consumed all the same. *)
Theorem load_file_deletes_on_every_exit (b : build) (f : image_file) (delete : bool)
    (ret : EFI_STATUS) (bootimage_p : option bootimage) (deleted : bool) :
  android_image_load_file b f delete = Loaded ret bootimage_p deleted →
  (deleted = true → delete = true ∧ Delete_ret f = EFI_SUCCESS
                    ∧ EFI_ERROR (Open_ret f) = false)
  ∧ (FileDevicePath_ok f = true → EFI_ERROR (HandleProtocol_ret f) = false →
     EFI_ERROR (OpenVolume_ret f) = false → EFI_ERROR (Open_ret f) = false →
     AllocatePool_fileinfo f = true →
     (GetInfo_ret f = EFI_BUFFER_TOO_SMALL → AllocatePool_fileinfo_again f = true) →
     deleted = delete && bool_decide (Delete_ret f = EFI_SUCCESS)).
Proof.
  intros H.
  unfold android_image_load_file, load_file_read, load_file_out in H.
  repeat match type of H with
         | context [if ?c then _ else _] => destruct c eqn:?
         end;
    try discriminate H; injection H as <- <- <-;
    repeat match goal with
           | E : bool_decide _ = true |- _ => apply bool_decide_eq_true in E
           | E : bool_decide _ = false |- _ => apply bool_decide_eq_false in E
           | E : negb _ = true |- _ => apply negb_true_iff in E
           | E : negb _ = false |- _ => apply negb_false_iff in E
           end.
  all: split;
    [ intros Hd; try discriminate Hd;
      apply andb_true_iff in Hd as [-> Hd]; apply bool_decide_eq_true in Hd;
      repeat split; assumption
    | intros H1 H2 H3 H4 H5 H6; try specialize (H6 ltac:(assumption));
      first [reflexivity | congruence] ].
Qed.

(** ** Image validation, in full *)

(** [StrCmp] of a string without NUL against a buffer answers 0 exactly
    when the string in the buffer is that string. *)
Lemma StrCmp_zero_wstr (e target : list CHAR16) :
  Forall (λ c : Z, c ≠ 0) e → (StrCmp e target = 0 ↔ wstr target = e).
Proof.
  intros He; revert target; induction He as [|c e Hc _ IH]; intros target; simpl.
  - destruct target as [|c2 t2]; simpl; [split; reflexivity|].
    destruct (c2 =? 0) eqn:E.
    + apply Z.eqb_eq in E. split; [reflexivity | lia].
    + apply Z.eqb_neq in E. split; [lia | discriminate].
  - apply Z.eqb_neq in Hc as E0. rewrite E0.
    destruct target as [|c2 t2]; simpl.
    + rewrite E0. simpl. split; [lia | discriminate].
    + destruct (c =? c2) eqn:E; simpl.
      * apply Z.eqb_eq in E as <-. rewrite E0. rewrite (IH t2).
        split; [intros ->; reflexivity | intros H; injection H as H; exact H].
      * apply Z.eqb_neq in E. split; [lia|].
        destruct (c2 =? 0); intros H; [discriminate H|].
        injection H as H _. congruence.
Qed.

Lemma label_differs_wstr (e target : list CHAR16) :
  Forall (λ c : Z, c ≠ 0) e →
  label_differs (Some e) target = false ↔ wstr target = e.
Proof.
  intros He. unfold label_differs. rewrite negb_false_iff, Z.eqb_eq.
  apply StrCmp_zero_wstr. exact He.
Qed.

Lemma validate_bootimage_codes (b : build) (x : externals) (boot_target : boot_target)
    (image : bootimage) (keystore : list CHAR8) :
  validate_bootimage b x boot_target image keystore = EFI_SUCCESS
  ∨ validate_bootimage b x boot_target image keystore = EFI_ACCESS_DENIED.
Proof.
  unfold validate_bootimage.
  destruct (verify_android_boot_image x image keystore) as [ret target].
  destruct (EFI_ERROR ret); [right; reflexivity|].
  destruct boot_target; try destruct (USERFASTBOOT b);
    match goal with
    | |- context [if ?c then _ else _] => destruct c
    end; auto.
Qed.

(** X25: [validate_bootimage] answers [EFI_SUCCESS] or [EFI_ACCESS_DENIED]
    and nothing else; it answers [EFI_SUCCESS] exactly when the verifier
    reports no error and the label it found is one of those accepted for
    the target: [/boot] or [/recovery] for a normal boot, [/boot] for the
    charger, [/recovery] for recovery, [/boot] (and [/fastboot] in a
    USERFASTBOOT build) for an image on the system partition, and none for
    any other target. *)
Theorem validate_bootimage_accepts_exactly (b : build) (x : externals)
    (boot_target : boot_target) (image : bootimage) (keystore : list CHAR8) :
  (validate_bootimage b x boot_target image keystore = EFI_SUCCESS
   ∨ validate_bootimage b x boot_target image keystore = EFI_ACCESS_DENIED)
  ∧ (validate_bootimage b x boot_target image keystore = EFI_SUCCESS
     ↔ EFI_ERROR (fst (verify_android_boot_image x image keystore)) = false
       ∧ wstr (snd (verify_android_boot_image x image keystore))
         ∈ accepted_labels b boot_target).
Proof.
  unfold validate_bootimage.
  destruct (verify_android_boot_image x image keystore) as [ret target]. cbn [fst snd].
  destruct (EFI_ERROR ret).
  { split; [right; reflexivity|]. split; [discriminate | intros [H _]; discriminate H]. }
  assert (Hboot : Forall (λ c : Z, c ≠ 0) (L "/boot")) by (repeat constructor; discriminate).
  assert (Hrec : Forall (λ c : Z, c ≠ 0) (L "/recovery"))
    by (repeat constructor; discriminate).
  assert (Hfb : Forall (λ c : Z, c ≠ 0) (L "/fastboot"))
    by (repeat constructor; discriminate).
  pose proof (label_differs_wstr _ target Hboot) as Eboot.
  pose proof (label_differs_wstr _ target Hrec) as Erec.
  pose proof (label_differs_wstr _ target Hfb) as Efb.
  assert (Hnone : label_differs None target = true) by reflexivity.
  unfold accepted_labels.
  destruct boot_target; try destruct (USERFASTBOOT b);
    rewrite ?Hnone;
    repeat match goal with
           | |- context [label_differs (Some ?e) target] =>
               destruct (label_differs (Some e) target)
           end;
    cbn [andb].
  all: split; [first [left; reflexivity | right; reflexivity]|].
  all: split;
    [ intros H;
      first [ discriminate H
            | (split; [reflexivity|];
               rewrite ?elem_of_cons;
               first [ left; apply Eboot; reflexivity
                     | left; apply Erec; reflexivity
                     | right; left; apply Erec; reflexivity
                     | right; left; apply Efb; reflexivity ]) ]
    | intros [_ H];
      first [ reflexivity
            | (exfalso;
               rewrite ?elem_of_cons, ?elem_of_nil in H;
               repeat match type of H with
                      | _ ∨ _ => destruct H as [H|H]
                      end;
               first [ exact H
                     | apply Eboot in H; discriminate H
                     | apply Erec in H; discriminate H
                     | apply Efb in H; discriminate H ]) ] ].
Qed.

Lemma load_boot_image_facts (b : build) (x : externals) (src : image_sources)
    (boot_target : boot_target) (keystore : option (list CHAR8)) (oneshot : bool)
    (ret : EFI_STATUS) (bootimage : option bootimage) (deleted : bool) :
  load_boot_image b x src boot_target keystore oneshot = Boot_image ret bootimage deleted →
  (image_target boot_target = false →
   ret = EFI_INVALID_PARAMETER ∧ bootimage = None ∧ deleted = false)
  ∧ (bootimage ≠ None → ret = EFI_SUCCESS ∨ ret = EFI_ACCESS_DENIED)
  ∧ (ret = EFI_SUCCESS → bootimage ≠ None ∧ image_target boot_target = true)
  ∧ (∀ image ks, bootimage = Some image → keystore = Some ks →
                 ret = validate_bootimage b x boot_target image ks)
  ∧ (bootimage ≠ None → keystore = None → ret = EFI_SUCCESS)
  ∧ (keystore ≠ None → EFI_ERROR ret = false → bootimage ≠ None)
  ∧ (deleted = true → boot_target = ESP_BOOTIMAGE ∧ oneshot = true).
Proof.
  intros H.
  assert (Hval : ∀ image ks,
             validate_bootimage b x boot_target image ks = EFI_SUCCESS
             ∨ validate_bootimage b x boot_target image ks = EFI_ACCESS_DENIED)
    by (intros; apply validate_bootimage_codes).
  assert (Hsupported : image_target boot_target = false →
                       ret = EFI_INVALID_PARAMETER ∧ bootimage = None ∧ deleted = false).
  { intros Ht. unfold load_boot_image in H.
    destruct boot_target; try discriminate Ht; injection H as <- <- <-; auto. }
  split; [exact Hsupported|].
  assert (Hfin : ∀ r i d,
             (i ≠ None ↔ r = EFI_SUCCESS) →
             (d = true → boot_target = ESP_BOOTIMAGE ∧ oneshot = true) →
             image_target boot_target = true →
             (if EFI_ERROR r then Boot_image r i d
              else match keystore with
                   | Some keystore =>
                       match i with
                       | Some bootimage =>
                           Boot_image (validate_bootimage b x boot_target bootimage keystore)
                             i d
                       | None => Validated_null_image
                       end
                   | None => Boot_image r i d
                   end) = Boot_image ret bootimage deleted →
             (bootimage ≠ None → ret = EFI_SUCCESS ∨ ret = EFI_ACCESS_DENIED)
             ∧ (ret = EFI_SUCCESS → bootimage ≠ None ∧ image_target boot_target = true)
             ∧ (∀ image ks, bootimage = Some image → keystore = Some ks →
                            ret = validate_bootimage b x boot_target image ks)
             ∧ (bootimage ≠ None → keystore = None → ret = EFI_SUCCESS)
             ∧ (keystore ≠ None → EFI_ERROR ret = false → bootimage ≠ None)
             ∧ (deleted = true → boot_target = ESP_BOOTIMAGE ∧ oneshot = true)).
  { intros r i d Hiff Hdel Ht Hrun.
    destruct (EFI_ERROR r) eqn:Er.
    - injection Hrun as <- <- <-.
      assert (Hr : r ≠ EFI_SUCCESS) by (intros ->; discriminate Er).
      assert (Hi : i = None).
      { destruct i; [|reflexivity]. exfalso. apply Hr, Hiff. discriminate. }
      subst i. repeat split; try congruence; try (apply Hdel; assumption).
    - destruct keystore as [ks|].
      + destruct i as [image|]; [|discriminate Hrun]. injection Hrun as <- <- <-.
        split; [intros _; apply Hval|].
        split; [intros _; split; [discriminate | exact Ht]|].
        split; [intros image' ks' [= <-] [= <-]; reflexivity|].
        split; [discriminate|]. split; [discriminate | exact Hdel].
      + injection Hrun as <- <- <-.
        split; [intros Hi; left; apply Hiff, Hi|].
        split; [intros Hr; split; [apply Hiff, Hr | exact Ht]|].
        split; [discriminate|].
        split; [intros Hi _; apply Hiff, Hi|].
        split; [intros Hk; exfalso; apply Hk; reflexivity | exact Hdel]. }
  unfold load_boot_image in H.
  destruct boot_target; try (destruct (Hsupported eq_refl) as (-> & -> & ->));
    try (repeat split; intros; try discriminate; try congruence; fail).
  all: try match type of H with
           | context [android_image_load_partition ?b' ?x' ?part] =>
               let Hiff := fresh "Hiff" in
               pose proof (load_partition_image_iff b' x' part) as [Hiff _];
               destruct (android_image_load_partition b' x' part) as [? ?];
               apply (Hfin _ _ false Hiff); [discriminate | reflexivity | exact H]
           end.
  destruct (android_image_load_file b (esp_file src) oneshot) as [r i d|] eqn:E;
      [|discriminate H].
    pose proof (load_file_image_iff b _ _ _ _ _ E) as [Hiff _].
    apply (Hfin r i d Hiff); [|reflexivity | exact H].
    intros ->. split; [reflexivity|].
    unfold android_image_load_file, load_file_read, load_file_out in E.
    destruct oneshot; [reflexivity|]. exfalso.
    repeat match type of E with
           | context [if ?c then _ else _] => destruct c eqn:?
           end; discriminate E.
Qed.
(** X26: [load_boot_image] has a source for [NORMAL_BOOT], [CHARGER],
    [RECOVERY] and [ESP_BOOTIMAGE] only; any other target gives
    [EFI_INVALID_PARAMETER] and no image.  An image is handed back only
    with [EFI_SUCCESS] or [EFI_ACCESS_DENIED]; [EFI_SUCCESS] always comes
    with an image, which, when a keystore is given, passed
    [validate_bootimage] for this target; without a keystore nothing is
    validated, and with one a status that is no error comes with an image.  Only a one-shot [ESP_BOOTIMAGE] deletes a file. *)
Theorem load_boot_image_contract (b : build) (x : externals) (src : image_sources)
    (boot_target : boot_target) (keystore : option (list CHAR8)) (oneshot : bool)
    (ret : EFI_STATUS) (bootimage : option bootimage) (deleted : bool) :
  load_boot_image b x src boot_target keystore oneshot = Boot_image ret bootimage deleted →
  (image_target boot_target = false →
   ret = EFI_INVALID_PARAMETER ∧ bootimage = None ∧ deleted = false)
  ∧ (bootimage ≠ None → ret = EFI_SUCCESS ∨ ret = EFI_ACCESS_DENIED)
  ∧ (ret = EFI_SUCCESS → bootimage ≠ None ∧ image_target boot_target = true)
  ∧ (∀ image ks, bootimage = Some image → keystore = Some ks →
                 ret = validate_bootimage b x boot_target image ks)
  ∧ (bootimage ≠ None → keystore = None → ret = EFI_SUCCESS)
  ∧ (keystore ≠ None → EFI_ERROR ret = false → bootimage ≠ None)
  ∧ (deleted = true → boot_target = ESP_BOOTIMAGE ∧ oneshot = true).
Proof. apply load_boot_image_facts. Qed.

(** ** The boot flow of [efi_main] *)

Lemma after_fst (evs : list main_event) (r : run) : fst (after evs r) = evs ++ fst r.
Proof. reflexivity. Qed.

Lemma after_snd (evs : list main_event) (r : run) : snd (after evs r) = snd r.
Proof. reflexivity. Qed.

(** Events that are no warning are no prompt of either kind. *)
Lemma quiet_no_prompts (evs : list main_event) :
  existsb warning evs = false →
  List.filter lock_prompt evs = [] ∧ List.filter image_prompt evs = [].
Proof.
  induction evs as [|ev evs IH]; [split; reflexivity|].
  cbn [existsb List.filter]. unfold warning at 1.
  destruct (lock_prompt ev), (image_prompt ev); cbn [orb]; try discriminate.
  exact IH.
Qed.

(** What [choose_boot_target] shows is none of the events [efi_main] adds. *)
Lemma shown_since_none (f : main_event → bool) (s s' : state) :
  (∀ ev, f (choose_boot_target_shows ev) = false) →
  existsb f (shown_since s s') = false.
Proof.
  intros Hf. unfold shown_since.
  induction (drop (length (console s)) (console s')) as [|ev l IH]; [reflexivity|].
  cbn [map existsb]. rewrite Hf, IH. reflexivity.
Qed.

Lemma shown_since_quiet (s s' : state) :
  existsb warning (shown_since s s') = false
  ∧ existsb clears_memory (shown_since s s') = false
  ∧ existsb is_image_start (shown_since s s') = false.
Proof.
  repeat split; apply shown_since_none; reflexivity.
Qed.

(** What [check_device_state] can leave in [boot_state], [lock_prompted]
    and [selected_keystore]. *)
Lemma check_device_state_checked (mb : main_build) (e : main_env)
    (evs : list main_event) (boot_state : Z) (lock_prompted : bool)
    (selected_keystore : option (list CHAR8)) :
  check_device_state mb e = (evs, checked boot_state lock_prompted selected_keystore) →
  (USERDEBUG mb = false ∧ boot_state = BOOT_STATE_RED ∧ lock_prompted = false
   ∧ selected_keystore = None ∧ evs = [])
  ∨ (USERDEBUG mb = true ∧ NO_DEVICE_UNLOCK mb = false
     ∧ is_efi_secure_boot_enabled e = false ∧ device_is_provisioning e = false
     ∧ boot_state = BOOT_STATE_ORANGE ∧ lock_prompted = true ∧ selected_keystore = None
     ∧ evs = [ux_prompt_user_secure_boot_off])
  ∨ (USERDEBUG mb = true
     ∧ (is_efi_secure_boot_enabled e = true ∨ device_is_provisioning e = true)
     ∧ device_is_unlocked e = true
     ∧ boot_state = BOOT_STATE_ORANGE ∧ lock_prompted = false ∧ selected_keystore = None
     ∧ evs = [])
  ∨ (USERDEBUG mb = true
     ∧ (is_efi_secure_boot_enabled e = true ∨ device_is_provisioning e = true)
     ∧ device_is_unlocked e = false
     ∧ boot_state = (if EFI_ERROR (verify_android_keystore e (select_keystore e))
                     then BOOT_STATE_YELLOW else BOOT_STATE_GREEN)
     ∧ lock_prompted = false ∧ selected_keystore = select_keystore e ∧ evs = []).
Proof.
  unfold check_device_state.
  destruct (USERDEBUG mb); [|intros [= <- <- <- <-]; left; repeat split; reflexivity].
  destruct (is_efi_secure_boot_enabled e), (device_is_provisioning e),
    (device_is_unlocked e), (NO_DEVICE_UNLOCK mb);
    cbn [negb andb]; intros Hrun; try discriminate Hrun;
    injection Hrun as <- <- <- <-; right;
    first [ left; repeat split; reflexivity
          | right; left; repeat split; auto; fail
          | right; right; repeat split; auto ].
Qed.

(** The states [check_device_state] can leave are the four colours. *)
Lemma check_device_state_colour (mb : main_build) (e : main_env)
    (evs : list main_event) (boot_state : Z) (lock_prompted : bool)
    (selected_keystore : option (list CHAR8)) :
  check_device_state mb e = (evs, checked boot_state lock_prompted selected_keystore) →
  boot_state = BOOT_STATE_GREEN ∨ boot_state = BOOT_STATE_YELLOW
  ∨ boot_state = BOOT_STATE_ORANGE ∨ boot_state = BOOT_STATE_RED.
Proof.
  intros Hc.
  destruct (check_device_state_checked _ _ _ _ _ _ Hc)
    as [(_ & -> & _)|[(_ & _ & _ & _ & -> & _)|[(_ & _ & _ & -> & _)|(_ & _ & _ & -> & _)]]];
    auto.
  destruct (EFI_ERROR _); auto.
Qed.

Lemma check_device_state_prompts (mb : main_build) (e : main_env) :
  List.filter image_prompt (fst (check_device_state mb e)) = []
  ∧ existsb clears_memory (fst (check_device_state mb e)) = false
  ∧ existsb is_image_start (fst (check_device_state mb e)) = false
  ∧ (fst (check_device_state mb e) = []
     ∨ fst (check_device_state mb e) = [ux_prompt_user_secure_boot_off]
       ∧ (∀ st lp ks, snd (check_device_state mb e) = checked st lp ks → lp = true)).
Proof.
  unfold check_device_state.
  destruct (USERDEBUG mb); [|repeat split; left; reflexivity].
  destruct (is_efi_secure_boot_enabled e), (device_is_provisioning e),
    (device_is_unlocked e), (NO_DEVICE_UNLOCK mb);
    cbn [negb andb fst snd];
    (split; [reflexivity|]); (split; [reflexivity|]); (split; [reflexivity|]);
    first [ left; reflexivity
          | right; split; [reflexivity|]; intros st lp ks H; congruence ].
Qed.

(** How [check_device_state] halts. *)
Lemma check_device_state_halted (mb : main_build) (e : main_env)
    (evs : list main_event) :
  check_device_state mb e = (evs, halted) →
  USERDEBUG mb = true ∧ NO_DEVICE_UNLOCK mb = true
  ∧ evs = [ux_prompt_user_secure_boot_off].
Proof.
  unfold check_device_state.
  destruct (USERDEBUG mb); [|discriminate].
  destruct (is_efi_secure_boot_enabled e), (device_is_provisioning e),
    (device_is_unlocked e), (NO_DEVICE_UNLOCK mb);
    cbn [negb andb]; intros Hrun; try discriminate Hrun;
    injection Hrun as <-; repeat split.
Qed.

(** *** [load_image] *)

Lemma load_image_fst (b : build) (x : externals) (h : handover_env)
    (img : option bootimage) (st : Z) (t : option boot_target) :
  fst (load_image b x h img st t)
  = load_image_events img st t (fst (android_image_start_buffer b x h img))
      (snd (android_image_start_buffer b x h img)).
Proof.
  unfold load_image. destruct (android_image_start_buffer b x h img). reflexivity.
Qed.

Lemma load_image_snd (b : build) (x : externals) (h : handover_env)
    (img : option bootimage) (st : Z) (t : option boot_target) :
  snd (load_image b x h img st t) = fst (android_image_start_buffer b x h img).
Proof.
  unfold load_image. destruct (android_image_start_buffer b x h img). reflexivity.
Qed.

Lemma load_image_events_start (img img' : option bootimage) (st st' : Z)
    (t t' : option boot_target) (ret ret' : EFI_STATUS) (jumps jumps' : list handover_event) :
  In (image_start img st t ret jumps) (load_image_events img' st' t' ret' jumps') →
  img = img' ∧ st = st' ∧ t = t' ∧ ret = ret' ∧ jumps = jumps'.
Proof.
  unfold load_image_events.
  destruct (negb (st' =? BOOT_STATE_GREEN)); cbn [app In]; intros H;
    repeat (destruct H as [H|H]; [try discriminate H|]); try contradiction;
    injection H as <- <- <- <- <-; repeat split.
Qed.

Lemma load_image_events_facts (img : option bootimage) (st : Z)
    (t : option boot_target) (ret : EFI_STATUS) (jumps : list handover_event) :
  existsb warning (load_image_events img st t ret jumps) = false
  ∧ existsb clears_memory (load_image_events img st t ret jumps)
    = negb (st =? BOOT_STATE_GREEN)
  ∧ ∀ pre, last (pre ++ load_image_events img st t ret jumps)
           = Some (image_start img st t ret jumps).
Proof.
  unfold load_image_events.
  split; [destruct (negb (st =? BOOT_STATE_GREEN)); reflexivity|].
  split; [destruct (negb (st =? BOOT_STATE_GREEN)); reflexivity|].
  intros pre.
  change [set_boot_state_var st; image_start img st t ret jumps]
    with ([set_boot_state_var st] ++ [image_start img st t ret jumps]).
  rewrite !app_assoc. apply last_snoc.
Qed.

(** *** [enter_tdos] and [enter_fastboot_mode] *)

(** The one image [chainload] starts, and what it was checked against. *)
Lemma chainload_start (mb : main_build) (b : build) (x : externals) (e : main_env)
    (given : option bootimage) (boot_state : Z) (target : boot_target)
    (label : list CHAR16)
    (img : option bootimage) (st : Z) (t : option boot_target) (ret : EFI_STATUS)
    (jumps : list handover_event) :
  In (image_start img st t ret jumps)
     (fst (chainload mb b x e given boot_state target label)) →
  img = given ∧ st = boot_state ∧ t = Some target
  ∧ (USERDEBUG mb = true → verified_by_oem_keystore x e img label)
  ∧ fst (chainload mb b x e given boot_state target label)
    = load_image_events img st t ret jumps.
Proof.
  unfold chainload, verified_by_oem_keystore.
  destruct (USERDEBUG mb).
  - destruct given as [image|]; [|intros []].
    destruct (verify_android_boot_image x image (oem_keystore e)) as [vret vtarget] eqn:Ev.
    destruct (EFI_ERROR vret) eqn:Eerr; [intros []|].
    destruct (StrCmp vtarget label =? 0) eqn:Elabel; [|intros []].
    cbn [negb fst]. rewrite load_image_fst. intros Hin.
    destruct (load_image_events_start _ _ _ _ _ _ _ _ _ _ Hin) as (-> & -> & -> & -> & ->).
    repeat split; try reflexivity. intros _.
    exists image. rewrite Ev. cbn [fst snd].
    split; [reflexivity|]. split; [exact Eerr|]. apply Z.eqb_eq. exact Elabel.
  - cbn [fst]. rewrite load_image_fst. intros Hin.
    destruct (load_image_events_start _ _ _ _ _ _ _ _ _ _ Hin) as (-> & -> & -> & -> & ->).
    repeat split; try reflexivity. discriminate.
Qed.

(** [chainload] shows no warning, and ends in a halt unless the verifier is
    handed a NULL image. *)
Lemma chainload_facts (mb : main_build) (b : build) (x : externals) (e : main_env)
    (given : option bootimage) (boot_state : Z) (target : boot_target)
    (label : list CHAR16) :
  existsb warning (fst (chainload mb b x e given boot_state target label)) = false
  ∧ (snd (chainload mb b x e given boot_state target label) = halt_system
     ∨ snd (chainload mb b x e given boot_state target label)
       = main_validated_null_image).
Proof.
  unfold chainload.
  destruct (USERDEBUG mb).
  - destruct given as [image|]; [|split; [reflexivity | right; reflexivity]].
    destruct (verify_android_boot_image x image (oem_keystore e)) as [vret vtarget].
    destruct (EFI_ERROR vret); [split; [reflexivity | left; reflexivity]|].
    destruct (negb (StrCmp vtarget label =? 0)); [split; [reflexivity | left; reflexivity]|].
    cbn [fst snd]. rewrite load_image_fst.
    split; [apply load_image_events_facts | left; reflexivity].
  - cbn [fst snd]. rewrite load_image_fst.
    split; [apply load_image_events_facts | left; reflexivity].
Qed.

Lemma enter_tdos_start (mb : main_build) (b : build) (x : externals) (e : main_env)
    (boot_state : Z)
    (img : option bootimage) (st : Z) (t : option boot_target) (ret : EFI_STATUS)
    (jumps : list handover_event) :
  In (image_start img st t ret jumps) (fst (enter_tdos mb b x e boot_state)) →
  st = boot_state ∧ t = Some TDOS
  ∧ (USERDEBUG mb = true → verified_by_oem_keystore x e img (L "/tdos"))
  ∧ fst (enter_tdos mb b x e boot_state) = load_image_events img st t ret jumps.
Proof.
  unfold enter_tdos.
  destruct (android_image_load_file b (file_at e (Some TDOS_PATH)) false)
    as [loaded bootimage deleted|]; [|intros []].
  destruct (EFI_ERROR loaded); [intros []|].
  intros Hin.
  destruct (chainload_start _ _ _ _ _ _ _ _ _ _ _ _ _ Hin) as (_ & Hst & Ht & Hv & Htrace).
  repeat split; assumption.
Qed.

Lemma enter_tdos_facts (mb : main_build) (b : build) (x : externals) (e : main_env)
    (boot_state : Z) :
  existsb warning (fst (enter_tdos mb b x e boot_state)) = false
  ∧ (snd (enter_tdos mb b x e boot_state) = halt_system
     ∨ snd (enter_tdos mb b x e boot_state) = main_null_dereference
     ∨ snd (enter_tdos mb b x e boot_state) = main_validated_null_image).
Proof.
  unfold enter_tdos.
  destruct (android_image_load_file b (file_at e (Some TDOS_PATH)) false)
    as [loaded bootimage deleted|]; [|split; [reflexivity | right; left; reflexivity]].
  destruct (EFI_ERROR loaded); [split; [reflexivity | left; reflexivity]|].
  destruct (chainload_facts mb b x e bootimage boot_state TDOS (L "/tdos")) as [Hq [Ho|Ho]];
    (split; [exact Hq|]); rewrite Ho; auto.
Qed.

(** Every image the loop of [enter_fastboot_mode] starts is one that
    [fastboot_start] handed back while the device was unlocked; it is
    started in the ORANGE state, right after its OEM variables were set. *)
Lemma fastboot_loop_start (b : build) (x : externals) (answers : list fastboot_answer)
    (img : option bootimage) (st : Z) (t : option boot_target) (ret : EFI_STATUS)
    (jumps : list handover_event) :
  In (image_start img st t ret jumps) (fst (fastboot_loop b x answers)) →
  st = BOOT_STATE_ORANGE ∧ t = None
  ∧ (∃ a, In a answers ∧ EFI_ERROR (fastboot_start_ret a) = false
          ∧ received_bootimage a = img ∧ img ≠ None ∧ unlocked_then a = true)
  ∧ ∃ pre post,
      fst (fastboot_loop b x answers)
      = pre ++ load_image_events img st t ret jumps ++ post.
Proof.
  induction answers as [|a answers IH]; [intros []|].
  cbn [fastboot_loop].
  assert (Hrest : In (image_start img st t ret jumps) (fst (fastboot_loop b x answers)) →
                  ∀ evs, st = BOOT_STATE_ORANGE ∧ t = None
                         ∧ (∃ a', In a' (a :: answers)
                                  ∧ EFI_ERROR (fastboot_start_ret a') = false
                                  ∧ received_bootimage a' = img ∧ img ≠ None
                                  ∧ unlocked_then a' = true)
                         ∧ ∃ pre post,
                             evs ++ fst (fastboot_loop b x answers)
                             = pre ++ load_image_events img st t ret jumps ++ post).
  { intros Hin evs.
    destruct (IH Hin) as (Hst & Ht & (a' & Ha' & Hfacts) & pre & post & Htrace).
    split; [exact Hst|]. split; [exact Ht|].
    split; [exists a'; split; [right; exact Ha' | exact Hfacts]|].
    exists (evs ++ pre), post. rewrite Htrace, app_assoc. reflexivity. }
  destruct (EFI_ERROR (fastboot_start_ret a)) eqn:Eret; [intros []|].
  destruct (received_bootimage a) as [image|] eqn:Eimage.
  - rewrite after_fst.
    destruct (unlocked_then a) eqn:Eunlocked.
    + rewrite load_image_fst. intros Hin.
      apply in_app_or in Hin as [Hin|Hin]; [|apply Hrest; exact Hin].
      destruct Hin as [Hin|Hin]; [discriminate Hin|].
      destruct (load_image_events_start _ _ _ _ _ _ _ _ _ _ Hin)
        as (-> & -> & -> & -> & ->).
      split; [reflexivity|]. split; [reflexivity|].
      split.
      { exists a. split; [left; reflexivity|]. split; [exact Eret|].
        split; [exact Eimage|]. split; [discriminate | exact Eunlocked]. }
      exists [set_image_oemvars_nocheck (Some image)], (fst (fastboot_loop b x answers)).
      reflexivity.
    + intros Hin. apply (Hrest Hin []).
  - destruct (received_efiimage a).
    + rewrite after_fst. intros Hin.
      apply in_app_or in Hin as [Hin|Hin]; [|apply Hrest; exact Hin].
      destruct (EFI_ERROR (received_LoadImage_ret a)); cbn [In] in Hin;
        [contradiction|].
      destruct Hin as [Hin|[]]. discriminate Hin.
    + destruct (bool_decide (received_target a = UNKNOWN_TARGET)); [|intros []].
      intros Hin. apply (Hrest Hin []).
Qed.

(** The loop shows no warning and starts nothing in another state, and it
    ends in a halt, a reboot, or waiting for [fastboot_start]. *)
Lemma fastboot_loop_facts (b : build) (x : externals) (answers : list fastboot_answer) :
  existsb warning (fst (fastboot_loop b x answers)) = false
  ∧ (snd (fastboot_loop b x answers) = halt_system
     ∨ snd (fastboot_loop b x answers) = fastboot_start_waits
     ∨ ∃ target, snd (fastboot_loop b x answers) = reboot_to_target target).
Proof.
  induction answers as [|a answers [IHq IHo]];
    [split; [reflexivity | right; left; reflexivity]|].
  cbn [fastboot_loop].
  destruct (EFI_ERROR (fastboot_start_ret a)); [split; [reflexivity | left; reflexivity]|].
  destruct (received_bootimage a) as [image|].
  - rewrite after_fst, after_snd, existsb_app, IHq.
    split; [|exact IHo].
    destruct (unlocked_then a); [|reflexivity].
    rewrite load_image_fst. cbn [existsb].
    rewrite (proj1 (load_image_events_facts _ _ _ _ _)). reflexivity.
  - destruct (received_efiimage a).
    + rewrite after_fst, after_snd, existsb_app, IHq.
      split; [|exact IHo].
      destruct (EFI_ERROR (received_LoadImage_ret a)); reflexivity.
    + destruct (bool_decide (received_target a = UNKNOWN_TARGET));
        [split; [exact IHq | exact IHo]|].
      split; [reflexivity|]. right; right. eexists. reflexivity.
Qed.

(** The images [enter_fastboot_mode] starts: with USERFASTBOOT the Fastboot
    image, in the state handed over; without, what [fastboot_start] handed
    back on an unlocked device, in the ORANGE state. *)
Lemma enter_fastboot_mode_start (mb : main_build) (b : build) (x : externals)
    (e : main_env) (boot_state : Z) (address : Z)
    (img : option bootimage) (st : Z) (t : option boot_target) (ret : EFI_STATUS)
    (jumps : list handover_event) :
  In (image_start img st t ret jumps)
     (fst (enter_fastboot_mode mb b x e boot_state address)) →
  (USERFASTBOOT b = true ∧ st = boot_state ∧ t = Some FASTBOOT
   ∧ (USERDEBUG mb = true → verified_by_oem_keystore x e img (L "/fastboot"))
   ∧ fst (enter_fastboot_mode mb b x e boot_state address)
     = [set_oem_key_var; set_oemvars_update true]
       ++ load_image_events img st t ret jumps)
  ∨ (USERFASTBOOT b = false ∧ st = BOOT_STATE_ORANGE ∧ t = None
     ∧ (∃ a, In a (fastboot_start e) ∧ EFI_ERROR (fastboot_start_ret a) = false
             ∧ received_bootimage a = img ∧ img ≠ None ∧ unlocked_then a = true)
     ∧ ∃ pre post,
         fst (enter_fastboot_mode mb b x e boot_state address)
         = pre ++ load_image_events img st t ret jumps ++ post).
Proof.
  unfold enter_fastboot_mode.
  destruct (USERFASTBOOT b).
  - rewrite after_fst. intros Hin. left.
    apply in_app_or in Hin as [Hin|Hin].
    { cbn [In] in Hin. destruct Hin as [Hin|[Hin|[]]]; discriminate Hin. }
    split; [reflexivity|].
    destruct (address =? 0).
    + destruct (android_image_load_file b (file_at e (Some FASTBOOT_PATH)) false)
        as [loaded bootimage deleted|]; [|destruct Hin].
      destruct (EFI_ERROR loaded); [destruct Hin|].
      destruct (chainload_start _ _ _ _ _ _ _ _ _ _ _ _ _ Hin)
        as (_ & Hst & Ht & Hv & Htrace).
      rewrite Htrace. repeat split; assumption.
    + destruct (chainload_start _ _ _ _ _ _ _ _ _ _ _ _ _ Hin)
        as (_ & Hst & Ht & Hv & Htrace).
      rewrite Htrace. repeat split; assumption.
  - rewrite after_fst. intros Hin. right.
    apply in_app_or in Hin as [Hin|Hin].
    { cbn [In] in Hin. destruct Hin as [Hin|[Hin|[]]]; discriminate Hin. }
    destruct (fastboot_loop_start _ _ _ _ _ _ _ _ Hin)
      as (Hst & Ht & Ha & pre & post & Htrace).
    split; [reflexivity|]. split; [exact Hst|]. split; [exact Ht|]. split; [exact Ha|].
    exists ([set_boot_state_var boot_state; set_oemvars_update true] ++ pre), post.
    rewrite Htrace, <- app_assoc. reflexivity.
Qed.

(** [enter_fastboot_mode] shows no warning; only with USERFASTBOOT can it
    end on a null image, and only without in a reboot or waiting. *)
Lemma enter_fastboot_mode_facts (mb : main_build) (b : build) (x : externals)
    (e : main_env) (boot_state : Z) (address : Z) :
  existsb warning (fst (enter_fastboot_mode mb b x e boot_state address)) = false
  ∧ (snd (enter_fastboot_mode mb b x e boot_state address) = halt_system
     ∨ (USERFASTBOOT b = true
        ∧ (snd (enter_fastboot_mode mb b x e boot_state address) = main_null_dereference
           ∨ snd (enter_fastboot_mode mb b x e boot_state address)
             = main_validated_null_image))
     ∨ (USERFASTBOOT b = false
        ∧ (snd (enter_fastboot_mode mb b x e boot_state address) = fastboot_start_waits
           ∨ ∃ target, snd (enter_fastboot_mode mb b x e boot_state address)
                       = reboot_to_target target))).
Proof.
  unfold enter_fastboot_mode.
  destruct (USERFASTBOOT b); rewrite after_fst, after_snd, existsb_app; cbn [existsb orb].
  - change (warning set_oem_key_var) with false.
    change (warning (set_oemvars_update true)) with false. cbn [orb].
    destruct (address =? 0).
    + destruct (android_image_load_file b (file_at e (Some FASTBOOT_PATH)) false)
        as [loaded bootimage deleted|];
        [|split; [reflexivity | right; left; split; [reflexivity | left; reflexivity]]].
      destruct (EFI_ERROR loaded); [split; [reflexivity | left; reflexivity]|].
      destruct (chainload_facts mb b x e bootimage boot_state FASTBOOT (L "/fastboot"))
        as [Hq [Ho|Ho]]; (split; [exact Hq|]); rewrite Ho; auto.
    + destruct (chainload_facts mb b x e (Some (image_at e address)) boot_state FASTBOOT
                  (L "/fastboot"))
        as [Hq [Ho|Ho]]; (split; [exact Hq|]); rewrite Ho; auto.
  - change (warning (set_boot_state_var boot_state)) with false.
    change (warning (set_oemvars_update true)) with false. cbn [orb].
    destruct (fastboot_loop_facts b x (fastboot_start e)) as [Hq [Ho|[Ho|[target Ho]]]];
      (split; [exact Hq|]); rewrite Ho; eauto 6.
Qed.

(** *** The image of the chosen target *)

Lemma no_start_in (evs : list main_event) (img : option bootimage) (st : Z)
    (t : option boot_target) (ret : EFI_STATUS) (jumps : list handover_event) :
  existsb is_image_start evs = false → ¬ In (image_start img st t ret jumps) evs.
Proof.
  intros Hq Hin.
  assert (H : existsb is_image_start evs = true).
  { apply existsb_exists. eexists. split; [exact Hin | reflexivity]. }
  congruence.
Qed.

Lemma image_oemvars_quiet (e : main_env) (target : boot_target)
    (img : option bootimage) :
  existsb warning (image_oemvars e target img) = false
  ∧ existsb clears_memory (image_oemvars e target img) = false
  ∧ existsb is_image_start (image_oemvars e target img) = false.
Proof.
  unfold image_oemvars, set_image_oemvars.
  destruct target, (get_oemvars_update e); repeat split; reflexivity.
Qed.

Lemma image_events_facts (e : main_env) (target : boot_target)
    (path : option (list CHAR16)) (loaded : EFI_STATUS) (img : option bootimage)
    (deleted : bool) :
  existsb warning (image_events e target path loaded img deleted) = EFI_ERROR loaded
  ∧ existsb clears_memory (image_events e target path loaded img deleted) = false
  ∧ existsb is_image_start (image_events e target path loaded img deleted) = false
  ∧ List.filter lock_prompt (image_events e target path loaded img deleted) = []
  ∧ (length (List.filter image_prompt (image_events e target path loaded img deleted))
     ≤ 1)%nat.
Proof.
  unfold image_events.
  destruct (image_oemvars_quiet e target img) as (Hw & Hc & Hs).
  destruct (quiet_no_prompts _ Hw) as [Hl Hi].
  rewrite !existsb_app, !List.filter_app, !length_app, Hw, Hc, Hs, Hl, Hi.
  destruct deleted, (EFI_ERROR loaded), (bool_decide (target = RECOVERY));
    cbn; repeat split; lia.
Qed.

(** How [boot_android] comes to start an image, and what it shows and
    stores on the way. *)
Lemma boot_android_start (mb : main_build) (b : build) (x : externals) (e : main_env)
    (target : boot_target) (o : outputs) (boot_state : Z)
    (selected_keystore : option (list CHAR8))
    (img : option bootimage) (st : Z) (t : option boot_target) (ret : EFI_STATUS)
    (jumps : list handover_event) :
  In (image_start img st t ret jumps)
     (fst (boot_android mb b x e target o boot_state selected_keystore)) →
  t = Some target
  ∧ snd (boot_android mb b x e target o boot_state selected_keystore) = main_returns ret
  ∧ image_target target = true
  ∧ ∃ loaded deleted,
      load_boot_image b x
        {| boot_partition := boot_partition_found e;
           recovery_partition := recovery_partition_found e;
           esp_file := file_at e (target_path o) |}
        target selected_keystore (oneshot o) = Boot_image loaded img deleted
      ∧ st = (if EFI_ERROR loaded then BOOT_STATE_RED else boot_state)
      ∧ (EFI_ERROR loaded = true → NO_DEVICE_UNLOCK mb = false ∧ img ≠ None)
      ∧ fst (boot_android mb b x e target o boot_state selected_keystore)
        = image_events e target (target_path o) loaded img deleted
          ++ load_image_events img st t ret jumps.
Proof.
  unfold boot_android.
  destruct (load_boot_image _ _ _ _ _ _) as [loaded image deleted| |] eqn:Hload;
    [|intros []|intros []].
  assert (Htarget : (EFI_ERROR loaded = true → image ≠ None) → image_target target = true).
  { intros Himage. destruct (image_target target) eqn:Et; [reflexivity|].
    destruct (load_boot_image_facts _ _ _ _ _ _ _ _ _ Hload) as (Hno & _).
    destruct (Hno Et) as (-> & -> & _).
    exfalso. apply Himage; reflexivity. }
  destruct (image_events_facts e target (target_path o) loaded image deleted)
    as (_ & _ & Hquiet & _).
  unfold image_events in *.
  destruct (EFI_ERROR loaded) eqn:El.
  - destruct (NO_DEVICE_UNLOCK mb).
    { intros Hin. exfalso. revert Hin. apply no_start_in.
      destruct deleted, (bool_decide (target = RECOVERY)); reflexivity. }
    destruct image as [image|].
    { pose proof (load_image_fst b x (handover e) (Some image) BOOT_STATE_RED (Some target))
        as Hf.
      pose proof (load_image_snd b x (handover e) (Some image) BOOT_STATE_RED (Some target))
        as Hs.
      destruct (load_image b x (handover e) (Some image) BOOT_STATE_RED (Some target))
        as [levs lret].
      cbn [fst snd] in Hf, Hs. subst levs lret.
      rewrite !after_fst, !after_snd. cbn [fst snd]. intros Hin.
      rewrite !app_assoc in Hin. apply in_app_or in Hin as [Hin|Hin].
      { exfalso. revert Hin. apply no_start_in. rewrite <- ?app_assoc. exact Hquiet. }
      destruct (load_image_events_start _ _ _ _ _ _ _ _ _ _ Hin)
        as (-> & -> & -> & -> & ->).
      split; [reflexivity|]. split; [reflexivity|].
      split; [apply Htarget; discriminate|].
      exists loaded, deleted. rewrite El.
      split; [reflexivity|]. split; [reflexivity|].
      split; [intros _; split; [reflexivity | discriminate]|].
      rewrite <- ?app_assoc. reflexivity. }
    intros Hin. exfalso. revert Hin. apply no_start_in.
    destruct deleted, (bool_decide (target = RECOVERY)); reflexivity.
  - pose proof (load_image_fst b x (handover e) image boot_state (Some target)) as Hf.
    pose proof (load_image_snd b x (handover e) image boot_state (Some target)) as Hs.
    destruct (load_image b x (handover e) image boot_state (Some target)) as [levs lret].
    cbn [fst snd] in Hf, Hs. subst levs lret.
    rewrite !after_fst, !after_snd. cbn [fst snd]. cbn [app] in *. intros Hin.
    rewrite !app_assoc in Hin. apply in_app_or in Hin as [Hin|Hin].
    { exfalso. revert Hin. apply no_start_in. rewrite <- ?app_assoc. exact Hquiet. }
    destruct (load_image_events_start _ _ _ _ _ _ _ _ _ _ Hin)
      as (-> & -> & -> & -> & ->).
    split; [reflexivity|]. split; [reflexivity|].
    split; [apply Htarget; discriminate|].
    exists loaded, deleted. rewrite El.
    split; [reflexivity|]. split; [reflexivity|].
    split; [discriminate|].
    rewrite <- ?app_assoc. reflexivity.
Qed.

(** The prompts of [boot_android], however it ends. *)
Lemma boot_android_prompts (mb : main_build) (b : build) (x : externals) (e : main_env)
    (target : boot_target) (o : outputs) (boot_state : Z)
    (selected_keystore : option (list CHAR8)) :
  List.filter lock_prompt (fst (boot_android mb b x e target o boot_state selected_keystore))
  = []
  ∧ (length (List.filter image_prompt
               (fst (boot_android mb b x e target o boot_state selected_keystore)))
     ≤ 1)%nat.
Proof.
  unfold boot_android.
  destruct (load_boot_image _ _ _ _ _ _) as [loaded image deleted| |];
    [|split; [reflexivity | cbn; lia]|split; [reflexivity | cbn; lia]].
  unfold load_image, image_oemvars, set_image_oemvars, after.
  destruct (android_image_start_buffer b x (handover e) image) as [r j].
  destruct (bool_decide (target = RECOVERY)), deleted, (EFI_ERROR loaded),
    (NO_DEVICE_UNLOCK mb), image, target, (get_oemvars_update e),
    (boot_state =? BOOT_STATE_GREEN);
    cbn; (split; [reflexivity | lia]).
Qed.




(** *** The dispatch *)

Lemma main_prefix_app (s s' : state) (target : boot_target) (evs rest : list main_event) :
  [set_loader_version]
  ++ shown_since s s'
  ++ (if bool_decide (target = CHARGER) then [ux_display_empty_battery] else [])
  ++ evs ++ rest
  = main_prefix s s' target evs ++ rest.
Proof.
  unfold main_prefix. cbn [app]. rewrite <- !app_assoc. reflexivity.
Qed.

Lemma main_prefix_exists (f : main_event → bool) (s s' : state) (target : boot_target)
    (evs : list main_event) :
  f set_loader_version = false → f ux_display_empty_battery = false →
  (∀ ev, f (choose_boot_target_shows ev) = false) →
  existsb f (main_prefix s s' target evs) = existsb f evs.
Proof.
  intros H1 H2 H3. unfold main_prefix. cbn [existsb].
  rewrite H1, !existsb_app, (shown_since_none f s s' H3).
  destruct (bool_decide (target = CHARGER)); cbn [existsb]; rewrite ?H2; reflexivity.
Qed.

Lemma shown_since_filter (f : main_event → bool) (s s' : state) :
  (∀ ev, f (choose_boot_target_shows ev) = false) →
  List.filter f (shown_since s s') = [].
Proof.
  intros Hf. unfold shown_since.
  induction (drop (length (console s)) (console s')) as [|ev l IH]; [reflexivity|].
  cbn [map List.filter]. rewrite Hf. exact IH.
Qed.

Lemma main_prefix_filter (f : main_event → bool) (s s' : state) (target : boot_target)
    (evs : list main_event) :
  f set_loader_version = false → f ux_display_empty_battery = false →
  (∀ ev, f (choose_boot_target_shows ev) = false) →
  List.filter f (main_prefix s s' target evs) = List.filter f evs.
Proof.
  intros H1 H2 H3. unfold main_prefix. cbn [List.filter].
  rewrite H1, !List.filter_app, (shown_since_filter f s s' H3).
  destruct (bool_decide (target = CHARGER)); cbn [List.filter app]; rewrite ?H2; reflexivity.
Qed.

(** [efi_main] behind the choice of the target and the check of the device
    state. *)
Lemma efi_main_checked (mb : main_build) (b : build) (x : externals) (p : platform)
    (e : main_env) (s s' : state) (chosen : boot_target) (o : outputs)
    (evs : list main_event) (d : device_state_checked) :
  EFI_ERROR (OpenProtocol_ret e) = false →
  file_exists p FWUPDATE_FILE = false →
  choose_boot_target b x p s = (chosen, o, s') →
  chosen ≠ EXIT_SHELL → chosen ≠ POWER_OFF →
  check_device_state mb e = (evs, d) →
  efi_main mb b x p e s
  = after (main_prefix s s' chosen evs)
      match d with
      | halted => ([], halt_system)
      | checked boot_state lock_prompted selected_keystore =>
          start_target mb b x e chosen o boot_state lock_prompted selected_keystore
      end.
Proof.
  intros Hopen Hfile Hchoose Hexit Hoff Hcheck.
  unfold efi_main. rewrite Hopen, Hfile, Hchoose, Hcheck.
  rewrite (bool_decide_eq_false_2 _ Hexit), (bool_decide_eq_false_2 _ Hoff).
  unfold after at 1 2 3 4. cbn [fst snd].
  rewrite main_prefix_app. reflexivity.
Qed.

(** The ways of [start_target]. *)
Lemma start_target_cases (mb : main_build) (b : build) (x : externals) (e : main_env)
    (chosen : boot_target) (o : outputs) (st0 : Z) (lp : bool)
    (ks : option (list CHAR8)) :
  (enters_fastboot mb b e chosen
   ∧ start_target mb b x e chosen o st0 lp ks
     = enter_fastboot_mode mb b x e st0 (target_address o))
  ∨ (chosen = ESP_EFI_BINARY
     ∧ start_target mb b x e chosen o st0 lp ks
       = (fst (enter_efi_binary e (target_path o) (oneshot o)), reboot))
  ∨ (chosen = TDOS
     ∧ start_target mb b x e chosen o st0 lp ks = enter_tdos mb b x e st0)
  ∨ (NO_DEVICE_UNLOCK mb = true ∧ lock_warnings st0 lp ≠ []
     ∧ start_target mb b x e chosen o st0 lp ks = (lock_warnings st0 lp, halt_system))
  ∨ ((st0 =? BOOT_STATE_YELLOW) && NO_DEVICE_UNLOCK mb = false
     ∧ (st0 =? BOOT_STATE_ORANGE) && negb lp && NO_DEVICE_UNLOCK mb = false
     ∧ chosen ≠ ESP_EFI_BINARY ∧ chosen ≠ FASTBOOT ∧ chosen ≠ MEMORY ∧ chosen ≠ TDOS
     ∧ start_target mb b x e chosen o st0 lp ks
       = after (lock_warnings st0 lp) (boot_android mb b x e chosen o st0 ks)).
Proof.
  unfold start_target, enters_fastboot.
  destruct (USERDEBUG mb && USER b && device_is_provisioning e) eqn:Eprov.
  { left. split; [|reflexivity]. right; right.
    apply andb_prop in Eprov as [Eprov ->]. apply andb_prop in Eprov as [-> ->].
    repeat split. }
  destruct (decide (chosen = ESP_EFI_BINARY)) as [->|Hbin].
  { right; left. split; reflexivity. }
  rewrite (bool_decide_eq_false_2 _ Hbin).
  destruct (decide (chosen = FASTBOOT)) as [->|Hfb].
  { left. split; [left; reflexivity | reflexivity]. }
  rewrite (bool_decide_eq_false_2 _ Hfb).
  destruct (decide (chosen = MEMORY)) as [->|Hmem].
  { left. split; [right; left; reflexivity | reflexivity]. }
  rewrite (bool_decide_eq_false_2 _ Hmem). cbn [orb].
  destruct (decide (chosen = TDOS)) as [->|Htdos].
  { right; right; left. split; reflexivity. }
  rewrite (bool_decide_eq_false_2 _ Htdos).
  right; right; right. unfold lock_warnings.
  destruct (st0 =? BOOT_STATE_YELLOW) eqn:Ey.
  - apply Z.eqb_eq in Ey. subst st0.
    change (BOOT_STATE_YELLOW =? BOOT_STATE_ORANGE) with false. cbn [andb].
    destruct (NO_DEVICE_UNLOCK mb).
    + left. split; [reflexivity|]. split; [discriminate | reflexivity].
    + right. repeat split; try assumption.
  - cbn [andb].
    destruct ((st0 =? BOOT_STATE_ORANGE) && negb lp) eqn:Eo; cbn [andb].
    + destruct (NO_DEVICE_UNLOCK mb).
      * left. split; [reflexivity|]. split; [discriminate | reflexivity].
      * right. repeat split; try assumption.
    + right. repeat split; try assumption.
Qed.

Lemma efi_main_exit_shell (mb : main_build) (b : build) (x : externals) (p : platform)
    (e : main_env) (s s' : state) (o : outputs) :
  EFI_ERROR (OpenProtocol_ret e) = false →
  file_exists p FWUPDATE_FILE = false →
  choose_boot_target b x p s = (EXIT_SHELL, o, s') →
  efi_main mb b x p e s = (set_loader_version :: shown_since s s', main_returns EFI_SUCCESS).
Proof.
  intros Hopen Hfile Hchoose.
  unfold efi_main. rewrite Hopen, Hfile, Hchoose.
  rewrite bool_decide_eq_true_2 by reflexivity.
  unfold after. cbn [fst snd app]. rewrite app_nil_r. reflexivity.
Qed.

Lemma efi_main_power_off (mb : main_build) (b : build) (x : externals) (p : platform)
    (e : main_env) (s s' : state) (o : outputs) :
  EFI_ERROR (OpenProtocol_ret e) = false →
  file_exists p FWUPDATE_FILE = false →
  choose_boot_target b x p s = (POWER_OFF, o, s') →
  efi_main mb b x p e s = (set_loader_version :: shown_since s s', halt_system).
Proof.
  intros Hopen Hfile Hchoose.
  unfold efi_main. rewrite Hopen, Hfile, Hchoose.
  rewrite bool_decide_eq_false_2 by discriminate.
  rewrite bool_decide_eq_true_2 by reflexivity.
  unfold after. cbn [fst snd app]. rewrite app_nil_r. reflexivity.
Qed.

Lemma lock_warnings_facts (st0 : Z) (lp : bool) :
  existsb is_image_start (lock_warnings st0 lp) = false
  ∧ existsb clears_memory (lock_warnings st0 lp) = false
  ∧ List.filter image_prompt (lock_warnings st0 lp) = []
  ∧ (length (List.filter lock_prompt (lock_warnings st0 lp)) ≤ 1)%nat.
Proof.
  unfold lock_warnings.
  destruct (st0 =? BOOT_STATE_YELLOW) eqn:Ey.
  - apply Z.eqb_eq in Ey. subst st0.
    change (BOOT_STATE_YELLOW =? BOOT_STATE_ORANGE) with false.
    cbn. repeat split; lia.
  - destruct ((st0 =? BOOT_STATE_ORANGE) && negb lp); cbn; repeat split; lia.
Qed.

Lemma enter_efi_binary_quiet (e : main_env) (path : option (list CHAR16)) (delete : bool) :
  existsb warning (fst (enter_efi_binary e path delete)) = false
  ∧ existsb is_image_start (fst (enter_efi_binary e path delete)) = false.
Proof.
  unfold enter_efi_binary.
  destruct (binary_FileDevicePath_ok e), (EFI_ERROR (LoadImage_ret e)), delete;
    split; reflexivity.
Qed.

(** How [efi_main] comes to start an image: the Fastboot image of a
    USERFASTBOOT build, an image that fastboot received, the TDOS image, or
    the image of the chosen target; with what it shows and stores on the
    way. *)
Lemma efi_main_start_paths (mb : main_build) (b : build) (x : externals) (p : platform)
    (e : main_env) (s : state) (img : option bootimage) (st : Z)
    (t : option boot_target) (ret : EFI_STATUS) (jumps : list handover_event) :
  In (image_start img st t ret jumps) (fst (efi_main mb b x p e s)) →
  ∃ chosen o s' evs st0 lp ks,
    choose_boot_target b x p s = (chosen, o, s')
    ∧ check_device_state mb e = (evs, checked st0 lp ks)
    ∧ ((enters_fastboot mb b e chosen ∧ USERFASTBOOT b = true
        ∧ st = st0 ∧ t = Some FASTBOOT
        ∧ (USERDEBUG mb = true → verified_by_oem_keystore x e img (L "/fastboot"))
        ∧ fst (efi_main mb b x p e s)
          = main_prefix s s' chosen evs
            ++ [set_oem_key_var; set_oemvars_update true]
            ++ load_image_events img st t ret jumps)
       ∨ (enters_fastboot mb b e chosen ∧ USERFASTBOOT b = false
          ∧ st = BOOT_STATE_ORANGE ∧ t = None
          ∧ (∃ a, In a (fastboot_start e) ∧ EFI_ERROR (fastboot_start_ret a) = false
                  ∧ received_bootimage a = img ∧ img ≠ None ∧ unlocked_then a = true)
          ∧ ∃ pre post,
              fst (efi_main mb b x p e s)
              = main_prefix s s' chosen evs
                ++ pre ++ load_image_events img st t ret jumps ++ post)
       ∨ (chosen = TDOS ∧ st = st0 ∧ t = Some TDOS
          ∧ (USERDEBUG mb = true → verified_by_oem_keystore x e img (L "/tdos"))
          ∧ fst (efi_main mb b x p e s)
            = main_prefix s s' chosen evs ++ load_image_events img st t ret jumps)
       ∨ (t = Some chosen ∧ image_target chosen = true
          ∧ snd (efi_main mb b x p e s) = main_returns ret
          ∧ (st0 =? BOOT_STATE_YELLOW) && NO_DEVICE_UNLOCK mb = false
          ∧ (st0 =? BOOT_STATE_ORANGE) && negb lp && NO_DEVICE_UNLOCK mb = false
          ∧ ∃ loaded deleted,
              load_boot_image b x
                {| boot_partition := boot_partition_found e;
                   recovery_partition := recovery_partition_found e;
                   esp_file := file_at e (target_path o) |}
                chosen ks (oneshot o) = Boot_image loaded img deleted
              ∧ st = (if EFI_ERROR loaded then BOOT_STATE_RED else st0)
              ∧ (EFI_ERROR loaded = true → NO_DEVICE_UNLOCK mb = false ∧ img ≠ None)
              ∧ fst (efi_main mb b x p e s)
                = main_prefix s s' chosen evs
                  ++ lock_warnings st0 lp
                  ++ image_events e chosen (target_path o) loaded img deleted
                  ++ load_image_events img st t ret jumps)).
Proof.
  intros Hin.
  destruct (EFI_ERROR (OpenProtocol_ret e)) eqn:Hopen.
  { exfalso. revert Hin. unfold efi_main. rewrite Hopen. apply no_start_in. reflexivity. }
  destruct (file_exists p FWUPDATE_FILE) eqn:Hfile.
  { exfalso. revert Hin. unfold efi_main. rewrite Hopen, Hfile.
    apply no_start_in. reflexivity. }
  destruct (choose_boot_target b x p s) as [[chosen o] s'] eqn:Hchoose.
  destruct (shown_since_quiet s s') as (_ & _ & Hshown).
  destruct (decide (chosen = EXIT_SHELL)) as [->|Hexit].
  { exfalso. revert Hin.
    rewrite (efi_main_exit_shell mb b x p e s s' o Hopen Hfile Hchoose).
    apply no_start_in. cbn [fst existsb is_image_start orb]. exact Hshown. }
  destruct (decide (chosen = POWER_OFF)) as [->|Hoff].
  { exfalso. revert Hin.
    rewrite (efi_main_power_off mb b x p e s s' o Hopen Hfile Hchoose).
    apply no_start_in. cbn [fst existsb is_image_start orb]. exact Hshown. }
  destruct (check_device_state mb e) as [evs d] eqn:Hcheck.
  pose proof (check_device_state_prompts mb e) as (_ & _ & Hevs & _).
  rewrite Hcheck in Hevs. cbn [fst] in Hevs.
  assert (Hprefix : existsb is_image_start (main_prefix s s' chosen evs) = false).
  { rewrite main_prefix_exists by reflexivity. exact Hevs. }
  rewrite (efi_main_checked mb b x p e s s' chosen o evs d Hopen Hfile Hchoose Hexit Hoff
             Hcheck) in *.
  rewrite after_fst in Hin. rewrite after_fst, after_snd.
  apply in_app_or in Hin as [Hin|Hin]; [exfalso; exact (no_start_in _ _ _ _ _ _ Hprefix Hin)|].
  destruct d as [st0 lp ks|]; [|destruct Hin].
  exists chosen, o, s', evs, st0, lp, ks.
  split; [reflexivity|]. split; [reflexivity|].
  destruct (start_target_cases mb b x e chosen o st0 lp ks)
    as [[Hfb Hr]|[[Hbin Hr]|[[Htdos Hr]|[(_ & _ & Hr)|(Hy & Ho & _ & _ & _ & _ & Hr)]]]];
    rewrite Hr in *.
  - destruct (enter_fastboot_mode_start _ _ _ _ _ _ _ _ _ _ _ Hin)
      as [(Hu & Hst & Ht & Hv & Htrace)|(Hu & Hst & Ht & Ha & pre & post & Htrace)].
    + left. rewrite Htrace. repeat split; assumption.
    + right; left. rewrite Htrace.
      split; [exact Hfb|]. split; [exact Hu|]. split; [exact Hst|]. split; [exact Ht|].
      split; [exact Ha|]. exists pre, post. reflexivity.
  - exfalso. revert Hin. apply no_start_in. apply enter_efi_binary_quiet.
  - destruct (enter_tdos_start _ _ _ _ _ _ _ _ _ _ Hin) as (Hst & Ht & Hv & Htrace).
    right; right; left. rewrite Htrace. repeat split; assumption.
  - exfalso. revert Hin. apply no_start_in. apply lock_warnings_facts.
  - rewrite after_fst in Hin. rewrite after_fst, after_snd.
    apply in_app_or in Hin as [Hin|Hin].
    { exfalso. revert Hin. apply no_start_in. apply lock_warnings_facts. }
    destruct (boot_android_start _ _ _ _ _ _ _ _ _ _ _ _ _ Hin)
      as (Ht & Hret & Htarget & loaded & deleted & Hload & Hst & Herr & Htrace).
    right; right; right. rewrite Htrace.
    split; [exact Ht|]. split; [exact Htarget|]. split; [exact Hret|].
    split; [exact Hy|]. split; [exact Ho|].
    exists loaded, deleted. repeat split; try assumption; apply Herr; assumption.
Qed.

(** The device state behind a GREEN [boot_state]. *)
Lemma green_device_state (mb : main_build) (e : main_env) (evs : list main_event)
    (lp : bool) (ks : option (list CHAR8)) :
  check_device_state mb e = (evs, checked BOOT_STATE_GREEN lp ks) →
  USERDEBUG mb = true
  ∧ (is_efi_secure_boot_enabled e = true ∨ device_is_provisioning e = true)
  ∧ device_is_unlocked e = false
  ∧ EFI_ERROR (verify_android_keystore e (select_keystore e)) = false
  ∧ lp = false ∧ ks = select_keystore e ∧ evs = [].
Proof.
  intros Hcheck.
  destruct (check_device_state_checked _ _ _ _ _ _ Hcheck)
    as [(_ & H & _)|[(_ & _ & _ & _ & H & _)|[(_ & _ & _ & H & _)
        |(Hud & Hsb & Hun & Hst & -> & -> & ->)]]]; try discriminate H.
  destruct (EFI_ERROR (verify_android_keystore e (select_keystore e))) eqn:Ev;
    [discriminate Hst|].
  repeat split; assumption.
Qed.

(** X27: an image is started in the GREEN state only in a USERDEBUG
    build, with secure boot on or the device provisioning, the device not
    unlocked and the selected keystore verified against the OEM key.  The
    image is then that of the chosen target, loaded without error and,
    with a selected keystore, passed by [validate_bootimage] for that
    target; or it is the Fastboot image of a USERFASTBOOT build,
    respectively the TDOS image, verified against the OEM keystore and
    labelled [/fastboot], respectively [/tdos].  No warning was shown and
    the memory was not cleared. *)
Theorem green_boot_is_verified (mb : main_build) (b : build) (x : externals)
    (p : platform) (e : main_env) (s : state) (img : option bootimage)
    (t : option boot_target) (ret : EFI_STATUS) (jumps : list handover_event) :
  In (image_start img BOOT_STATE_GREEN t ret jumps) (fst (efi_main mb b x p e s)) →
  USERDEBUG mb = true
  ∧ (is_efi_secure_boot_enabled e = true ∨ device_is_provisioning e = true)
  ∧ device_is_unlocked e = false
  ∧ EFI_ERROR (verify_android_keystore e (select_keystore e)) = false
  ∧ ((t = Some (fst (fst (choose_boot_target b x p s)))
      ∧ image_target (fst (fst (choose_boot_target b x p s))) = true
      ∧ ∀ ks, select_keystore e = Some ks →
              ∃ image, img = Some image
                       ∧ validate_bootimage b x (fst (fst (choose_boot_target b x p s)))
                           image ks = EFI_SUCCESS)
     ∨ (t = Some FASTBOOT ∧ USERFASTBOOT b = true
        ∧ verified_by_oem_keystore x e img (L "/fastboot"))
     ∨ (t = Some TDOS ∧ verified_by_oem_keystore x e img (L "/tdos")))
  ∧ existsb warning (fst (efi_main mb b x p e s)) = false
  ∧ existsb clears_memory (fst (efi_main mb b x p e s)) = false.
Proof.
  intros Hin.
  destruct (efi_main_start_paths _ _ _ _ _ _ _ _ _ _ _ Hin)
    as (chosen & o & s' & evs & st0 & lp & ks0 & Hchoose & Hcheck
        & [(_ & Hu & <- & Ht & Hv & Htrace)
          |[(_ & _ & Hst & _)
           |[(_ & <- & Ht & Hv & Htrace)
            |(Ht & Htarget & _ & _ & _ & loaded & deleted & Hload & Hst & _ & Htrace)]]]).
  - destruct (green_device_state _ _ _ _ _ Hcheck) as (Hud & Hsb & Hun & Hks & _ & _ & ->).
    split; [exact Hud|]. split; [exact Hsb|]. split; [exact Hun|]. split; [exact Hks|].
    split; [right; left; split; [exact Ht|]; split; [exact Hu | exact (Hv Hud)]|].
    rewrite Htrace, !existsb_app, !main_prefix_exists by reflexivity.
    destruct (load_image_events_facts img BOOT_STATE_GREEN t ret jumps) as (-> & -> & _).
    split; reflexivity.
  - discriminate Hst.
  - destruct (green_device_state _ _ _ _ _ Hcheck) as (Hud & Hsb & Hun & Hks & _ & _ & ->).
    split; [exact Hud|]. split; [exact Hsb|]. split; [exact Hun|]. split; [exact Hks|].
    split; [right; right; split; [exact Ht | exact (Hv Hud)]|].
    rewrite Htrace, !existsb_app, !main_prefix_exists by reflexivity.
    destruct (load_image_events_facts img BOOT_STATE_GREEN t ret jumps) as (-> & -> & _).
    split; reflexivity.
  - destruct (EFI_ERROR loaded) eqn:El; [discriminate Hst|]. subst st0.
    destruct (green_device_state _ _ _ _ _ Hcheck) as (Hud & Hsb & Hun & Hks & -> & -> & ->).
    split; [exact Hud|]. split; [exact Hsb|]. split; [exact Hun|]. split; [exact Hks|].
    rewrite Hchoose. cbn [fst].
    split.
    { left. split; [exact Ht|]. split; [exact Htarget|].
      destruct (load_boot_image_facts _ _ _ _ _ _ _ _ _ Hload)
        as (_ & _ & _ & Hval & _ & Himg & _).
      intros ks Hks'. rewrite Hks' in Hval, Himg.
      destruct img as [image|]; [|exfalso; apply Himg; [discriminate | exact El | reflexivity]].
      exists image. split; [reflexivity|].
      pose proof (Hval image ks eq_refl eq_refl) as Hv.
      destruct (validate_bootimage_codes b x chosen image ks) as [E|E]; [exact E|].
      rewrite <- Hv in E. rewrite E in El. discriminate El. }
    destruct (image_events_facts e chosen (target_path o) loaded img deleted)
      as (Hiw & Hic & _).
    rewrite Htrace, !existsb_app, !main_prefix_exists, Hiw, Hic, El by reflexivity.
    destruct (load_image_events_facts img BOOT_STATE_GREEN t ret jumps) as (-> & -> & _).
    split; reflexivity.
Qed.

(** The warning that precedes the image of the chosen target in a
    USERDEBUG build, unless the state is GREEN. *)
Lemma own_image_warned (mb : main_build) (e : main_env) (evs : list main_event)
    (st0 : Z) (lp : bool) (ks : option (list CHAR8)) (loaded : EFI_STATUS) :
  check_device_state mb e = (evs, checked st0 lp ks) →
  USERDEBUG mb = true →
  (st0 =? BOOT_STATE_YELLOW) && NO_DEVICE_UNLOCK mb = false →
  (st0 =? BOOT_STATE_ORANGE) && negb lp && NO_DEVICE_UNLOCK mb = false →
  (EFI_ERROR loaded = true → NO_DEVICE_UNLOCK mb = false) →
  (NO_DEVICE_UNLOCK mb = true →
   (if EFI_ERROR loaded then BOOT_STATE_RED else st0) = BOOT_STATE_GREEN)
  ∧ ((if EFI_ERROR loaded then BOOT_STATE_RED else st0) ≠ BOOT_STATE_GREEN →
     existsb warning evs || existsb warning (lock_warnings st0 lp) || EFI_ERROR loaded
     = true).
Proof.
  intros Hcheck Hud Hy Ho Herr.
  destruct (check_device_state_checked _ _ _ _ _ _ Hcheck)
    as [(H & _)|[(_ & Hndu & _ & _ & -> & -> & -> & ->)
        |[(_ & _ & _ & -> & -> & -> & ->)|(_ & _ & _ & -> & -> & -> & ->)]]].
  - congruence.
  - rewrite Hndu. split; [discriminate | reflexivity].
  - destruct (NO_DEVICE_UNLOCK mb); [discriminate Ho|].
    split; [discriminate | reflexivity].
  - destruct (EFI_ERROR (verify_android_keystore e (select_keystore e))).
    + destruct (NO_DEVICE_UNLOCK mb); [discriminate Hy|].
      split; [discriminate | reflexivity].
    + destruct (EFI_ERROR loaded).
      * rewrite (Herr eq_refl). split; [discriminate | reflexivity].
      * split; [reflexivity | intros H; contradiction].
Qed.

(** X28: the state an image is started in.  It is one of the four
    colours.  The start follows the store of the state in [BootState]
    directly, and the memory is cleared before exactly when the state is
    not GREEN.  Without USERDEBUG the state is RED, or ORANGE for an image
    that fastboot received; such an image is always started in ORANGE.
    The image of the chosen target is started in GREEN in a USERDEBUG
    build that forbids unlocking, and in a USERDEBUG build in any state
    but GREEN only after a warning. *)
Theorem image_started_state (mb : main_build) (b : build) (x : externals)
    (p : platform) (e : main_env) (s : state) (img : option bootimage) (st : Z)
    (t : option boot_target) (ret : EFI_STATUS) (jumps : list handover_event) :
  In (image_start img st t ret jumps) (fst (efi_main mb b x p e s)) →
  (st = BOOT_STATE_GREEN ∨ st = BOOT_STATE_YELLOW ∨ st = BOOT_STATE_ORANGE
   ∨ st = BOOT_STATE_RED)
  ∧ (∃ pre post,
       fst (efi_main mb b x p e s) = pre ++ load_image_events img st t ret jumps ++ post)
  ∧ existsb clears_memory (fst (efi_main mb b x p e s)) = negb (st =? BOOT_STATE_GREEN)
  ∧ (USERDEBUG mb = false →
     st = BOOT_STATE_RED ∨ (st = BOOT_STATE_ORANGE ∧ t = None))
  ∧ (t = None → st = BOOT_STATE_ORANGE ∧ USERFASTBOOT b = false)
  ∧ (∀ target, t = Some target → image_target target = true → USERDEBUG mb = true →
               (NO_DEVICE_UNLOCK mb = true → st = BOOT_STATE_GREEN)
               ∧ (st ≠ BOOT_STATE_GREEN →
                  existsb warning (fst (efi_main mb b x p e s)) = true)).
Proof.
  intros Hin.
  destruct (efi_main_start_paths _ _ _ _ _ _ _ _ _ _ _ Hin)
    as (chosen & o & s' & evs & st0 & lp & ks0 & Hchoose & Hcheck
        & [(_ & Hu & -> & -> & _ & Htrace)
          |[(_ & Hu & -> & -> & _ & pre & post & Htrace)
           |[(_ & -> & -> & _ & Htrace)
            |(-> & Htarget & _ & Hy & Ho & loaded & deleted & Hload & Hst & Herr
              & Htrace)]]]).
  - pose proof (check_device_state_prompts mb e) as (_ & Hclear & _).
    rewrite Hcheck in Hclear. cbn [fst] in Hclear.
    split; [exact (check_device_state_colour _ _ _ _ _ _ Hcheck)|].
    split.
    { exists (main_prefix s s' chosen evs ++ [set_oem_key_var; set_oemvars_update true]), [].
      rewrite Htrace, app_nil_r, <- app_assoc. reflexivity. }
    split.
    { rewrite Htrace, !existsb_app, main_prefix_exists, Hclear by reflexivity.
      rewrite (proj1 (proj2 (load_image_events_facts _ _ _ _ _))). reflexivity. }
    split.
    { intros Hud. left.
      destruct (check_device_state_checked _ _ _ _ _ _ Hcheck)
        as [(_ & -> & _)|[(H & _)|[(H & _)|(H & _)]]]; [reflexivity|congruence..]. }
    split; [discriminate|].
    intros target [= <-] Himage. discriminate Himage.
  - split; [right; right; left; reflexivity|].
    split.
    { exists (main_prefix s s' chosen evs ++ pre), post.
      rewrite Htrace, <- app_assoc. reflexivity. }
    split.
    { rewrite Htrace, !existsb_app.
      rewrite (proj1 (proj2 (load_image_events_facts _ _ _ _ _))).
      change (negb (BOOT_STATE_ORANGE =? BOOT_STATE_GREEN)) with true.
      rewrite ?orb_true_r. reflexivity. }
    split; [intros _; right; split; reflexivity|].
    split; [intros _; split; [reflexivity | exact Hu]|].
    intros target H. discriminate H.
  - pose proof (check_device_state_prompts mb e) as (_ & Hclear & _).
    rewrite Hcheck in Hclear. cbn [fst] in Hclear.
    split; [exact (check_device_state_colour _ _ _ _ _ _ Hcheck)|].
    split.
    { exists (main_prefix s s' chosen evs), [].
      rewrite Htrace, app_nil_r. reflexivity. }
    split.
    { rewrite Htrace, !existsb_app, main_prefix_exists, Hclear by reflexivity.
      rewrite (proj1 (proj2 (load_image_events_facts _ _ _ _ _))). reflexivity. }
    split.
    { intros Hud. left.
      destruct (check_device_state_checked _ _ _ _ _ _ Hcheck)
        as [(_ & -> & _)|[(H & _)|[(H & _)|(H & _)]]]; [reflexivity|congruence..]. }
    split; [discriminate|].
    intros target [= <-] Himage. discriminate Himage.
  - pose proof (check_device_state_prompts mb e) as (_ & Hclear & _).
    rewrite Hcheck in Hclear. cbn [fst] in Hclear.
    destruct (image_events_facts e chosen (target_path o) loaded img deleted)
      as (Hiw & Hic & _).
    split.
    { subst st. destruct (EFI_ERROR loaded); [right; right; right; reflexivity|].
      exact (check_device_state_colour _ _ _ _ _ _ Hcheck). }
    split.
    { exists (main_prefix s s' chosen evs ++ lock_warnings st0 lp
              ++ image_events e chosen (target_path o) loaded img deleted), [].
      rewrite Htrace, app_nil_r, <- !app_assoc. reflexivity. }
    split.
    { rewrite Htrace, !existsb_app, main_prefix_exists, Hclear, Hic by reflexivity.
      rewrite (proj1 (proj2 (lock_warnings_facts st0 lp))).
      rewrite (proj1 (proj2 (load_image_events_facts _ _ _ _ _))). reflexivity. }
    split.
    { intros Hud. left. subst st.
      destruct (check_device_state_checked _ _ _ _ _ _ Hcheck)
        as [(_ & -> & _)|[(H & _)|[(H & _)|(H & _)]]]; [|congruence..].
      destruct (EFI_ERROR loaded); reflexivity. }
    split; [discriminate|].
    intros target _ _ Hud.
    destruct (own_image_warned mb e evs st0 lp ks0 loaded Hcheck Hud Hy Ho
                (λ H, proj1 (Herr H))) as [Hgreen Hwarned].
    subst st. split; [exact Hgreen|].
    intros Hst.
    rewrite Htrace, !existsb_app, main_prefix_exists, Hiw by reflexivity.
    rewrite (proj1 (load_image_events_facts _ _ _ _ _)).
    rewrite orb_false_r, !orb_assoc. exact (Hwarned Hst).
Qed.

(** The prompts of the check of the device state and the warnings about
    the lock state make one prompt at most. *)
Lemma device_state_lock_prompts (mb : main_build) (e : main_env) (evs : list main_event)
    (st0 : Z) (lp : bool) (ks : option (list CHAR8)) :
  check_device_state mb e = (evs, checked st0 lp ks) →
  (length (List.filter lock_prompt evs)
   + length (List.filter lock_prompt (lock_warnings st0 lp)) ≤ 1)%nat
  ∧ List.filter image_prompt evs = [].
Proof.
  intros Hcheck.
  destruct (check_device_state_checked _ _ _ _ _ _ Hcheck)
    as [(_ & -> & -> & _ & ->)|[(_ & _ & _ & _ & -> & -> & _ & ->)
        |[(_ & _ & _ & -> & -> & _ & ->)|(_ & _ & _ & -> & -> & _ & ->)]]];
    try destruct (EFI_ERROR (verify_android_keystore e (select_keystore e)));
    cbn; split; first [lia | reflexivity].
Qed.

(** The prompts of [start_target]. *)
Lemma start_target_prompts (mb : main_build) (b : build) (x : externals) (e : main_env)
    (chosen : boot_target) (o : outputs) (st0 : Z) (lp : bool)
    (ks : option (list CHAR8)) :
  (length (List.filter lock_prompt (fst (start_target mb b x e chosen o st0 lp ks)))
   ≤ length (List.filter lock_prompt (lock_warnings st0 lp)))%nat
  ∧ (length (List.filter image_prompt (fst (start_target mb b x e chosen o st0 lp ks)))
     ≤ 1)%nat.
Proof.
  destruct (start_target_cases mb b x e chosen o st0 lp ks)
    as [[_ ->]|[[_ ->]|[[_ ->]|[(_ & _ & ->)|(_ & _ & _ & _ & _ & _ & ->)]]]].
  - destruct (quiet_no_prompts _ (proj1 (enter_fastboot_mode_facts mb b x e st0
                                           (target_address o)))) as [-> ->].
    cbn. lia.
  - cbn [fst].
    destruct (quiet_no_prompts _ (proj1 (enter_efi_binary_quiet e (target_path o)
                                           (oneshot o)))) as [-> ->].
    cbn. lia.
  - destruct (quiet_no_prompts _ (proj1 (enter_tdos_facts mb b x e st0))) as [-> ->].
    cbn. lia.
  - cbn [fst]. destruct (lock_warnings_facts st0 lp) as (_ & _ & -> & _). cbn. lia.
  - rewrite after_fst, !List.filter_app, !length_app.
    destruct (lock_warnings_facts st0 lp) as (_ & _ & -> & _).
    destruct (boot_android_prompts mb b x e chosen o st0 ks) as [-> Hi].
    cbn [length]. lia.
Qed.

(** X29: however a boot ends, the user is asked at most once about the
    lock state of the device (secure boot off, keystore unverified or device
    unlocked) and at most once about an image that did not load or
    verify. *)
Theorem efi_main_prompts_once (mb : main_build) (b : build) (x : externals)
    (p : platform) (e : main_env) (s : state) :
  (length (List.filter lock_prompt (fst (efi_main mb b x p e s))) ≤ 1)%nat
  ∧ (length (List.filter image_prompt (fst (efi_main mb b x p e s))) ≤ 1)%nat.
Proof.
  destruct (EFI_ERROR (OpenProtocol_ret e)) eqn:Hopen.
  { unfold efi_main. rewrite Hopen. cbn. lia. }
  destruct (file_exists p FWUPDATE_FILE) eqn:Hfile.
  { unfold efi_main. rewrite Hopen, Hfile. cbn. lia. }
  destruct (choose_boot_target b x p s) as [[chosen o] s'] eqn:Hchoose.
  destruct (decide (chosen = EXIT_SHELL)) as [->|Hexit].
  { rewrite (efi_main_exit_shell mb b x p e s s' o Hopen Hfile Hchoose).
    cbn [fst List.filter lock_prompt image_prompt].
    rewrite !shown_since_filter by reflexivity. cbn. lia. }
  destruct (decide (chosen = POWER_OFF)) as [->|Hoff].
  { rewrite (efi_main_power_off mb b x p e s s' o Hopen Hfile Hchoose).
    cbn [fst List.filter lock_prompt image_prompt].
    rewrite !shown_since_filter by reflexivity. cbn. lia. }
  destruct (check_device_state mb e) as [evs d] eqn:Hcheck.
  rewrite (efi_main_checked mb b x p e s s' chosen o evs d Hopen Hfile Hchoose Hexit Hoff
             Hcheck).
  rewrite after_fst, !List.filter_app, !length_app, !main_prefix_filter by reflexivity.
  destruct d as [st0 lp ks|].
  - destruct (device_state_lock_prompts _ _ _ _ _ _ Hcheck) as [Hl ->].
    destruct (start_target_prompts mb b x e chosen o st0 lp ks) as [Hsl Hsi].
    cbn [length]. lia.
  - destruct (check_device_state_halted _ _ _ Hcheck) as (_ & _ & ->). cbn. lia.
Qed.





(** On an unlocked device a build that forbids unlocking still starts what
    [fastboot boot] sent, in the ORANGE state and without a warning, and
    halts when [fastboot_start] fails. *)
Example fastboot_boot_starts_unwarned :
  fst (fst (choose_boot_target user_build sample_externals quiet_platform fastboot_state))
  = FASTBOOT
  ∧ In (image_start (Some good_image) BOOT_STATE_ORANGE None EFI_LOAD_ERROR
          [handover_jump 16778128])
       (fst (efi_main locked_build user_build sample_externals quiet_platform
               fastboot_boot_env fastboot_state))
  ∧ existsb warning
      (fst (efi_main locked_build user_build sample_externals quiet_platform
              fastboot_boot_env fastboot_state)) = false
  ∧ snd (efi_main locked_build user_build sample_externals quiet_platform
           fastboot_boot_env fastboot_state) = halt_system.
Proof.
  vm_compute. repeat split. repeat (first [left; reflexivity | right]).
Qed.

(** On an unlocked device the TDOS image is started in the ORANGE state,
    verified against the OEM keystore, before any warning. *)
Example unlocked_tdos_starts_unwarned :
  fst (fst (choose_boot_target user_build tdos_externals quiet_platform persistent_state))
  = TDOS
  ∧ fst (efi_main locked_build user_build tdos_externals quiet_platform unlocked_main_env
           persistent_state)
    = main_prefix persistent_state
        (snd (choose_boot_target user_build tdos_externals quiet_platform persistent_state))
        TDOS []
      ++ [android_clear_memory; set_boot_state_var BOOT_STATE_ORANGE;
          image_start (Some good_image) BOOT_STATE_ORANGE (Some TDOS) EFI_LOAD_ERROR
            [handover_jump 16778128]]
  ∧ existsb warning
      (fst (efi_main locked_build user_build tdos_externals quiet_platform
              unlocked_main_env persistent_state)) = false.
Proof.
  vm_compute. repeat split.
Qed.

(** ** The further theorems at sample inputs *)

Ltac sample_condition :=
  first [ reflexivity
        | discriminate
        | lia
        | (cbn; lia)
        | (split; [lia | reflexivity])
        | (vm_compute; reflexivity)
        | (vm_compute; intuition (try discriminate; try lia))
        | (repeat split; first [reflexivity | cbn; lia | vm_compute; intuition discriminate]) ].

Lemma pagealign_rounds_up_witness :
  pagealign (aosp_header good_image) 5000 mod page_size (aosp_header good_image) = 0
  ∧ 5000 ≤ pagealign (aosp_header good_image) 5000
    < 5000 + page_size (aosp_header good_image).
Proof.
  exact (pagealign_rounds_up (aosp_header good_image) 12 5000
           ltac:(sample_condition) ltac:(sample_condition) ltac:(sample_condition)).
Defined.

Lemma pagealign_wraps_to_zero_witness :
  pagealign (aosp_header good_image) 4294967295 = 0.
Proof.
  exact (pagealign_wraps_to_zero (aosp_header good_image) 12 4294967295
           ltac:(sample_condition) ltac:(sample_condition)).
Defined.

Lemma bootimage_size_covers_sections_witness :
  bootimage_size (aosp_header two_stage_image) mod 2048 = 0
  ∧ 2048 + 5000000 + 70000 + 100 ≤ bootimage_size (aosp_header two_stage_image)
  ∧ bootimage_size (aosp_header two_stage_image)
    < 2048 + 5000000 + 70000 + 100 + 3 * 2048.
Proof.
  exact (bootimage_size_covers_sections (aosp_header two_stage_image) 11
           ltac:(sample_condition) ltac:(sample_condition)).
Defined.

Lemma get_bootimage_2nd_inside_image_witness :
  ∃ offset,
    get_bootimage_2nd user_build (Some two_stage_image) = Ok (offset, 100)
    ∧ offset mod 2048 = 0
    ∧ 2048 + 5000000 + 70000 ≤ offset
    ∧ offset + pagealign (aosp_header two_stage_image) 100
      = bootimage_size (aosp_header two_stage_image)
    ∧ offset + 100 ≤ bootimage_size (aosp_header two_stage_image).
Proof.
  exact (get_bootimage_2nd_inside_image user_build two_stage_image 11
           eq_refl ltac:(sample_condition) ltac:(sample_condition)
           ltac:(sample_condition)).
Defined.

Lemma bcb_write_then_read_witness :
  read_bcb (snd (write_bcb (sample_misc (field "" "x"%char)) recovery_record))
  = Ok (terminated recovery_record)
  ∧ (∀ m0, read_bcb m0 = Ok recovery_record →
           read_bcb (snd (write_bcb (sample_misc (field "" "x"%char)) recovery_record))
           = Ok recovery_record).
Proof.
  exact (bcb_write_then_read (sample_misc (field "" "x"%char)) recovery_record
           eq_refl eq_refl).
Defined.

Lemma check_bcb_clears_status_witness :
  cstr (status (stored (misc persistent_state))) = A "OKAY"
  ∧ cstr (status (stored (misc (snd (check_bcb user_build sample_externals quiet_platform
                                       persistent_state))))) = []
  ∧ command (stored (misc (snd (check_bcb user_build sample_externals quiet_platform
                                  persistent_state))))
    = command recovery_record.
Proof.
  destruct (check_bcb_clears_status user_build sample_externals quiet_platform
              persistent_state recovery_record ltac:(sample_condition) eq_refl)
    as (w & _ & _ & _ & Hc & Hdisk & _).
  destruct (Hdisk eq_refl) as [Hst He].
  split; [reflexivity|]. split; [exact He|].
  rewrite Hst. apply Hc. left. reflexivity.
Defined.

Lemma check_bcb_bootonce_unknown_name_witness :
  cstr (command (stored (misc unknown_bootonce_state))) = A "bootonce-nowhere"
  ∧ fst (check_bcb user_build sample_externals quiet_platform unknown_bootonce_state)
    = (NORMAL_BOOT, None, true)
  ∧ cstr (command (stored (misc (snd (check_bcb user_build sample_externals quiet_platform
                                        unknown_bootonce_state))))) = [].
Proof.
  destruct (check_bcb_bootonce_unknown_name user_build sample_externals quiet_platform
              unknown_bootonce_state unknown_bootonce_record (A "nowhere")
              eq_refl eq_refl ltac:(sample_condition) eq_refl)
    as (w & s' & Hrun & _ & _ & Hdisk).
  destruct (Hdisk eq_refl) as (_ & _ & He).
  rewrite Hrun. cbn [fst snd].
  split; [reflexivity|]. split; [reflexivity | exact He].
Defined.

Lemma check_bcb_path_target_witness :
  fst (fst (fst (check_bcb user_build sample_externals sentinel_platform
                   binary_path_state))) = ESP_EFI_BINARY
  ∧ snd (fst (fst (check_bcb user_build sample_externals sentinel_platform
                     binary_path_state))) = Some (L "\loader.efi").
Proof.
  destruct (check_bcb_path_target user_build sample_externals sentinel_platform
              binary_path_state binary_path_record (A "\loader.efi")
              eq_refl ltac:(left; reflexivity) eq_refl)
    as [_ Hpath].
  destruct (Hpath eq_refl ltac:(sample_condition)) as (Hp & Hefi & _).
  split; [apply Hefi; left; reflexivity | exact Hp].
Defined.

Lemma check_watchdog_keeps_counter_bounded_witness :
  0 ≤ counter (watchdog (snd (check_watchdog user_build watchdog_platform (idle_state 2))))
  ≤ WATCHDOG_COUNTER_MAX.
Proof.
  exact (check_watchdog_keeps_counter_bounded user_build watchdog_platform (idle_state 2)
           ltac:(sample_condition)).
Defined.

Lemma check_watchdog_escalates_witness :
  fst (check_watchdog user_build (watchdog_platform_at 9 5) (idle_state 2)) = FASTBOOT
  ∧ crash_prompts (console (snd (check_watchdog user_build (watchdog_platform_at 9 5)
                                   (idle_state 2)))) = 1%nat
  ∧ counter (watchdog (snd (check_watchdog user_build (watchdog_platform_at 9 5)
                              (idle_state 2)))) = 0.
Proof.
  destruct (check_watchdog_escalates user_build (watchdog_platform_at 9 5) (idle_state 2)
              ltac:(sample_condition) ltac:(sample_condition) ltac:(sample_condition))
    as (Ht & Hc & _ & _ & H0 & _).
  split; [exact Ht|]. split; [exact Hc | exact (H0 eq_refl)].
Defined.

Lemma check_watchdog_counter_overflow_witness :
  fst (check_watchdog user_build (watchdog_platform_at 9 5) (idle_state 255)) = NORMAL_BOOT
  ∧ counter (watchdog (snd (check_watchdog user_build (watchdog_platform_at 9 5)
                              (idle_state 255)))) = 0
  ∧ crash_prompts (console (snd (check_watchdog user_build (watchdog_platform_at 9 5)
                                   (idle_state 255)))) = 0%nat.
Proof.
  exact (check_watchdog_counter_overflow user_build (watchdog_platform_at 9 5)
           (idle_state 255)
           ltac:(sample_condition) ltac:(sample_condition) eq_refl).
Defined.

Lemma third_watchdog_reset_raises_menu_witness :
  fst (check_watchdog user_build (watchdog_platform_at 9 1) (idle_state 0)) = NORMAL_BOOT
  ∧ fst (check_watchdog user_build (watchdog_platform_at 9 5)
           (snd (check_watchdog user_build (watchdog_platform_at 9 3)
                   (snd (check_watchdog user_build (watchdog_platform_at 9 1)
                           (idle_state 0)))))) = FASTBOOT
  ∧ watchdog (snd (check_watchdog user_build (watchdog_platform_at 9 5)
                     (snd (check_watchdog user_build (watchdog_platform_at 9 3)
                             (snd (check_watchdog user_build (watchdog_platform_at 9 1)
                                     (idle_state 0))))))) 
    = {| counter := 0; time_reference := time_of 9 1 |}.
Proof.
  destruct (third_watchdog_reset_raises_menu user_build (watchdog_platform_at 9 1)
              (watchdog_platform_at 9 3) (watchdog_platform_at 9 5) (idle_state 0)
              ltac:(sample_condition) ltac:(sample_condition) ltac:(sample_condition)
              eq_refl eq_refl ltac:(sample_condition) ltac:(sample_condition))
    as (H1 & _ & _ & _ & _ & H3 & Hw & _).
  split; [exact H1|]. split; [exact H3 | exact Hw].
Defined.

Lemma watchdog_window_ignores_day_witness :
  watchdog_window_counter user_build 1 (with_day (time_of 9 5) 20) (with_day (time_of 9 0) 3)
  = 1.
Proof.
  exact (watchdog_window_ignores_day user_build 1 20 3 (time_of 9 5) (time_of 9 0)
           ltac:(sample_condition)).
Defined.

Lemma sentinel_forces_fastboot_first_witness :
  fst (choose_boot_target user_build sample_externals sentinel_platform bootonce_state)
  = (FASTBOOT, {| target_address := 0; target_path := None; oneshot := true |})
  ∧ efi_vars (snd (choose_boot_target user_build sample_externals sentinel_platform
                     bootonce_state)) = efi_vars bootonce_state
  ∧ misc (snd (choose_boot_target user_build sample_externals sentinel_platform
                 bootonce_state)) = misc bootonce_state.
Proof.
  exact (sentinel_forces_fastboot_first user_build sample_externals sentinel_platform
           bootonce_state ltac:(right; reflexivity) eq_refl eq_refl).
Defined.

Lemma get_serial_port_reads_both_encodings_witness :
  get_serial_port (Ok (as_str8 (A "ttyS0"))) = L "ttyS0"
  ∧ get_serial_port (Ok (as_str16 (A "ttyS0"))) = L "ttyS0"
  ∧ get_serial_port (Ok (A "ttyS0")) = L "ttyS".
Proof.
  destruct (get_serial_port_reads_both_encodings (A "ttyS0")
              ltac:(repeat constructor))
    as (H8 & H16 & Hcut).
  split; [exact (H8 ltac:(cbn; lia))|].
  split; [exact (H16 ltac:(cbn; lia)) | exact (Hcut ltac:(cbn; lia))].
Defined.

Lemma start_buffer_jumps_only_after_checks_witness :
  ∃ image, Some good_image = Some image
    ∧ bad_magic user_build (aosp_header image) = false
    ∧ signature (hdr image) = 0xAA55
    ∧ header (hdr image) = SETUP_HDR sample_externals
    ∧ 0x20c ≤ version (hdr image)
    ∧ Z.land (xloadflags (hdr image)) (handover_flag user_build sample_externals) ≠ 0
    ∧ relocatable_kernel (hdr image) ≠ 0
    ∧ EFI_ERROR (setup_command_line_ret sample_handover_env) = false
    ∧ EFI_ERROR (setup_ramdisk sample_handover_env image) = false
    ∧ android_image_start_buffer user_build sample_externals sample_handover_env
        (Some good_image)
      = (EFI_LOAD_ERROR, [handover_jump 16778128]).
Proof.
  exact (start_buffer_jumps_only_after_checks user_build sample_externals
           sample_handover_env (Some good_image) 16778128
           ltac:(left; reflexivity)).
Defined.

Lemma load_file_deletes_on_every_exit_witness :
  android_image_load_file user_build (sample_file flipped_magic_image) true
  = Loaded EFI_INVALID_PARAMETER None true
  ∧ true = true && bool_decide (Delete_ret (sample_file flipped_magic_image) = EFI_SUCCESS).
Proof.
  split; [reflexivity|].
  destruct (load_file_deletes_on_every_exit user_build (sample_file flipped_magic_image)
              true EFI_INVALID_PARAMETER None true eq_refl)
    as [_ Hdel].
  exact (Hdel eq_refl eq_refl eq_refl eq_refl eq_refl (λ _, eq_refl)).
Defined.

Lemma load_boot_image_contract_witness :
  load_boot_image user_build sample_externals sample_sources RECOVERY
    (Some sample_keystore) false
  = Boot_image EFI_SUCCESS (Some good_image) false
  ∧ EFI_SUCCESS
    = validate_bootimage user_build sample_externals RECOVERY good_image sample_keystore.
Proof.
  split; [reflexivity|].
  destruct (load_boot_image_contract user_build sample_externals sample_sources RECOVERY
              (Some sample_keystore) false EFI_SUCCESS (Some good_image) false eq_refl)
    as (_ & _ & _ & Hval & _).
  exact (Hval good_image sample_keystore eq_refl eq_refl).
Defined.

Lemma green_boot_is_verified_witness :
  USERDEBUG locked_build = true
  ∧ device_is_unlocked sample_main_env = false
  ∧ (∃ image, Some good_image = Some image
              ∧ validate_bootimage user_build sample_externals NORMAL_BOOT image
                  sample_keystore = EFI_SUCCESS)
  ∧ existsb warning (fst (efi_main locked_build user_build sample_externals quiet_platform
                            sample_main_env (idle_state 0))) = false.
Proof.
  destruct (green_boot_is_verified locked_build user_build sample_externals quiet_platform
              sample_main_env (idle_state 0) (Some good_image) (Some NORMAL_BOOT)
              EFI_LOAD_ERROR [handover_jump 16778128]
              ltac:(vm_compute; repeat (first [left; reflexivity | right])))
    as (Hud & _ & Hun & _ & Hpath & Hw & _).
  split; [exact Hud|]. split; [exact Hun|]. split; [|exact Hw].
  destruct Hpath as [(_ & _ & Hval)|[(Ht & _)|(Ht & _)]];
    [exact (Hval sample_keystore eq_refl) | discriminate Ht | discriminate Ht].
Defined.

Lemma image_started_state_witness :
  existsb clears_memory
    (fst (efi_main open_build user_build sample_externals quiet_platform unlocked_main_env
            (idle_state 0))) = true
  ∧ (∃ pre post,
       fst (efi_main open_build user_build sample_externals quiet_platform
              unlocked_main_env (idle_state 0))
       = pre ++ load_image_events (Some good_image) BOOT_STATE_ORANGE (Some NORMAL_BOOT)
                  EFI_LOAD_ERROR [handover_jump 16778128] ++ post)
  ∧ existsb warning
      (fst (efi_main open_build user_build sample_externals quiet_platform
              unlocked_main_env (idle_state 0))) = true.
Proof.
  destruct (image_started_state open_build user_build sample_externals quiet_platform
              unlocked_main_env (idle_state 0) (Some good_image) BOOT_STATE_ORANGE
              (Some NORMAL_BOOT) EFI_LOAD_ERROR [handover_jump 16778128]
              ltac:(vm_compute; repeat (first [left; reflexivity | right])))
    as (_ & Htrace & Hc & _ & _ & Hown).
  split; [exact Hc|]. split; [exact Htrace|].
  exact (proj2 (Hown NORMAL_BOOT eq_refl eq_refl eq_refl) ltac:(discriminate)).
Defined.

